(** * ddQuint: the plate-plot module, [ddquint/visualization/plate_plots.py]

    A shallow embedding of the module that stitches the per-well scatter
    plots of a 96-well ddPCR plate into one composite image, and the
    properties of it that the specification states.

    The module is glue over the file system, pandas and matplotlib.  The
    embedding keeps its control flow as it is written: every function of the
    module is a function here, under the same name; the result dictionaries
    live in a store and are shared by reference; exceptions are values that
    propagate until a handler of the source catches them.  What the module
    calls but does not define (the operating system, [pandas.read_csv],
    [create_well_plot], the figure renderer) is a field of the environment
    [Env], so that each of them may succeed or raise as the real one may. *)

From Stdlib Require Import ZArith QArith String Ascii List.
From stdpp Require Import gmap strings list fin_maps pretty.

Local Open Scope string_scope.
Local Open Scope Z_scope.

(** ** Python values *)

(** The values a field of a result dictionary holds, as far as the module
    looks at them: it tests them for truth, compares them with [None], uses
    them as file paths, as dictionary keys, and formats them into a file
    name.  [VEmptyDict] is the literal [{}] that [_extract_clustering_results]
    takes as a default; [VObj] is any other object (a data frame, a mapping
    of counts), opaque here: it is truthy, hashable by identity and is no
    path. *)
Inductive pyval : Type :=
  | VNone
  | VBool (b : bool)
  | VInt (z : Z)
  | VStr (s : string)
  | VEmptyDict
  | VObj (id : nat).

#[global] Instance pyval_eq_dec : EqDecision pyval.
Proof. solve_decision. Defined.

(** [bool(v)] *)
Definition truthy (v : pyval) : bool :=
  match v with
  | VNone => false
  | VBool b => b
  | VInt z => negb (z =? 0)
  | VStr s => negb (String.eqb s "")
  | VEmptyDict => false
  | VObj _ => true
  end.

(** [v is None] *)
Definition is_none (v : pyval) : bool :=
  match v with VNone => true | _ => false end.

(** [str(v)], as an f-string formats [v]. *)
Definition py_str (v : pyval) : string :=
  match v with
  | VNone => "None"
  | VBool true => "True"
  | VBool false => "False"
  | VInt z => pretty z
  | VStr s => s
  | VEmptyDict => "{}"
  | VObj id => "<object " +:+ pretty id +:+ ">"
  end.

(** A dictionary with string keys: a result record. *)
Abbreviation dict := (gmap string pyval).

(** [d.get(k, default)] *)
Definition dict_get (d : dict) (k : string) (default : pyval) : pyval :=
  match d !! k with Some v => v | None => default end.

(** ** Exceptions and outcomes *)

Inductive exn : Type :=
  | KeyError
  | TypeError
  | ValueError
  | IndexError
  | OverflowError
  | OSError
  | FileExistsError               (* a subclass of [OSError] *)
  | ParserError
  | PlotError
  | VisualizationError.

(** [except OSError], [except FileExistsError] *)
Definition is_os_error (e : exn) : bool :=
  match e with OSError | FileExistsError => true | _ => false end.

Definition is_file_exists_error (e : exn) : bool :=
  match e with FileExistsError => true | _ => false end.

Inductive outcome (A : Type) : Type :=
  | Ok (a : A)
  | Raise (e : exn).
Arguments Ok {A} a.
Arguments Raise {A} e.

(** ** Paths: [posixpath] on strings *)

Definition slash : ascii := "/"%char.

Fixpoint rstrip_rev (cs : list ascii) : list ascii :=
  match cs with
  | c :: cs' => if Ascii.eqb c slash then rstrip_rev cs' else cs
  | [] => []
  end.

(** [s.rstrip('/')] *)
Definition rstrip_slash (s : string) : string :=
  string_of_list_ascii (rev (rstrip_rev (rev (list_ascii_of_string s)))).

(** [p[:p.rfind('/') + 1]]: the prefix of [p] up to its last slash. *)
Fixpoint head_to_last_slash (cs : list ascii) : list ascii :=
  match cs with
  | [] => []
  | c :: cs' =>
      if existsb (Ascii.eqb slash) cs then c :: head_to_last_slash cs' else []
  end.

(** [os.path.dirname(p)] for a string [p]:
<<
    i = p.rfind('/') + 1
    head = p[:i]
    if head and head != '/' * len(head):
        head = head.rstrip('/')
    return head
>> *)
Definition posix_dirname (p : string) : string :=
  let head := head_to_last_slash (list_ascii_of_string p) in
  if forallb (Ascii.eqb slash) head then string_of_list_ascii head
  else rstrip_slash (string_of_list_ascii head).

(** The tail of [os.path.split(p)]: [p[p.rfind('/') + 1:]]; the head is
    [posix_dirname p]. *)
Definition posix_basename (p : string) : string :=
  let cs := list_ascii_of_string p in
  string_of_list_ascii (drop (length (head_to_last_slash cs)) cs).

Definition dot : ascii := "."%char.

Fixpoint lstrip_dots (cs : list ascii) : list ascii :=
  match cs with
  | c :: cs' => if Ascii.eqb c dot then lstrip_dots cs' else cs
  | [] => []
  end.

(** [s.rstrip('.')] *)
Definition rstrip_dots (s : string) : string :=
  string_of_list_ascii (rev (lstrip_dots (rev (list_ascii_of_string s)))).

(** What follows the last dot of [cs], if it has one. *)
Fixpoint after_last_dot (cs : list ascii) : option (list ascii) :=
  match cs with
  | [] => None
  | c :: cs' =>
      match after_last_dot cs' with
      | Some rest => Some rest
      | None => if Ascii.eqb c dot then Some cs' else None
      end
  end.

(** [os.path.splitext(p)[1][1:]]: the extension of the file name without
    its dot; the dots a file name starts with begin no extension. *)
Definition file_format (p : string) : string :=
  match after_last_dot (lstrip_dots (list_ascii_of_string (posix_basename p))) with
  | Some rest => string_of_list_ascii rest
  | None => ""
  end.

(** The file [fig.savefig(p)] writes: [p] itself when the file name has an
    extension; else the default format is taken and the file is
    [p.rstrip('.') + '.png']. *)
Definition savefig_target (p : string) : string :=
  if String.eqb (file_format p) "" then rstrip_dots p +:+ ".png" else p.

Definition starts_with_slash (s : string) : bool :=
  match s with String c _ => Ascii.eqb c slash | EmptyString => false end.

Definition ends_with_slash (s : string) : bool :=
  match rev (list_ascii_of_string s) with
  | c :: _ => Ascii.eqb c slash
  | [] => false
  end.

(** One step of [os.path.join]: an absolute component restarts the path. *)
Definition join_step (path b : string) : string :=
  if starts_with_slash b then b
  else if String.eqb path "" || ends_with_slash path then path +:+ b
  else path +:+ "/" +:+ b.

(** [os.path.join(a, *ps)] on strings. *)
Definition posix_join (a : string) (ps : list string) : string :=
  fold_left join_step ps a.

(** [os.fspath]: only a string is a path; anything else is a [TypeError]. *)
Definition fspath (v : pyval) : outcome string :=
  match v with VStr s => Ok s | _ => Raise TypeError end.

(** [map(os.fspath, vs)], which stops at the first that is no path. *)
Fixpoint fspaths (vs : list pyval) : outcome (list string) :=
  match vs with
  | [] => Ok []
  | v :: vs' =>
      match fspath v with
      | Ok s => match fspaths vs' with Ok ss => Ok (s :: ss) | Raise e => Raise e end
      | Raise e => Raise e
      end
  end.

(** [needle in line] *)
Fixpoint contains (needle line : string) : bool :=
  String.prefix needle line
  || match line with
     | EmptyString => false
     | String _ rest => contains needle rest
     end.

(** Decimal digits. *)
Definition digit_of (c : ascii) : option Z :=
  let n := Z.of_nat (nat_of_ascii c) in
  if (48 <=? n) && (n <=? 57) then Some (n - 48) else None.

Fixpoint int_digits (acc : Z) (cs : list ascii) : option Z :=
  match cs with
  | [] => Some acc
  | c :: cs' =>
      match digit_of c with
      | Some d => int_digits (10 * acc + d) cs'
      | None => None
      end
  end.

(** The value of a string of ASCII digits. *)
Definition int_of_digits (s : string) : option Z :=
  match list_ascii_of_string s with
  | [] => None
  | cs => int_digits 0 cs
  end.

(** ** Data frames *)

(** A cell of a data frame; [None] is NaN. *)
Definition cell : Type := option string.

Record DataFrame : Type := {
  columns : list string;
  rows : list (list cell)
}.

(** The positions at which a column named [name] stands. *)
Fixpoint positions_from (i : nat) (name : string) (cols : list string) : list nat :=
  match cols with
  | [] => []
  | c :: cols' =>
      if String.eqb c name then i :: positions_from (S i) name cols'
      else positions_from (S i) name cols'
  end.

(** [df[names]]: the columns of those names, in the order asked for. *)
Definition df_select (names : list string) (df : DataFrame) : DataFrame :=
  let pos := flat_map (fun n => positions_from 0 n (columns df)) names in
  {| columns := map (fun i => nth i (columns df) "") pos;
     rows := map (fun r => map (fun i => nth i r None) pos) (rows df) |}.

Definition is_nan (c : cell) : bool :=
  match c with None => true | Some _ => false end.

(** [df.dropna()]: the rows that hold no NaN, in their order. *)
Definition dropna (df : DataFrame) : DataFrame :=
  {| columns := columns df;
     rows := List.filter (fun r => negb (existsb is_nan r)) (rows df) |}.

(** ** Figures *)

(** Decoded pixel data, opaque. *)
Definition image : Type := nat.

Record Spine : Type := {
  edgecolor : option string;      (* [None]: the library default *)
  linewidth : option Z;
  visible : bool
}.

Record TextArtist : Type := {
  tx_x : Q;
  tx_y : Q;
  tx_s : string;
  tx_fontsize : Z;
  tx_color : option string;
  tx_ha : string;
  tx_va : string
}.

Inductive locator : Type :=
  | AutoLocator
  | MultipleLocator (base : Z)
  | FixedLocator (ticks : list Z).

Record Title : Type := {
  title_label : pyval;
  title_fontsize : Z;
  title_pad : Z
}.

Record GridStyle : Type := {
  grid_alpha : Q;
  grid_linewidth : Q
}.

(** An axes object, by the attributes the module sets. *)
Record Axes : Type := {
  facecolor : option string;
  shown : option image;           (* [ax.imshow] *)
  title : option Title;
  texts : list TextArtist;
  spines : list (string * Spine); (* [ax.spines], in its order *)
  xlim : option (Z * Z);
  ylim : option (Z * Z);
  grid : option GridStyle;
  xlocator : locator;
  ylocator : locator;
  tick_length : option Z;
  aspect : option string
}.

Definition default_spine : Spine :=
  {| edgecolor := None; linewidth := None; visible := true |}.

(** What [fig.add_subplot] returns. *)
Definition new_axes : Axes :=
  {| facecolor := None; shown := None; title := None; texts := [];
     spines := [("left", default_spine); ("right", default_spine);
                ("bottom", default_spine); ("top", default_spine)];
     xlim := None; ylim := None; grid := None;
     xlocator := AutoLocator; ylocator := AutoLocator;
     tick_length := None; aspect := None |}.

Definition set_facecolor (c : string) (ax : Axes) : Axes :=
  {| facecolor := Some c; shown := shown ax; title := title ax; texts := texts ax;
     spines := spines ax; xlim := xlim ax; ylim := ylim ax; grid := grid ax;
     xlocator := xlocator ax; ylocator := ylocator ax;
     tick_length := tick_length ax; aspect := aspect ax |}.

Definition imshow (img : image) (ax : Axes) : Axes :=
  {| facecolor := facecolor ax; shown := Some img; title := title ax; texts := texts ax;
     spines := spines ax; xlim := xlim ax; ylim := ylim ax; grid := grid ax;
     xlocator := xlocator ax; ylocator := ylocator ax;
     tick_length := tick_length ax; aspect := aspect ax |}.

Definition set_title (t : Title) (ax : Axes) : Axes :=
  {| facecolor := facecolor ax; shown := shown ax; title := Some t; texts := texts ax;
     spines := spines ax; xlim := xlim ax; ylim := ylim ax; grid := grid ax;
     xlocator := xlocator ax; ylocator := ylocator ax;
     tick_length := tick_length ax; aspect := aspect ax |}.

(** [ax.text(...)] adds one text artist. *)
Definition ax_text (t : TextArtist) (ax : Axes) : Axes :=
  {| facecolor := facecolor ax; shown := shown ax; title := title ax;
     texts := texts ax ++ [t];
     spines := spines ax; xlim := xlim ax; ylim := ylim ax; grid := grid ax;
     xlocator := xlocator ax; ylocator := ylocator ax;
     tick_length := tick_length ax; aspect := aspect ax |}.

(** [for spine in ax.spines.values(): f(spine)] *)
Definition for_spines (f : Spine -> Spine) (ax : Axes) : Axes :=
  {| facecolor := facecolor ax; shown := shown ax; title := title ax; texts := texts ax;
     spines := map (fun ns => (fst ns, f (snd ns))) (spines ax);
     xlim := xlim ax; ylim := ylim ax; grid := grid ax;
     xlocator := xlocator ax; ylocator := ylocator ax;
     tick_length := tick_length ax; aspect := aspect ax |}.

Definition set_xlim (l : Z * Z) (ax : Axes) : Axes :=
  {| facecolor := facecolor ax; shown := shown ax; title := title ax; texts := texts ax;
     spines := spines ax; xlim := Some l; ylim := ylim ax; grid := grid ax;
     xlocator := xlocator ax; ylocator := ylocator ax;
     tick_length := tick_length ax; aspect := aspect ax |}.

Definition set_ylim (l : Z * Z) (ax : Axes) : Axes :=
  {| facecolor := facecolor ax; shown := shown ax; title := title ax; texts := texts ax;
     spines := spines ax; xlim := xlim ax; ylim := Some l; grid := grid ax;
     xlocator := xlocator ax; ylocator := ylocator ax;
     tick_length := tick_length ax; aspect := aspect ax |}.

Definition ax_grid (g : GridStyle) (ax : Axes) : Axes :=
  {| facecolor := facecolor ax; shown := shown ax; title := title ax; texts := texts ax;
     spines := spines ax; xlim := xlim ax; ylim := ylim ax; grid := Some g;
     xlocator := xlocator ax; ylocator := ylocator ax;
     tick_length := tick_length ax; aspect := aspect ax |}.

Definition set_xlocator (l : locator) (ax : Axes) : Axes :=
  {| facecolor := facecolor ax; shown := shown ax; title := title ax; texts := texts ax;
     spines := spines ax; xlim := xlim ax; ylim := ylim ax; grid := grid ax;
     xlocator := l; ylocator := ylocator ax;
     tick_length := tick_length ax; aspect := aspect ax |}.

Definition set_ylocator (l : locator) (ax : Axes) : Axes :=
  {| facecolor := facecolor ax; shown := shown ax; title := title ax; texts := texts ax;
     spines := spines ax; xlim := xlim ax; ylim := ylim ax; grid := grid ax;
     xlocator := xlocator ax; ylocator := l;
     tick_length := tick_length ax; aspect := aspect ax |}.

Definition tick_params_length (n : Z) (ax : Axes) : Axes :=
  {| facecolor := facecolor ax; shown := shown ax; title := title ax; texts := texts ax;
     spines := spines ax; xlim := xlim ax; ylim := ylim ax; grid := grid ax;
     xlocator := xlocator ax; ylocator := ylocator ax;
     tick_length := Some n; aspect := aspect ax |}.

Definition set_aspect (a : string) (ax : Axes) : Axes :=
  {| facecolor := facecolor ax; shown := shown ax; title := title ax; texts := texts ax;
     spines := spines ax; xlim := xlim ax; ylim := ylim ax; grid := grid ax;
     xlocator := xlocator ax; ylocator := ylocator ax;
     tick_length := tick_length ax; aspect := Some a |}.

(** [ax.set_xticks(ticks)] fixes the tick positions. *)
Definition set_xticks (ticks : list Z) : Axes -> Axes := set_xlocator (FixedLocator ticks).
Definition set_yticks (ticks : list Z) : Axes -> Axes := set_ylocator (FixedLocator ticks).

(** A coordinate of a figure text: a fraction of the figure, or the centre
    of the box of the axes of some index (whose value the layout decides). *)
Inductive coord : Type :=
  | At (q : Q)
  | CentreOf (ax : nat).

Record FigText : Type := {
  ft_x : coord;
  ft_y : coord;
  ft_s : string;
  ft_fontsize : Z;
  ft_weight : string
}.

Record Figure : Type := {
  figsize : Z * Z;
  axes : list Axes;               (* [fig.axes], in the order added *)
  fig_texts : list FigText
}.

Definition new_figure (size : Z * Z) : Figure :=
  {| figsize := size; axes := []; fig_texts := [] |}.

Definition add_axes (ax : Axes) (fig : Figure) : Figure :=
  {| figsize := figsize fig; axes := axes fig ++ [ax]; fig_texts := fig_texts fig |}.

Definition fig_text (t : FigText) (fig : Figure) : Figure :=
  {| figsize := figsize fig; axes := axes fig; fig_texts := fig_texts fig ++ [t] |}.

(** ** The world: store, file system, trace *)

(** The address of a result dictionary. *)
Definition loc : Type := nat.

Inductive file : Type :=
  | Directory
  | TextFile (lines : list string)
  | ImageFile (img : image).

(** What the call did to the file system, in order. *)
Inductive event : Type :=
  | EvPlot (path : string)
  | EvSavefig (path : string) (fig : Figure)
  | EvRemove (path : string).

(** The file system is a map from paths to what is there.  A path is taken
    as the string the program holds: two strings are two files, and what
    the operating system makes of links, of [.] and [..] and of doubled
    slashes is not modelled.  The trace records the calls with the paths
    they were given. *)
Record World : Type := {
  heap : gmap loc dict;           (* the result dictionaries *)
  files : gmap string file;       (* the file system *)
  temp_files : list string;       (* the list object [temp_files] *)
  trace : list event
}.

Definition with_heap (h : gmap loc dict) (w : World) : World :=
  {| heap := h; files := files w; temp_files := temp_files w; trace := trace w |}.
Definition with_files (f : gmap string file) (w : World) : World :=
  {| heap := heap w; files := f; temp_files := temp_files w; trace := trace w |}.
Definition with_temp_files (t : list string) (w : World) : World :=
  {| heap := heap w; files := files w; temp_files := t; trace := trace w |}.
Definition emit (e : event) (w : World) : World :=
  {| heap := heap w; files := files w; temp_files := temp_files w;
     trace := trace w ++ [e] |}.

(** The dictionary at an address. *)
Definition record_at (w : World) (l : loc) : dict := default ∅ (heap w !! l).

(** The paths to which a figure was saved, in order. *)
Fixpoint saved (tr : list event) : list (string * Figure) :=
  match tr with
  | [] => []
  | EvSavefig p fig :: tr' => (p, fig) :: saved tr'
  | _ :: tr' => saved tr'
  end.

(** ** Computations: state and exceptions *)

(** A computation runs in a world and ends with a value or a raised
    exception; what it did to the world stays done in either case. *)
Definition M (A : Type) : Type := World -> outcome A * World.

Definition ret {A} (a : A) : M A := fun w => (Ok a, w).
Definition raise {A} (e : exn) : M A := fun w => (Raise e, w).
Definition lift {A} (o : outcome A) : M A := fun w => (o, w).

Definition bind {A B} (m : M A) (k : A -> M B) : M B :=
  fun w =>
    match m w with
    | (Ok a, w') => k a w'
    | (Raise e, w') => (Raise e, w')
    end.

Declare Scope py_scope.
Delimit Scope py_scope with py.
Notation "x <- m ;; k" := (bind m (fun x => k))
  (at level 100, m at next level, right associativity) : py_scope.
Notation "m ;; k" := (bind m (fun _ => k))
  (at level 100, right associativity) : py_scope.
Local Open Scope py_scope.

(** [try: m  except <those exceptions>: h] *)
Definition try_except {A} (m : M A) (catches : exn -> bool) (h : exn -> M A) : M A :=
  fun w =>
    match m w with
    | (Ok a, w') => (Ok a, w')
    | (Raise e, w') => if catches e then h e w' else (Raise e, w')
    end.

(** [try: m  finally: f] *)
Definition try_finally {A} (m : M A) (f : M unit) : M A :=
  fun w =>
    let '(r, w1) := m w in
    match f w1 with
    | (Ok _, w2) => (r, w2)
    | (Raise e, w2) => (Raise e, w2)
    end.

(** [except Exception] *)
Definition any_exception (e : exn) : bool := true.

(** [for x in xs: body(x)] *)
Fixpoint for_each {A} (xs : list A) (body : A -> M unit) : M unit :=
  match xs with
  | [] => ret tt
  | x :: xs' => body x ;; for_each xs' body
  end.

(** A loop that updates a local object [b]. *)
Fixpoint for_fold {A B} (xs : list A) (body : B -> A -> M B) (b : B) : M B :=
  match xs with
  | [] => ret b
  | x :: xs' => b' <- body b x ;; for_fold xs' body b'
  end.

(** [enumerate(xs)] *)
Definition enumerate {A} (xs : list A) : list (nat * A) :=
  combine (seq 0 (length xs)) xs.

(** [range(a, b)] *)
Definition range (a b : Z) : list Z :=
  map (fun k => a + Z.of_nat k) (seq 0 (Z.to_nat (b - a))).

(** *** Dictionaries in the store *)

(** [result[k]] *)
Definition getitem (l : loc) (k : string) : M pyval :=
  fun w =>
    match record_at w l !! k with
    | Some v => (Ok v, w)
    | None => (Raise KeyError, w)
    end.

(** [result.get(k, default)] *)
Definition get (l : loc) (k : string) (default : pyval) : M pyval :=
  fun w => (Ok (dict_get (record_at w l) k default), w).

(** [k in result] *)
Definition has_key (l : loc) (k : string) : M bool :=
  fun w => (Ok (match record_at w l !! k with Some _ => true | None => false end), w).

(** [result[k] = v] *)
Definition setitem (l : loc) (k : string) (v : pyval) : M unit :=
  fun w => (Ok tt, with_heap (<[l := <[k := v]> (record_at w l)]> (heap w)) w).

(** [del result[k]] *)
Definition delitem (l : loc) (k : string) : M unit :=
  fun w =>
    match record_at w l !! k with
    | Some _ => (Ok tt, with_heap (<[l := delete k (record_at w l)]> (heap w)) w)
    | None => (Raise KeyError, w)
    end.

(** [d[k]] on a dictionary value *)
Definition subscript (d : dict) (k : string) : M pyval :=
  lift (match d !! k with Some v => Ok v | None => Raise KeyError end).

(** ** What the module calls but does not define *)

(** The operating system and the libraries, as far as their answers are not
    determined by the world above: each may refuse where the real one may
    raise. *)
Record Env : Type := {
  (** [os.stat] on an integer takes it for a file descriptor *)
  fd_exists : Z -> bool;
  (** the text lines [open(..., errors='ignore')] yields on an image file *)
  lines_of_image : image -> list string;
  (** [pandas.read_csv] on the lines of a file, with [skiprows] *)
  read_csv : list string -> nat -> outcome DataFrame;
  (** [int(s)] on a string that is not plain ASCII digits, or is longer
      than the default limit of 4300 digits: the number, for one with a sign,
      underscores, blanks around it or other Unicode digits, and for a long
      one where the interpreter sets no limit; [ValueError] for the rest *)
  int_other : string -> outcome Z;
  (** whether [os.mkdir] may create that directory *)
  makedirs_ok : string -> bool;
  (** [ddquint.visualization.well_plots.create_well_plot]: the picture it
      writes to the path it is given, or the exception it raises *)
  create_well_plot : DataFrame -> dict -> pyval -> string -> outcome image;
  (** whether [fig.savefig] may write that path *)
  savefig_ok : string -> bool;
  (** the picture of a figure *)
  render : Figure -> image;
  (** whether [os.remove] may delete that file *)
  remove_ok : string -> bool
}.

(** [int(s)] *)
Definition py_int (env : Env) (s : string) : outcome Z :=
  match int_of_digits s with
  | Some z => if (String.length s <=? 4300)%nat then Ok z else int_other env s
  | None => int_other env s
  end.

(** [ddquint.config.Config], by the attributes the module reads. *)
Record Config : Type := {
  PLATE_ROWS : list string;
  PLATE_COLS : list string;
  RAW_DATA_DIR_NAME : string;
  GRAPHS_DIR_NAME : string;
  COMPOSITE_FIGURE_SIZE : Z * Z;
  (** [WELL_FORMAT.format(row=row, col=col)] *)
  WELL_FORMAT : string -> Z -> string;
  (** [get_axis_limits()]: the ['x'] and the ['y'] limits *)
  get_axis_limits : (Z * Z) * (Z * Z);
  (** [get_grid_intervals()]: the ['x'] and the ['y'] spacing *)
  get_grid_intervals : Z * Z
}.

(** Modelled from the spec: the plate layout is a value of the configuration,
    which is not among the sources; the specification fixes it as the 8 by 12
    grid of rows A to H and columns 1 to 12. *)
Definition spec_plate_rows : list string := ["A"; "B"; "C"; "D"; "E"; "F"; "G"; "H"].
Definition spec_plate_cols : list string :=
  ["1"; "2"; "3"; "4"; "5"; "6"; "7"; "8"; "9"; "10"; "11"; "12"].

(** ** The well-results mapping: a dictionary keyed by Python values *)

(** Keys are compared as Python compares them: [True == 1] and [False == 0]. *)
Definition key_norm (k : pyval) : pyval :=
  match k with
  | VBool true => VInt 1
  | VBool false => VInt 0
  | _ => k
  end.

Definition key_eqb (k1 k2 : pyval) : bool :=
  bool_decide (key_norm k1 = key_norm k2).

Definition hashable (k : pyval) : bool :=
  match k with VEmptyDict => false | _ => true end.

(** Insertion order, as a Python dictionary keeps it. *)
Definition keydict : Type := list (pyval * loc).

(** [d[k]] and [k in d] *)
Fixpoint kd_lookup (d : keydict) (k : pyval) : option loc :=
  match d with
  | [] => None
  | (k', v) :: d' => if key_eqb k' k then Some v else kd_lookup d' k
  end.

(** After [d[k] = v]: an existing key keeps its place and takes the value. *)
Fixpoint kd_store (d : keydict) (k : pyval) (v : loc) : keydict :=
  match d with
  | [] => [(k, v)]
  | (k', v') :: d' =>
      if key_eqb k' k then (k', v) :: d' else (k', v') :: kd_store d' k v
  end.

Definition kd_setitem (d : keydict) (k : pyval) (v : loc) : outcome keydict :=
  if hashable k then Ok (kd_store d k v) else Raise TypeError.

(** ** The module *)

Section PlatePlots.

Variable env : Env.

(** [Config.get_instance()] *)
Variable config : Config.

(** *** The calls into the operating system and the libraries *)

(** [os.path.exists(v)] *)
(** [os.stat] takes an integer for a file descriptor: one that does not fit
    a C [int] is an [OverflowError], which [os.path.exists] does not catch;
    a negative one is no descriptor. *)
Definition stat_fd (z : Z) : outcome bool :=
  if (z <? - 2 ^ 31) || (2 ^ 31 <=? z) then Raise OverflowError
  else if z <? 0 then Ok false
  else Ok (fd_exists env z).

Definition os_path_exists (v : pyval) : M bool :=
  fun w =>
    match v with
    | VStr p => (Ok (match files w !! p with Some _ => true | None => false end), w)
    | VInt z => (stat_fd z, w)
    | VBool b => (stat_fd (if b then 1 else 0), w)
    | _ => (Raise TypeError, w)
    end.

(** [os.path.isdir(p)] *)
Definition os_path_isdir (p : string) : M bool :=
  fun w => (Ok (match files w !! p with Some Directory => true | _ => false end), w).

(** [os.path.dirname(v)] *)
Definition os_path_dirname (v : pyval) : M string :=
  p <- lift (fspath v) ;; ret (posix_dirname p).

(** [os.path.join(a, *ps)] *)
Definition os_path_join (a : pyval) (ps : list pyval) : M string :=
  a' <- lift (fspath a) ;;
  ps' <- lift (fspaths ps) ;;
  ret (posix_join a' ps').

(** The lines of [open(p, 'r', encoding='utf-8', errors='ignore')]. *)
Definition open_lines (p : string) : M (list string) :=
  fun w =>
    match files w !! p with
    | Some (TextFile ls) => (Ok ls, w)
    | Some (ImageFile img) => (Ok (lines_of_image env img), w)
    | Some Directory | None => (Raise OSError, w)
    end.

(** [pd.read_csv(p, skiprows=n)] *)
Definition pd_read_csv (p : string) (skiprows : nat) : M DataFrame :=
  ls <- open_lines p ;; lift (read_csv env ls skiprows).

(** [os.mkdir(p)]: the path must be free and must not lie under a regular
    file; whether the directory can then be made (its parent is there, the
    permissions allow it) is the system's word. *)
Definition os_mkdir (p : string) : M unit :=
  fun w =>
    match files w !! p with
    | Some _ => (Raise FileExistsError, w)
    | None =>
        match files w !! posix_dirname p with
        | Some (TextFile _) | Some (ImageFile _) => (Raise OSError, w)
        | _ =>
            if makedirs_ok env p
            then (Ok tt, with_files (<[p := Directory]> (files w)) w)
            else (Raise OSError, w)
        end
    end.

(** [os.makedirs(name, exist_ok=True)], as the library defines it:
<<
    head, tail = path.split(name)
    if not tail:
        head, tail = path.split(head)
    if head and tail and not path.exists(head):
        try:
            makedirs(head, exist_ok=exist_ok)
        except FileExistsError:
            pass
        if tail == curdir:
            return
    try:
        mkdir(name, mode)
    except OSError:
        if not exist_ok or not path.isdir(name):
            raise
>>
    The recursion is on a head shorter than the name; [fuel] bounds it. *)
Fixpoint makedirs_from (fuel : nat) (name : string) : M unit :=
  match fuel with
  | O => raise OSError
  | S fuel' =>
      let head := posix_dirname name in
      let tail := posix_basename name in
      let head' := if String.eqb tail "" then posix_dirname head else head in
      let tail' := if String.eqb tail "" then posix_basename head else tail in
      stop <- (if negb (String.eqb head' "") && negb (String.eqb tail' "") then
                 found <- os_path_exists (VStr head') ;;
                 if negb found then
                   try_except (makedirs_from fuel' head') is_file_exists_error
                     (fun _ => ret tt) ;;
                   ret (String.eqb tail' ".")
                 else ret false
               else ret false) ;;
      if (stop : bool) then ret tt
      else
        try_except (os_mkdir name) is_os_error
          (fun e =>
             isdir <- os_path_isdir name ;;
             if negb isdir then raise e else ret tt)
  end.

Definition os_makedirs (p : string) : M unit :=
  makedirs_from (S (String.length p)) p.

(** The call of [create_well_plot(df, clustering_results, well, path,
    for_composite=True, add_copy_numbers=True)]. *)
Definition call_create_well_plot
    (df : DataFrame) (clustering_results : dict) (well : pyval) (path : string) : M unit :=
  fun w =>
    match create_well_plot env df clustering_results well path with
    | Ok img => (Ok tt, emit (EvPlot path) (with_files (<[path := ImageFile img]> (files w)) w))
    | Raise e => (Raise e, w)
    end.

(** [plt.imread(v)] *)
Definition plt_imread (v : pyval) : M image :=
  fun w =>
    match v with
    | VStr p =>
        match files w !! p with
        | Some (ImageFile img) => (Ok img, w)
        | _ => (Raise OSError, w)
        end
    | _ => (Raise TypeError, w)
    end.

(** [fig.savefig(path, dpi=400, bbox_inches='tight', pad_inches=0.1)] *)
Definition fig_savefig (fig : Figure) (path : string) : M unit :=
  fun w =>
    if savefig_ok env path
    then (Ok tt, emit (EvSavefig path fig)
                   (with_files (<[savefig_target path := ImageFile (render env fig)]>
                                  (files w)) w))
    else (Raise OSError, w).

(** [os.remove(p)] *)
Definition os_remove (p : string) : M unit :=
  fun w =>
    match files w !! p with
    | Some (TextFile _) | Some (ImageFile _) =>
        if remove_ok env p
        then (Ok tt, emit (EvRemove p) (with_files (delete p (files w)) w))
        else (Raise OSError, w)
    | Some Directory | None => (Raise OSError, w)
    end.

(** [temp_files.append(p)] *)
Definition temp_files_append (p : string) : M unit :=
  fun w => (Ok tt, with_temp_files (temp_files w ++ [p]) w).

(** *** [_get_data_file_path] *)

Definition key_or_type_error (e : exn) : bool :=
  match e with KeyError | TypeError => true | _ => false end.

Definition _get_data_file_path (result : loc) : M (option string) :=
  try_except
    (graph_path <- getitem result "graph_path" ;;
     dir <- os_path_dirname graph_path ;;
     filename <- getitem result "filename" ;;
     p <- os_path_join (VStr dir) [VStr ".."; VStr (RAW_DATA_DIR_NAME config); filename] ;;
     ret (Some p))
    key_or_type_error
    (fun _ => ret None).

(** *** [_load_and_clean_data] *)

Definition is_header_line (line : string) : bool :=
  (contains "Ch1Amplitude" line || contains "Ch1 Amplitude" line)
  && (contains "Ch2Amplitude" line || contains "Ch2 Amplitude" line).

(** The index of the first header line, from index [i] on. *)
Fixpoint find_header_row (i : nat) (lines : list string) : option nat :=
  match lines with
  | [] => None
  | line :: rest => if is_header_line line then Some i else find_header_row (S i) rest
  end.

Definition required_cols : list string := ["Ch1Amplitude"; "Ch2Amplitude"].

Definition has_column (df : DataFrame) (col : string) : bool :=
  existsb (String.eqb col) (columns df).

Definition _load_and_clean_data (df_file : string) : M (option DataFrame) :=
  try_except
    (lines <- open_lines df_file ;;
     match find_header_row 0 lines with
     | None => ret None
     | Some header_row =>
         df <- pd_read_csv df_file header_row ;;
         if negb (forallb (has_column df) required_cols) then ret None
         else ret (Some (dropna (df_select required_cols df)))
     end)
    any_exception
    (fun _ => ret None).

(** *** [_extract_clustering_results], [_validate_clustering_results] *)

Definition _extract_clustering_results (result : loc) : M dict :=
  df_filtered <- get result "df_filtered" VNone ;;
  target_mapping <- get result "target_mapping" VNone ;;
  counts <- get result "counts" VEmptyDict ;;
  copy_numbers <- get result "copy_numbers" VEmptyDict ;;
  copy_number_states <- get result "copy_number_states" VEmptyDict ;;
  has_aneuploidy <- get result "has_aneuploidy" (VBool false) ;;
  has_buffer_zone <- get result "has_buffer_zone" (VBool false) ;;
  chrom3_reclustered <- get result "chrom3_reclustered" (VBool false) ;;
  ret (list_to_map
         [("df_filtered", df_filtered);
          ("target_mapping", target_mapping);
          ("counts", counts);
          ("copy_numbers", copy_numbers);
          ("copy_number_states", copy_number_states);
          ("has_aneuploidy", has_aneuploidy);
          ("has_buffer_zone", has_buffer_zone);
          ("chrom3_reclustered", chrom3_reclustered)]).

Definition _validate_clustering_results (clustering_results : dict) (well_id : pyval) : M bool :=
  df_filtered <- subscript clustering_results "df_filtered" ;;
  if is_none df_filtered then ret false
  else
    target_mapping <- subscript clustering_results "target_mapping" ;;
    if is_none target_mapping then ret false else ret true.

(** *** [_create_temp_well_plot] *)

Definition _create_temp_well_plot
    (result : loc) (output_path : string) (df_clean : DataFrame)
    (clustering_results : dict) : M (option string) :=
  try_except
    (output_dir <- os_path_dirname (VStr output_path) ;;
     graphs_dir <- os_path_join (VStr output_dir) [VStr (GRAPHS_DIR_NAME config)] ;;
     os_makedirs graphs_dir ;;
     well <- getitem result "well" ;;
     temp_path <- os_path_join (VStr graphs_dir) [VStr (py_str well +:+ "_temp.png")] ;;
     well' <- getitem result "well" ;;
     call_create_well_plot df_clean clustering_results well' temp_path ;;
     temp_files_append temp_path ;;
     ret (Some temp_path))
    any_exception
    (fun _ => ret None).

(** *** [_generate_well_images] *)

(** The body of the loop, for one result. *)
Definition _generate_well_image (output_path : string) (result : loc) : M unit :=
  well <- get result "well" VNone ;;
  if negb (truthy well) then ret tt
  else
    df_file <- _get_data_file_path result ;;
    match df_file with
    | None => ret tt
    | Some p =>
        if negb (truthy (VStr p)) then ret tt
        else
          found <- os_path_exists (VStr p) ;;
          if negb found then ret tt
          else
            df_clean <- _load_and_clean_data p ;;
            match df_clean with
            | None => ret tt
            | Some df =>
                clustering_results <- _extract_clustering_results result ;;
                well_id <- getitem result "well" ;;
                valid <- _validate_clustering_results clustering_results well_id ;;
                if negb valid then ret tt
                else
                  temp_path <- _create_temp_well_plot result output_path df clustering_results ;;
                  match temp_path with
                  | Some tp =>
                      if truthy (VStr tp)
                      then setitem result "temp_graph_path" (VStr tp)
                      else ret tt
                  | None => ret tt
                  end
            end
    end.

Definition _generate_well_images (results : list loc) (output_path : string) : M unit :=
  for_each results (_generate_well_image output_path).

(** *** [_apply_well_border] *)

Definition set_border (border_color : string) (border_width : Z) (spine : Spine) : Spine :=
  (* set_edgecolor, set_color, set_linewidth, set_visible(True) *)
  {| edgecolor := Some border_color; linewidth := Some border_width; visible := true |}.

Definition _apply_well_border (ax : Axes) (result : loc) (well : string) : M Axes :=
  has_buffer_zone <- get result "has_buffer_zone" (VBool false) ;;
  if truthy has_buffer_zone then
    ret (for_spines (set_border "#000000" 1) ax)
  else
    has_aneuploidy <- get result "has_aneuploidy" (VBool false) ;;
    if truthy has_aneuploidy then
      ret (for_spines (set_border "#E6B8E6" 3) ax)
    else
      ret (for_spines (set_border "#B0B0B0" 1) ax).

(** *** [_populate_data_well], [_populate_empty_well] *)

(** A text in the middle of the axes. *)
Definition centred_text (s : string) (fontsize : Z) (color : option string) : TextArtist :=
  {| tx_x := 1 # 2; tx_y := 1 # 2; tx_s := s; tx_fontsize := fontsize;
     tx_color := color; tx_ha := "center"; tx_va := "center" |}.

Definition _populate_data_well (ax : Axes) (well : string) (result : loc) : M Axes :=
  original <- get result "graph_path" VNone ;;
  graph_path <- get result "temp_graph_path" original ;;
  found <- (if truthy graph_path then os_path_exists graph_path else ret false) ;;
  if found then
    try_except
      (img <- plt_imread graph_path ;;
       let ax := imshow img ax in
       sample_name <- get result "sample_name" VNone ;;
       let title := if truthy sample_name then sample_name else VStr well in
       let ax := set_title {| title_label := title; title_fontsize := 6; title_pad := 2 |} ax in
       _apply_well_border ax result well)
      any_exception
      (fun _ => ret (ax_text (centred_text "Image Error" 8 (Some "red")) ax))
  else
    ret (ax_text (centred_text "No Image" 8 None) ax).

Definition _populate_empty_well (ax : Axes) (well : string) : Axes :=
  let axis_limits := get_axis_limits config in
  let ax := set_xlim (fst axis_limits) ax in
  let ax := set_ylim (snd axis_limits) ax in
  let ax := ax_grid {| grid_alpha := 2 # 5; grid_linewidth := 4 # 5 |} ax in
  let grid_intervals := get_grid_intervals config in
  let ax := set_xlocator (MultipleLocator (fst grid_intervals)) ax in
  let ax := set_ylocator (MultipleLocator (snd grid_intervals)) ax in
  let ax := tick_params_length 0 ax in
  let ax := set_aspect "auto" ax in
  let ax := ax_text (centred_text well 8 (Some "gray")) ax in
  for_spines (fun _ => {| edgecolor := Some "#cccccc"; linewidth := Some 1; visible := true |}) ax.

(** *** [_create_well_subplots] *)

(** [gs[i, j]] on a [GridSpec(nrows, ncols)] *)
Definition gridspec_getitem (gs : nat * nat) (i j : nat) : outcome unit :=
  if (i <? fst gs)%nat && (j <? snd gs)%nat then Ok tt else Raise IndexError.

(** [xs[-1]] *)
Definition last_item (xs : list string) : outcome string :=
  match last xs with Some x => Ok x | None => Raise IndexError end.

(** The subplot of row [i], column index [j]. *)
Definition _create_well_subplot
    (gs : nat * nat) (well_results : keydict) (i : nat) (row : string)
    (fig : Figure) (jc : nat * Z) : M Figure :=
  let '(j, col_num) := jc in
  let col := py_str (VInt col_num) in
  c <- lift (py_int env col) ;;
  let well := WELL_FORMAT config row c in
  lift (gridspec_getitem gs i j) ;;
  let ax := set_facecolor "#f5f5f5" new_axes in
  ax <- match kd_lookup well_results (VStr well) with
        | Some result => _populate_data_well ax well result
        | None => ret (_populate_empty_well ax well)
        end ;;
  let ax := set_xticks [] ax in
  let ax := set_yticks [] ax in
  ret (add_axes ax fig).

Definition _create_well_subplots
    (fig : Figure) (gs : nat * nat) (row_labels col_labels : list string)
    (well_results : keydict) : M Figure :=
  for_fold (enumerate row_labels)
    (fun fig ir =>
       let '(i, row) := ir in
       last_col <- lift (last_item col_labels) ;;
       n <- lift (py_int env last_col) ;;
       for_fold (enumerate (range 1 (n + 1)))
         (_create_well_subplot gs well_results i row) fig)
    fig.

(** *** [_add_plate_labels] *)

(** [fig.axes[k]] *)
Definition fig_axes_getitem (fig : Figure) (k : nat) : outcome Axes :=
  match axes fig !! k with Some ax => Ok ax | None => Raise IndexError end.

Definition _add_plate_labels (fig : Figure) (row_labels col_labels : list string) : M Figure :=
  fig <- for_fold (enumerate row_labels)
           (fun fig ir =>
              let '(i, row) := ir in
              lift (fig_axes_getitem fig (i * 12)) ;;
              ret (fig_text {| ft_x := At (1 # 50); ft_y := CentreOf (i * 12);
                               ft_s := row; ft_fontsize := 12; ft_weight := "bold" |} fig))
           fig ;;
  for_fold (enumerate col_labels)
    (fun fig jc =>
       let '(j, col) := jc in
       lift (fig_axes_getitem fig j) ;;
       ret (fig_text {| ft_x := CentreOf j; ft_y := At (49 # 50);
                        ft_s := col; ft_fontsize := 12; ft_weight := "bold" |} fig))
    fig.

(** *** [_create_composite_figure] *)

(** [{r['well']: r for r in results if r.get('well') is not None}] *)
Definition well_results_of (results : list loc) : M keydict :=
  for_fold results
    (fun d r =>
       well <- get r "well" VNone ;;
       if is_none well then ret d
       else key <- getitem r "well" ;; lift (kd_setitem d key r))
    [].

Definition _create_composite_figure
    (results : list loc) (output_path : string) (row_labels col_labels : list string) : M unit :=
  let fig_size := COMPOSITE_FIGURE_SIZE config in
  let fig := new_figure fig_size in
  let gs := (8%nat, 12%nat) in
  well_results <- well_results_of results ;;
  fig <- _create_well_subplots fig gs row_labels col_labels well_results ;;
  fig <- _add_plate_labels fig row_labels col_labels ;;
  fig_savefig fig output_path.

(** *** [_cleanup_temp_files] *)

Definition _cleanup_temp_files (results : list loc) : M unit :=
  fun w =>
    (for_each (temp_files w)
       (fun temp_file =>
          try_except
            (found <- os_path_exists (VStr temp_file) ;;
             if found then os_remove temp_file else ret tt)
            any_exception
            (fun _ => ret tt)) ;;
     for_each results
       (fun result =>
          present <- has_key result "temp_graph_path" ;;
          if present then delitem result "temp_graph_path" else ret tt)) w.

(** *** [create_composite_image] *)

Definition create_composite_image (results : list loc) (output_path : string) : M string :=
  match results with
  | [] => raise ValueError
  | _ =>
      (fun w => (Ok tt, with_temp_files [] w)) ;;
      try_finally
        (try_except
           (let row_labels := PLATE_ROWS config in
            let col_labels := PLATE_COLS config in
            _generate_well_images results output_path ;;
            _create_composite_figure results output_path row_labels col_labels ;;
            ret output_path)
           any_exception
           (fun _ => raise VisualizationError))
        (_cleanup_temp_files results)
  end.

End PlatePlots.

(** * The notions the properties are stated with *)

(** [preserves R m]: whatever [m] does and however it ends, the world it
    leaves is related by [R] to the world it started in. *)
Definition preserves (R : relation World) {A} (m : M A) : Prop :=
  forall w, R w (snd (m w)).

(** [same f]: the step does not change the component [f] of the world. *)
Definition same {X} (f : World -> X) : relation World := fun w w' => f w' = f w.

(** The figures saved so far. *)
Definition saved_of (w : World) : list (string * Figure) := saved (trace w).

(** Every path on [temp_files] holds a picture. *)
Definition temp_files_written (w : World) : Prop :=
  forall t, t ∈ temp_files w -> exists img, files w !! t = Some (ImageFile img).

Definition keeps_written : relation World :=
  fun w w' => temp_files_written w -> temp_files_written w'.

Definition temp_key : string := "temp_graph_path".

(** The field is there and is a string. *)
Definition is_string (o : option pyval) : bool :=
  match o with Some (VStr _) => true | _ => false end.

(** A result record that temp-image generation passes over: its well id is
    missing or falsy, its graph path or file name is missing or no string,
    or it has no clustering to plot. *)
Definition malformed (r : dict) : bool :=
  negb (truthy (dict_get r "well" VNone))
  || negb (is_string (r !! "graph_path"))
  || negb (is_string (r !! "filename"))
  || is_none (dict_get r "df_filtered" VNone)
  || is_none (dict_get r "target_mapping" VNone).

(** What one turn of the loop of [_generate_well_images] may do. *)
Definition gen_step (l : loc) (w w' : World) : Prop :=
  (heap w' = heap w
   \/ exists tp, heap w' = <[l := <["temp_graph_path" := VStr tp]> (record_at w l)]> (heap w)
                 /\ malformed (record_at w l) = false)
  /\ saved_of w' = saved_of w
  /\ keeps_written w w'.

(** The path [_get_data_file_path] builds, read off the record. *)
Definition data_file_path (config : Config) (r : dict) : option string :=
  match r !! "graph_path", r !! "filename" with
  | Some (VStr g), Some (VStr f) =>
      Some (posix_join (posix_dirname g) [".."; RAW_DATA_DIR_NAME config; f])
  | _, _ => None
  end.

(** The directory the temporary pictures go to, and the path of the
    temporary picture of a well, as [_create_temp_well_plot] builds them. *)
Definition graphs_dir (config : Config) (output_path : string) : string :=
  posix_join (posix_dirname output_path) [GRAPHS_DIR_NAME config].

Definition temp_path (config : Config) (output_path : string) (well : pyval) : string :=
  posix_join (graphs_dir config output_path) [py_str well +:+ "_temp.png"].

(** What must have gone well for a record to be given a temporary picture:
    its raw-data file is there and yields a clean table, and the call of
    [create_well_plot] for this record, with that table, the clustering
    read off the record, its well id and its temporary path, has returned. *)
Definition plotted (env : Env) (config : Config) (out : string) (l : loc) (w : World) : Prop :=
  exists p, data_file_path config (record_at w l) = Some p
    /\ (exists f, files w !! p = Some f)
    /\ exists df cr well img,
         _load_and_clean_data env p w = (Ok (Some df), w)
         /\ _extract_clustering_results l w = (Ok cr, w)
         /\ record_at w l !! "well" = Some well
         /\ create_well_plot env df cr well (temp_path config out well) = Ok img.


(** A path that holds no directory: a regular file or nothing. *)
Definition no_directory (w : World) (t : string) : Prop :=
  files w !! t <> Some Directory.

(** The turn of the first loop for one path. *)
Definition remove_temp_file (env : Env) (temp_file : string) : M unit :=
  try_except
    (found <- os_path_exists env (VStr temp_file) ;;
     if found then os_remove env temp_file else ret tt)
    any_exception
    (fun _ => ret tt).

(** The turn of the second loop for one record. *)
Definition forget_temp_path (result : loc) : M unit :=
  present <- has_key result "temp_graph_path" ;;
  if present then delitem result "temp_graph_path" else ret tt.

(** What [_load_and_clean_data] returns, from what opening the file gave. *)
Definition load_result (env : Env) (o : outcome (list string)) : option DataFrame :=
  match o with
  | Raise _ => None
  | Ok lines =>
      match find_header_row 0 lines with
      | None => None
      | Some header_row =>
          match read_csv env lines header_row with
          | Raise _ => None
          | Ok df =>
              if forallb (has_column df) required_cols
              then Some (dropna (df_select required_cols df))
              else None
          end
      end
  end.

(** The border of a well as the specification words it: the buffer zone
    first, then aneuploidy, otherwise the euploid grey. *)
Definition border_style (has_buffer_zone has_aneuploidy : bool) : string * Z :=
  if has_buffer_zone then ("#000000", 1)
  else if has_aneuploidy then ("#E6B8E6", 3)
  else ("#B0B0B0", 1).

(** The two flags of a record, as [_apply_well_border] reads them. *)
Definition flag (r : dict) (k : string) : bool := truthy (dict_get r k (VBool false)).

Definition border_of (r : dict) : string * Z :=
  border_style (flag r "has_buffer_zone") (flag r "has_aneuploidy").

(** The graph a data well shows: the temporary picture if the record has
    one, otherwise the original. *)
Definition graph_path_of (r : dict) : pyval :=
  dict_get r "temp_graph_path" (dict_get r "graph_path" VNone).

(** The well id of the record at an address, [None] if it has none. *)
Definition well_of (w : World) (l : loc) : pyval :=
  dict_get (record_at w l) "well" VNone.

(** The comprehension, run on the store of a world. *)
Fixpoint well_results_from (w : World) (results : list loc) (d : keydict) : outcome keydict :=
  match results with
  | [] => Ok d
  | r :: rest =>
      if is_none (well_of w r) then well_results_from w rest d
      else
        match kd_setitem d (well_of w r) r with
        | Ok d' => well_results_from w rest d'
        | Raise e => Raise e
        end
  end.

(** The last record of the list that carries the well id [wid], or [acc] if
    there is none. *)
Fixpoint last_with_well (w : World) (wid : string) (results : list loc)
    (acc : option loc) : option loc :=
  match results with
  | [] => acc
  | r :: rest =>
      last_with_well w wid rest (if decide (well_of w r = VStr wid) then Some r else acc)
  end.

(** The axes a subplot starts from, and the last touch every subplot gets. *)
Definition blank_axes : Axes := set_facecolor "#f5f5f5" new_axes.
Definition finish_axes (ax : Axes) : Axes := set_yticks [] (set_xticks [] ax).

(** What the subplot of a well shows, by the mapping [d]. *)
Definition subplot_shows (env : Env) (config : Config)
    (w : World) (d : keydict) (well : string) (ax : Axes) : Prop :=
  match kd_lookup d (VStr well) with
  | Some l =>
      exists ax0, _populate_data_well env blank_axes well l w = (Ok ax0, w)
                  /\ ax = finish_axes ax0
  | None => ax = finish_axes (_populate_empty_well config blank_axes well)
  end.

(** * A plate with one measured well *)

Definition demo_frame : DataFrame :=
  {| columns := ["Ch1Amplitude"; "Ch2Amplitude"];
     rows := [[Some "1012.5"; Some "2210.0"]; [None; Some "2190.4"]] |}.

(** Everything works: the csv parses, plots render, files can be written
    and removed. *)
Definition demo_env : Env :=
  {| fd_exists := fun _ => false;
     lines_of_image := fun _ => [];
     read_csv := fun _ _ => Ok demo_frame;
     int_other := fun _ => Raise ValueError;
     makedirs_ok := fun _ => true;
     create_well_plot := fun _ _ _ _ => Ok 7%nat;
     savefig_ok := fun _ => true;
     render := fun _ => 99%nat;
     remove_ok := fun _ => true |}.

Definition demo_config : Config :=
  {| PLATE_ROWS := spec_plate_rows;
     PLATE_COLS := spec_plate_cols;
     RAW_DATA_DIR_NAME := "Raw_Data";
     GRAPHS_DIR_NAME := "Graphs";
     COMPOSITE_FIGURE_SIZE := (24, 16);
     WELL_FORMAT := fun row col => row +:+ (if col <? 10 then "0" else "") +:+ pretty col;
     get_axis_limits := ((0, 3000), (0, 5000));
     get_grid_intervals := (500, 1000) |}.

Definition demo_record : dict :=
  list_to_map
    [("well", VStr "A01"); ("filename", VStr "A01.csv");
     ("graph_path", VStr "/out/Graphs/A01.png");
     ("df_filtered", VObj 1); ("target_mapping", VObj 2);
     ("has_aneuploidy", VBool true)].

Definition demo_csv : list string :=
  ["Well A01"; "Ch1Amplitude,Ch2Amplitude"; "1012.5,2210.0"; ",2190.4"].

(** The directories of the demo: the output directory with the graphs and
    the raw data under it. *)
Definition demo_dirs : gmap string file :=
  {[ "/" := Directory; "/out" := Directory;
     "/out/Graphs" := Directory; "/out/Raw_Data" := Directory ]}.

Definition world_of (r : dict) (fs : gmap string file) : World :=
  {| heap := {[ 0%nat := r ]}; files := fs ∪ demo_dirs; temp_files := []; trace := [] |}.

Definition demo_world : World :=
  world_of demo_record {[ "/out/Graphs/../Raw_Data/A01.csv" := TextFile demo_csv ]}.

Definition demo_out : string := "/out/plate.png".

Definition demo_raw : string := "/out/Graphs/../Raw_Data/A01.csv".
Definition demo_temp : string := "/out/Graphs/A01_temp.png".

(** The raw data of the well is gone; the graph made earlier is there. *)
Definition world_graph_only : World :=
  world_of demo_record {[ "/out/Graphs/A01.png" := ImageFile 5%nat ]}.

(** The graph path of the well holds a file that is no picture. *)
Definition world_bad_graph : World :=
  world_of demo_record {[ "/out/Graphs/A01.png" := TextFile ["not a picture"] ]}.

(** The record comes with a ['temp_graph_path'] of an earlier run. *)
Definition world_stale : World :=
  world_of (<["temp_graph_path" := VStr "/old/A01_temp.png"]> demo_record)
    {[ demo_raw := TextFile demo_csv ]}.

(** Two records for the well A01, and a third whose graph path is no string. *)
Definition world_three : World :=
  {| heap := {[ 0%nat := <["sample_name" := VStr "first"]> demo_record;
                1%nat := <["sample_name" := VStr "second"]> demo_record;
                2%nat := <["graph_path" := VInt 5]> (<["well" := VStr "B02"]> demo_record) ]};
     files := {[ "/out/Graphs/A01.png" := ImageFile 5%nat ]} ∪ demo_dirs;
     temp_files := []; trace := [] |}.


(** [os.remove] fails, as on a file another process holds open. *)
Definition env_no_remove : Env :=
  {| fd_exists := fd_exists demo_env; lines_of_image := lines_of_image demo_env;
     read_csv := read_csv demo_env; int_other := int_other demo_env;
     makedirs_ok := makedirs_ok demo_env;
     create_well_plot := create_well_plot demo_env;
     savefig_ok := savefig_ok demo_env;
     render := render demo_env; remove_ok := fun _ => false |}.


(** [pandas.read_csv] fails on the file. *)
Definition env_bad_csv : Env :=
  {| fd_exists := fd_exists demo_env; lines_of_image := lines_of_image demo_env;
     read_csv := fun _ _ => Raise ParserError; int_other := int_other demo_env;
     makedirs_ok := makedirs_ok demo_env;
     create_well_plot := create_well_plot demo_env;
     savefig_ok := savefig_ok demo_env;
     render := render demo_env; remove_ok := remove_ok demo_env |}.

(** * Further notions: temporary pictures, the labels, the grid *)

(** A path is as it was, or a directory has been made where nothing was. *)
Definition kept_or_new_directory (w w' : World) (p : string) : Prop :=
  files w' !! p = files w !! p
  \/ (files w !! p = None /\ files w' !! p = Some Directory).

(** [new_directories]: the step touches the file system only by making
    directories where there was nothing; store, [temp_files] and trace stay. *)
Definition new_directories : relation World :=
  fun w w' =>
    heap w' = heap w /\ temp_files w' = temp_files w /\ trace w' = trace w
    /\ forall p, kept_or_new_directory w w' p.

(** The label of row [i] and of column [j], as [_add_plate_labels] places
    them: beside the first subplot of the row, above the subplot of the
    column in the first row. *)
Definition row_label (ir : nat * string) : FigText :=
  {| ft_x := At (1 # 50); ft_y := CentreOf (fst ir * 12);
     ft_s := snd ir; ft_fontsize := 12; ft_weight := "bold" |}.

Definition col_label (jc : nat * string) : FigText :=
  {| ft_x := CentreOf (fst jc); ft_y := At (49 # 50);
     ft_s := snd jc; ft_fontsize := 12; ft_weight := "bold" |}.

(** Whether the axes [_add_plate_labels] reads for the rows, and for the
    columns, are there. *)
Definition rows_fit (fig : Figure) (rows : list string) : bool :=
  forallb (fun x => fst x * 12 <? length (axes fig))%nat (enumerate rows).

Definition cols_fit (fig : Figure) (cols : list string) : bool :=
  forallb (fun x => fst x <? length (axes fig))%nat (enumerate cols).


(** The demo configuration with another plate. *)
Definition plate_config (rows cols : list string) : Config :=
  {| PLATE_ROWS := rows;
     PLATE_COLS := cols;
     RAW_DATA_DIR_NAME := RAW_DATA_DIR_NAME demo_config;
     GRAPHS_DIR_NAME := GRAPHS_DIR_NAME demo_config;
     COMPOSITE_FIGURE_SIZE := COMPOSITE_FIGURE_SIZE demo_config;
     WELL_FORMAT := WELL_FORMAT demo_config;
     get_axis_limits := get_axis_limits demo_config;
     get_grid_intervals := get_grid_intervals demo_config |}.

(** What one turn of [_generate_well_images] does: nothing, or no more than
    making the directory, or it writes the temporary picture of the well,
    records its path and hands it to the record. *)
Definition well_image_effect (env : Env) (config : Config) (out : string) (l : loc)
    (w w' : World) : Prop :=
  (forall p,
     (forall well, record_at w l !! "well" = Some well -> p <> temp_path config out well) ->
     kept_or_new_directory w w' p)
  /\ (forall t i, files w !! t = Some (ImageFile i) ->
        exists i', files w' !! t = Some (ImageFile i'))
  /\ ((heap w' = heap w /\ temp_files w' = temp_files w /\ trace w' = trace w)
      \/ (exists well img,
            record_at w l !! "well" = Some well
            /\ heap w' = <[l := <[temp_key := VStr (temp_path config out well)]>
                                  (record_at w l)]> (heap w)
            /\ temp_files w' = (temp_files w ++ [temp_path config out well])%list
            /\ trace w' = (trace w ++ [EvPlot (temp_path config out well)])%list
            /\ files w' !! temp_path config out well = Some (ImageFile img))
          /\ plotted env config out l w
          /\ malformed (record_at w l) = false).

(** ** What a subplot shows *)

Definition grey_spine : Spine :=
  {| edgecolor := Some "#cccccc"; linewidth := Some 1; visible := true |}.

(** The subplot of a well without a record, as it is in the figure. *)
Definition placeholder_axes (config : Config) (well : string) : Axes :=
  {| facecolor := Some "#f5f5f5"; shown := None; title := None;
     texts := [centred_text well 8 (Some "gray")];
     spines := [("left", grey_spine); ("right", grey_spine);
                ("bottom", grey_spine); ("top", grey_spine)];
     xlim := Some (fst (get_axis_limits config));
     ylim := Some (snd (get_axis_limits config));
     grid := Some {| grid_alpha := 2 # 5; grid_linewidth := 4 # 5 |};
     xlocator := FixedLocator []; ylocator := FixedLocator [];
     tick_length := Some 0; aspect := Some "auto" |}.

(** The subplot of a record whose picture [img] is shown. *)
Definition picture_axes (r : dict) (well : string) (img : image) : Axes :=
  let border :=
    {| edgecolor := Some (fst (border_of r)); linewidth := Some (snd (border_of r));
       visible := true |} in
  {| facecolor := Some "#f5f5f5"; shown := Some img;
     title := Some {| title_label := if truthy (dict_get r "sample_name" VNone)
                                     then dict_get r "sample_name" VNone else VStr well;
                      title_fontsize := 6; title_pad := 2 |};
     texts := [];
     spines := [("left", border); ("right", border); ("bottom", border); ("top", border)];
     xlim := None; ylim := None; grid := None;
     xlocator := FixedLocator []; ylocator := FixedLocator [];
     tick_length := None; aspect := None |}.

(** The subplot of a record without a picture: one text in the middle. *)
Definition message_axes (msg : string) (color : option string) : Axes :=
  {| facecolor := Some "#f5f5f5"; shown := None; title := None;
     texts := [centred_text msg 8 color];
     spines := [("left", default_spine); ("right", default_spine);
                ("bottom", default_spine); ("top", default_spine)];
     xlim := None; ylim := None; grid := None;
     xlocator := FixedLocator []; ylocator := FixedLocator [];
     tick_length := None; aspect := None |}.

(** The subplot of the well [well] drawn from the record at [l]: its
    picture, or one of the two messages, by what is at its graph path. *)
Definition data_well_drawn (env : Env) (w : World) (l : loc) (well : string) (ax : Axes) : Prop :=
  (exists img,
     truthy (graph_path_of (record_at w l)) = true
     /\ os_path_exists env (graph_path_of (record_at w l)) w = (Ok true, w)
     /\ plt_imread (graph_path_of (record_at w l)) w = (Ok img, w)
     /\ ax = picture_axes (record_at w l) well img)
  \/ ((truthy (graph_path_of (record_at w l)) = false
       \/ os_path_exists env (graph_path_of (record_at w l)) w = (Ok false, w))
      /\ ax = message_axes "No Image" None)
  \/ (truthy (graph_path_of (record_at w l)) = true
      /\ os_path_exists env (graph_path_of (record_at w l)) w = (Ok true, w)
      /\ (exists e, plt_imread (graph_path_of (record_at w l)) w = (Raise e, w))
      /\ ax = message_axes "Image Error" (Some "red")).

(** * Reasoning about computations *)

Create HintDb py_frame discriminated.

Section Preserves.

Context (R : relation World) `{!PreOrder R}.

Lemma preserves_ret {A} (a : A) : preserves R (ret a).
Proof. intros w. simpl. reflexivity. Qed.

Lemma preserves_raise {A} e : preserves R (@raise A e).
Proof. intros w. simpl. reflexivity. Qed.

Lemma preserves_lift {A} (o : outcome A) : preserves R (lift o).
Proof. intros w. simpl. reflexivity. Qed.

Lemma preserves_bind {A B} (m : M A) (k : A -> M B) :
  preserves R m -> (forall a, preserves R (k a)) -> preserves R (bind m k).
Proof.
  intros Hm Hk w. unfold bind. specialize (Hm w).
  destruct (m w) as [[a|e] w1]; simpl in *; [|done].
  etransitivity; [exact Hm|apply Hk].
Qed.

Lemma preserves_try_except {A} (m : M A) catches h :
  preserves R m -> (forall e, preserves R (h e)) -> preserves R (try_except m catches h).
Proof.
  intros Hm Hh w. unfold try_except. specialize (Hm w).
  destruct (m w) as [[a|e] w1]; simpl in *; [done|].
  destruct (catches e); [|done].
  etransitivity; [exact Hm|apply Hh].
Qed.

Lemma preserves_try_finally {A} (m : M A) f :
  preserves R m -> preserves R f -> preserves R (try_finally m f).
Proof.
  intros Hm Hf w. unfold try_finally. specialize (Hm w).
  destruct (m w) as [r w1]; simpl in *. specialize (Hf w1).
  destruct (f w1) as [[[]|e] w2]; simpl in *; etransitivity; eauto.
Qed.

Lemma preserves_for_each {A} (xs : list A) body :
  (forall x, preserves R (body x)) -> preserves R (for_each xs body).
Proof.
  intros Hb. induction xs as [|x xs IH]; simpl.
  - apply preserves_ret.
  - apply preserves_bind; auto.
Qed.

Lemma preserves_for_fold {A B} (xs : list A) (body : B -> A -> M B) b :
  (forall b x, preserves R (body b x)) -> preserves R (for_fold xs body b).
Proof.
  intros Hb. revert b. induction xs as [|x xs IH]; intros b; simpl.
  - apply preserves_ret.
  - apply preserves_bind; auto.
Qed.

End Preserves.

(** Steps that only read the world preserve every reflexive relation. *)
Section ReadOnly.

Context (R : relation World) `{!PreOrder R}.
Variable env : Env.

Lemma preserves_get l k d : preserves R (get l k d).
Proof. intros w. simpl. reflexivity. Qed.

Lemma preserves_getitem l k : preserves R (getitem l k).
Proof. intros w. unfold getitem. destruct (_ !! _); simpl; reflexivity. Qed.

Lemma preserves_has_key l k : preserves R (has_key l k).
Proof. intros w. simpl. reflexivity. Qed.

Lemma preserves_subscript d k : preserves R (subscript d k).
Proof. apply preserves_lift; done. Qed.

Lemma preserves_os_path_exists v : preserves R (os_path_exists env v).
Proof. intros w. unfold os_path_exists. destruct v; simpl; reflexivity. Qed.

Lemma preserves_open_lines p : preserves R (open_lines env p).
Proof.
  intros w. unfold open_lines.
  destruct (files w !! p) as [[]|]; simpl; reflexivity.
Qed.

Lemma preserves_plt_imread v : preserves R (plt_imread v).
Proof.
  intros w. unfold plt_imread.
  destruct v; simpl; try reflexivity.
  destruct (files w !! s) as [[]|]; simpl; reflexivity.
Qed.

End ReadOnly.

#[global] Hint Extern 1 (PreOrder _) => apply _ : py_frame.
#[global] Hint Resolve preserves_ret preserves_raise preserves_lift
  preserves_get preserves_getitem preserves_has_key preserves_subscript
  preserves_os_path_exists preserves_open_lines preserves_plt_imread : py_frame.

(** Walks down a computation, splitting the binds, handlers, loops and
    branches it meets, and closes the steps the hint base knows. *)
Ltac frame_step :=
  match goal with
  | |- PreOrder _ => apply _
  | |- preserves _ (bind _ _) => apply preserves_bind; [apply _ | | intros]
  | |- preserves _ (try_except _ _ _) => apply preserves_try_except; [apply _ | | intros]
  | |- preserves _ (try_finally _ _) => apply preserves_try_finally; [apply _ | | ]
  | |- preserves _ (for_each _ _) => apply preserves_for_each; [apply _ | intros]
  | |- preserves _ (for_fold _ _ _) => apply preserves_for_fold; [apply _ | intros]
  | |- preserves _ (match ?x with _ => _ end) => destruct x
  | |- preserves _ _ => solve [eauto with py_frame]
  end.

Ltac frame := intros; repeat frame_step.

(** ** Stepping through a computation *)

Lemma bind_ok {A B} (m : M A) (k : A -> M B) w a w1 :
  m w = (Ok a, w1) -> bind m k w = k a w1.
Proof. intros H. unfold bind. by rewrite H. Qed.

Lemma bind_raise {A B} (m : M A) (k : A -> M B) w e w1 :
  m w = (Raise e, w1) -> bind m k w = (Raise e, w1).
Proof. intros H. unfold bind. by rewrite H. Qed.

Lemma bind_inv_ok {A B} (m : M A) (k : A -> M B) w b w2 :
  bind m k w = (Ok b, w2) -> exists a w1, m w = (Ok a, w1) /\ k a w1 = (Ok b, w2).
Proof.
  unfold bind. destruct (m w) as [[a|e] w1]; [eauto|discriminate].
Qed.

(** A handler for every exception that itself returns leaves none. *)
Lemma try_except_any {A} (m : M A) (d : A) w :
  exists a, try_except m any_exception (fun _ => ret d) w = (Ok a, snd (m w)).
Proof. unfold try_except. destruct (m w) as [[a|e] w1]; simpl; eauto. Qed.

(** A computation that only reads leaves the world it was run in. *)
Lemma read_only_run {A} (m : M A) w : preserves eq m -> m w = (fst (m w), w).
Proof. intros H. specialize (H w). destruct (m w) as [r w']. simpl in *. by subst. Qed.

(** ** The helpers of temp-image generation *)

Section Helpers.

Variable env : Env.
Variable config : Config.

Lemma get_data_file_path_run l w :
  _get_data_file_path config l w = (Ok (data_file_path config (record_at w l)), w).
Proof.
  unfold _get_data_file_path, data_file_path, try_except, bind, getitem,
    os_path_dirname, os_path_join, bind, lift, ret.
  destruct (record_at w l !! "graph_path") as [g|]; simpl; [|done].
  destruct g; simpl; try done.
  destruct (record_at w l !! "filename") as [f|]; simpl; [|done].
  destruct f; simpl; done.
Qed.

Lemma load_and_clean_data_run p w :
  _load_and_clean_data env p w = (Ok (load_result env (fst (open_lines env p w))), w).
Proof.
  unfold _load_and_clean_data, try_except, load_result.
  pose proof (read_only_run _ w (preserves_open_lines eq env p)) as Ho.
  destruct (fst (open_lines env p w)) as [lines|e].
  - rewrite (bind_ok _ _ _ _ _ Ho).
    destruct (find_header_row 0 lines) as [i|]; [|done].
    unfold pd_read_csv. unfold bind at 1. rewrite (bind_ok _ _ _ _ _ Ho).
    unfold lift. destruct (read_csv env lines i) as [df|e]; [|done].
    by destruct (forallb (has_column df) required_cols).
  - by rewrite (bind_raise _ _ _ _ _ Ho).
Qed.

(** The dictionary [_extract_clustering_results] builds holds what
    [_validate_clustering_results] reads. *)
Lemma extract_clustering_results_run l w :
  exists cr, _extract_clustering_results l w = (Ok cr, w)
    /\ cr !! "df_filtered" = Some (dict_get (record_at w l) "df_filtered" VNone)
    /\ cr !! "target_mapping" = Some (dict_get (record_at w l) "target_mapping" VNone).
Proof.
  eexists. split; [reflexivity|]. split.
  - simpl. by rewrite lookup_insert_eq.
  - simpl. rewrite lookup_insert_ne by done. by rewrite lookup_insert_eq.
Qed.

Lemma validate_clustering_results_run cr well_id a b w :
  cr !! "df_filtered" = Some a -> cr !! "target_mapping" = Some b ->
  _validate_clustering_results cr well_id w
  = (Ok (negb (is_none a) && negb (is_none b)), w).
Proof.
  intros Ha Hb. unfold _validate_clustering_results, subscript, bind, lift.
  rewrite Ha. destruct (is_none a); simpl; [done|].
  rewrite Hb. by destruct (is_none b).
Qed.

End Helpers.

(** ** What a step leaves alone *)

#[global] Instance same_preorder {X} (f : World -> X) : PreOrder (same f).
Proof. split; unfold same; [done|congruence]. Qed.

Lemma saved_app tr1 tr2 : saved (tr1 ++ tr2) = (saved tr1 ++ saved tr2)%list.
Proof.
  induction tr1 as [|e tr1 IH]; simpl; [done|].
  destruct e; simpl; by rewrite ?IH.
Qed.

#[global] Instance keeps_written_preorder : PreOrder keeps_written.
Proof.
  split.
  - by intros w Hw.
  - intros x y z Hxy Hyz Hx. by apply Hyz, Hxy.
Qed.

(** The steps that write: each is checked against the relation at hand by
    unfolding it. *)
Ltac prim_frame :=
  let w := fresh "w" in
  intros w;
  unfold same, saved_of, call_create_well_plot, temp_files_append,
    fig_savefig, os_remove, setitem, delitem;
  repeat case_match; simpl; rewrite ?saved_app; simpl; rewrite ?app_nil_r;
  try done.

#[global] Hint Extern 10 (preserves (same _) _) => solve [prim_frame] : py_frame.

(** ** Paths that are never empty *)

Lemma os_path_join_strings a ps w :
  os_path_join (VStr a) (map VStr ps) w = (Ok (posix_join a ps), w).
Proof.
  unfold os_path_join, bind, lift, ret. simpl.
  assert (H : fspaths (map VStr ps) = Ok ps).
  { induction ps as [|p ps IH]; simpl; [done|]. by rewrite IH. }
  by rewrite H.
Qed.

Lemma append_nonempty_r (a b : string) : b <> "" -> a +:+ b <> "".
Proof. destruct a; simpl; [done|discriminate]. Qed.

Lemma join_step_nonempty_r path b : b <> "" -> join_step path b <> "".
Proof.
  intros Hb. unfold join_step.
  destruct (starts_with_slash b); [done|].
  destruct (String.eqb path "" || ends_with_slash path).
  - by apply append_nonempty_r.
  - apply append_nonempty_r. by apply append_nonempty_r.
Qed.

Lemma join_step_nonempty_l path b : path <> "" -> join_step path b <> "".
Proof.
  intros Hp. unfold join_step.
  destruct (starts_with_slash b) eqn:Hs; [by destruct b|].
  destruct (String.eqb path "" || ends_with_slash path); by destruct path.
Qed.

Lemma temp_path_nonempty config out well : temp_path config out well <> "".
Proof.
  unfold temp_path, posix_join. simpl. apply join_step_nonempty_r.
  apply append_nonempty_r. discriminate.
Qed.

Lemma data_file_path_nonempty config r p : data_file_path config r = Some p -> p <> "".
Proof.
  unfold data_file_path.
  destruct (r !! "graph_path") as [[]|]; try done.
  destruct (r !! "filename") as [[]|]; try done.
  intros [= <-]. unfold posix_join. simpl.
  do 2 apply join_step_nonempty_l. by apply join_step_nonempty_r.
Qed.

Lemma truthy_nonempty s : s <> "" -> truthy (VStr s) = true.
Proof. intros Hs. simpl. apply negb_true_iff. by apply String.eqb_neq. Qed.

(** ** The two parts of a path *)

Lemma length_string_of_list (cs : list ascii) :
  String.length (string_of_list_ascii cs) = length cs.
Proof. induction cs as [|c cs IH]; simpl; [done|]. by rewrite IH. Qed.

Lemma length_list_of_string (s : string) :
  length (list_ascii_of_string s) = String.length s.
Proof. induction s as [|c s IH]; simpl; [done|]. by rewrite IH. Qed.

Lemma string_length_pos (s : string) : s <> "" -> (0 < String.length s)%nat.
Proof. destruct s; simpl; [done|lia]. Qed.

Lemma length_head_to_last_slash cs : (length (head_to_last_slash cs) <= length cs)%nat.
Proof.
  induction cs as [|c cs IH]; [done|].
  cbn [head_to_last_slash]. destruct (existsb _ _); simpl; lia.
Qed.

Lemma length_rstrip_rev cs : (length (rstrip_rev cs) <= length cs)%nat.
Proof.
  induction cs as [|c cs IH]; [done|]. simpl.
  destruct (Ascii.eqb c slash); simpl; lia.
Qed.

Lemma length_rstrip_slash s : (String.length (rstrip_slash s) <= String.length s)%nat.
Proof.
  unfold rstrip_slash. rewrite length_string_of_list, length_rev.
  etransitivity; [apply length_rstrip_rev|].
  by rewrite length_rev, length_list_of_string.
Qed.

(** Head and tail of [os.path.split] are no longer than the path. *)
Lemma split_shorter p :
  (String.length (posix_dirname p) + String.length (posix_basename p)
   <= String.length p)%nat.
Proof.
  unfold posix_dirname, posix_basename.
  pose proof (length_head_to_last_slash (list_ascii_of_string p)) as Hh.
  rewrite length_string_of_list, length_drop, length_list_of_string in *.
  destruct (forallb _ _).
  - rewrite length_string_of_list. lia.
  - pose proof (length_rstrip_slash
                  (string_of_list_ascii (head_to_last_slash (list_ascii_of_string p)))) as Hr.
    rewrite length_string_of_list in Hr. lia.
Qed.

(** ** Making directories *)

Lemma kept_or_new_directory_trans w1 w2 w3 p :
  kept_or_new_directory w1 w2 p -> kept_or_new_directory w2 w3 p ->
  kept_or_new_directory w1 w3 p.
Proof.
  unfold kept_or_new_directory.
  intros [H12|[H1 H2]] [H23|[H2' H3]].
  - left. congruence.
  - right. split; congruence.
  - right. split; congruence.
  - congruence.
Qed.

Lemma kept_or_new_directory_picture w w' t i :
  kept_or_new_directory w w' t -> files w !! t = Some (ImageFile i) ->
  files w' !! t = Some (ImageFile i).
Proof. intros [H|[H _]] Ht; congruence. Qed.

#[global] Instance new_directories_preorder : PreOrder new_directories.
Proof.
  split.
  - intros w. repeat split; try done. by left.
  - intros x y z (Hh1 & Ht1 & Htr1 & Hf1) (Hh2 & Ht2 & Htr2 & Hf2).
    split; [congruence|]. split; [congruence|]. split; [congruence|].
    intros p. apply (kept_or_new_directory_trans x y z); [apply Hf1|apply Hf2].
Qed.

Section Makedirs.

Variable env : Env.

Lemma preserves_os_path_isdir (R : relation World) `{!PreOrder R} p :
  preserves R (os_path_isdir p).
Proof. intros w. simpl. reflexivity. Qed.

Lemma mkdir_new_directories p : preserves new_directories (os_mkdir env p).
Proof.
  intros w. unfold os_mkdir.
  destruct (files w !! p) as [f|] eqn:Hp; [reflexivity|].
  destruct (files w !! posix_dirname p) as [[]|]; try reflexivity;
    (destruct (makedirs_ok env p); [|reflexivity]); simpl;
    (repeat split; try done; intros q; unfold kept_or_new_directory; simpl;
     destruct (decide (p = q)) as [<-|Hne];
     [right; by rewrite lookup_insert_eq|left; by rewrite lookup_insert_ne]).
Qed.

Lemma makedirs_from_new_directories fuel name :
  preserves new_directories (makedirs_from env fuel name).
Proof.
  revert name. induction fuel as [|fuel IH]; intros name; simpl.
  - apply preserves_raise; apply _.
  - apply preserves_bind; [apply _| |].
    + destruct (negb _ && negb _); [|apply preserves_ret; apply _].
      apply preserves_bind; [apply _|apply preserves_os_path_exists; apply _|].
      intros found. destruct (negb found); [|apply preserves_ret; apply _].
      apply preserves_bind; [apply _| |intros; apply preserves_ret; apply _].
      apply preserves_try_except; [apply _|apply IH|intros; apply preserves_ret; apply _].
    + intros stop. destruct stop; [apply preserves_ret; apply _|].
      apply preserves_try_except; [apply _|apply mkdir_new_directories|].
      intros e. apply preserves_bind; [apply _|apply preserves_os_path_isdir; apply _|].
      intros isdir. destruct (negb isdir);
        [apply preserves_raise; apply _|apply preserves_ret; apply _].
Qed.

(** The recursion of [os.makedirs] is on a shorter path: the fuel that
    [os_makedirs] starts with is never used up, and more changes nothing. *)
Lemma makedirs_from_fuel fuel1 fuel2 name :
  (String.length name < fuel1)%nat -> (String.length name < fuel2)%nat ->
  makedirs_from env fuel1 name = makedirs_from env fuel2 name.
Proof.
  revert fuel2 name. induction fuel1 as [|fuel1 IH]; intros fuel2 name H1 H2; [lia|].
  destruct fuel2 as [|fuel2]; [lia|]. simpl.
  pose proof (split_shorter name) as Hs.
  pose proof (split_shorter (posix_dirname name)) as Hs'.
  destruct (String.eqb (posix_basename name) "") eqn:Etail.
  - destruct (String.eqb (posix_dirname (posix_dirname name)) ""); [done|].
    destruct (String.eqb (posix_basename (posix_dirname name)) "") eqn:Etail'; [done|].
    cbn [negb andb]. apply String.eqb_neq, string_length_pos in Etail'.
    rewrite (IH fuel2 (posix_dirname (posix_dirname name))) by lia. done.
  - destruct (String.eqb (posix_dirname name) ""); [done|].
    cbn [negb andb]. apply String.eqb_neq, string_length_pos in Etail.
    rewrite (IH fuel2 (posix_dirname name)) by lia. done.
Qed.

Lemma makedirs_new_directories p : preserves new_directories (os_makedirs env p).
Proof. apply makedirs_from_new_directories. Qed.

Lemma makedirs_same {X} (f : World -> X) p :
  (forall w w', new_directories w w' -> f w' = f w) ->
  preserves (same f) (os_makedirs env p).
Proof. intros Hf w. apply Hf, makedirs_new_directories. Qed.

Lemma makedirs_same_heap p : preserves (same heap) (os_makedirs env p).
Proof. apply makedirs_same. by intros w w' (? & _). Qed.

Lemma makedirs_same_saved p : preserves (same saved_of) (os_makedirs env p).
Proof.
  apply makedirs_same. intros w w' (_ & _ & Htr & _). unfold saved_of. by rewrite Htr.
Qed.

Lemma makedirs_keeps_written p : preserves keeps_written (os_makedirs env p).
Proof.
  intros w Hw t Ht. destruct (makedirs_new_directories p w) as (_ & Htf & _ & Hf).
  rewrite Htf in Ht. destruct (Hw t Ht) as [img Himg]. exists img.
  by apply (kept_or_new_directory_picture w).
Qed.

End Makedirs.

#[global] Hint Resolve makedirs_same_heap makedirs_same_saved : py_frame.

Section Generation.

Variable env : Env.
Variable config : Config.

(** Writing the picture and then recording its path keeps [temp_files]
    written. *)
Lemma plot_and_record_keeps_written df cr well p :
  preserves keeps_written
    (call_create_well_plot env df cr well p ;; temp_files_append p ;; ret (Some p)).
Proof.
  intros w Hw. unfold bind, call_create_well_plot, temp_files_append, ret.
  destruct (create_well_plot env df cr well p) as [img|e]; simpl; [|done].
  intros t Ht. simpl in *. destruct (decide (p = t)) as [->|Hne].
  - exists img. by rewrite lookup_insert_eq.
  - rewrite lookup_insert_ne by done. apply Hw.
    apply elem_of_app in Ht as [Ht|Ht%list_elem_of_singleton]; [done|congruence].
Qed.

(** What one call of [_create_temp_well_plot] does to the world. *)
Lemma create_temp_well_plot_effect l out df cr w :
  exists r w',
    _create_temp_well_plot env config l out df cr w = (Ok r, w')
    /\ heap w' = heap w
    /\ (forall p, (forall tp, r = Some tp -> p <> tp) -> kept_or_new_directory w w' p)
    /\ (is_Some r <->
        fst (os_makedirs env (graphs_dir config out) w) = Ok tt
        /\ exists well img,
             record_at w l !! "well" = Some well
             /\ create_well_plot env df cr well (temp_path config out well) = Ok img)
    /\ match r with
       | Some tp =>
           (exists well img,
              record_at w l !! "well" = Some well /\ tp = temp_path config out well
              /\ create_well_plot env df cr well tp = Ok img
              /\ files w' !! tp = Some (ImageFile img))
           /\ temp_files w' = (temp_files w ++ [tp])%list
           /\ trace w' = (trace w ++ [EvPlot tp])%list
       | None => temp_files w' = temp_files w /\ trace w' = trace w
       end.
Proof.
  unfold _create_temp_well_plot, try_except.
  rewrite (bind_ok _ _ w (posix_dirname out) w) by reflexivity.
  rewrite (bind_ok _ _ _ _ _ (os_path_join_strings (posix_dirname out)
                                [GRAPHS_DIR_NAME config] w)).
  fold (graphs_dir config out). remember (graphs_dir config out) as gd eqn:Egd.
  pose proof (makedirs_new_directories env gd w) as Hmk.
  unfold bind at 1.
  destruct (os_makedirs env gd w) as [rm wm] eqn:Em. cbn [fst snd] in *.
  destruct Hmk as (Hh & Ht & Htr & Hf).
  assert (Hnone : ~ (rm = Ok tt
                     /\ exists well img, record_at w l !! "well" = Some well
                          /\ create_well_plot env df cr well (temp_path config out well)
                             = Ok img) ->
            exists (r : option string) w',
              (Ok None, wm) = (Ok r, w') /\ heap w' = heap w
              /\ (forall p, (forall tp, r = Some tp -> p <> tp) ->
                    kept_or_new_directory w w' p)
              /\ (is_Some r <->
                  rm = Ok tt
                  /\ exists well img, record_at w l !! "well" = Some well
                       /\ create_well_plot env df cr well (temp_path config out well)
                          = Ok img)
              /\ match r with
                 | Some tp =>
                     (exists well img,
                        record_at w l !! "well" = Some well
                        /\ tp = temp_path config out well
                        /\ create_well_plot env df cr well tp = Ok img
                        /\ files w' !! tp = Some (ImageFile img))
                     /\ temp_files w' = (temp_files w ++ [tp])%list
                     /\ trace w' = (trace w ++ [EvPlot tp])%list
                 | None => temp_files w' = temp_files w /\ trace w' = trace w
                 end).
  { intros Hnot. exists None, wm.
    split; [done|]. split; [done|]. split; [by intros p _|].
    split; [|done]. split; [by intros [? ?]|]. intros H. by destruct Hnot. }
  destruct rm as [[]|e]; [|apply Hnone; by intros [? _]].
  assert (Hrec : record_at wm l = record_at w l) by (unfold record_at; by rewrite Hh).
  unfold bind at 1, getitem at 1. rewrite Hrec.
  destruct (record_at w l !! "well") as [well|] eqn:Hwell.
  2:{ apply Hnone. intros (_ & well' & img & Hw' & _). congruence. }
  rewrite (bind_ok _ _ _ _ _ (os_path_join_strings gd [py_str well +:+ "_temp.png"] wm)).
  assert (Etp : posix_join gd [py_str well +:+ "_temp.png"] = temp_path config out well)
    by (unfold temp_path; by rewrite Egd).
  rewrite Etp. remember (temp_path config out well) as tp eqn:Htp.
  unfold bind at 1, getitem at 1. rewrite Hrec, Hwell.
  unfold bind at 1, call_create_well_plot at 1. cbv beta.
  destruct (create_well_plot env df cr well tp) as [img|e] eqn:Hplot.
  2:{ apply Hnone. intros (_ & well' & img & Hw' & Hc). injection Hw' as <-.
      rewrite <- Htp in Hc. congruence. }
  eexists (Some tp), _. split; [reflexivity|]. simpl.
  split; [done|]. split; [|split; [|split; [|split]]].
  - intros p Hno. unfold kept_or_new_directory. simpl.
    rewrite lookup_insert_ne by (intros <-; by apply (Hno tp)). apply Hf.
  - split; [|by eexists]. intros _. split; [done|]. exists well, img.
    split; [done|]. by rewrite <- Htp.
  - exists well, img. split; [done|]. split; [done|]. split; [done|]. apply lookup_insert_eq.
  - by rewrite Ht.
  - by rewrite Htr.
Qed.

(** One turn of the loop of [_generate_well_images]. *)
Lemma generate_well_image_effect out l w :
  exists w', _generate_well_image env config out l w = (Ok tt, w')
    /\ well_image_effect env config out l w w'.
Proof.
  assert (Hquiet : forall w0, heap w0 = heap w -> temp_files w0 = temp_files w ->
            trace w0 = trace w -> (forall p, kept_or_new_directory w w0 p) ->
            exists w', ret tt w0 = (Ok tt, w') /\ well_image_effect env config out l w w').
  { intros w0 Hh Ht Htr Hf. exists w0. split; [done|]. split; [by intros p _|].
    split; [|by left]. intros t i Hi. exists i.
    by apply (kept_or_new_directory_picture w). }
  assert (Hskip : exists w', ret tt w = (Ok tt, w') /\ well_image_effect env config out l w w').
  { apply Hquiet; try done. intros p. by left. }
  unfold _generate_well_image.
  rewrite (bind_ok _ _ w (dict_get (record_at w l) "well" VNone) w) by reflexivity.
  destruct (truthy (dict_get (record_at w l) "well" VNone)) eqn:Hwell;
    cbn [negb]; [|exact Hskip].
  rewrite (bind_ok _ _ _ _ _ (get_data_file_path_run config l w)).
  destruct (data_file_path config (record_at w l)) as [p|] eqn:Hp; [|exact Hskip].
  destruct (truthy (VStr p)); cbn [negb]; [|exact Hskip].
  rewrite (bind_ok _ _ w (match files w !! p with Some _ => true | None => false end) w)
    by reflexivity.
  destruct (files w !! p) as [f|] eqn:Hfile; cbn [negb]; [|exact Hskip].
  pose proof (load_and_clean_data_run env p w) as Hload.
  rewrite (bind_ok _ _ _ _ _ Hload).
  destruct (load_result env (fst (open_lines env p w))) as [df|]; [|exact Hskip].
  destruct (extract_clustering_results_run l w) as (cr & Hcr & Ha & Hb).
  rewrite (bind_ok _ _ _ _ _ Hcr).
  assert (Hw : exists v, record_at w l !! "well" = Some v).
  { unfold dict_get in Hwell. destruct (record_at w l !! "well"); [eauto|done]. }
  destruct Hw as [v Hv].
  rewrite (bind_ok _ _ w v w) by (unfold getitem; by rewrite Hv).
  rewrite (bind_ok _ _ _ _ _ (validate_clustering_results_run cr v _ _ w Ha Hb)).
  destruct (negb (is_none (dict_get (record_at w l) "df_filtered" VNone))
            && negb (is_none (dict_get (record_at w l) "target_mapping" VNone))) eqn:Hvalid;
    cbn [negb]; [|exact Hskip].
  destruct (create_temp_well_plot_effect l out df cr w)
    as (r & w1 & Hrun & Hheap & Hfiles & _ & Hr).
  rewrite (bind_ok _ _ _ _ _ Hrun).
  destruct r as [tp|].
  2:{ destruct Hr as [Htf Htr]. apply Hquiet; try done. intros q. by apply Hfiles. }
  destruct Hr as ((well & img & Hwell' & -> & Hplot & Himg) & Htf & Htr).
  rewrite (truthy_nonempty _ (temp_path_nonempty config out well)).
  eexists. split; [reflexivity|]. split; [|split].
  - intros q Hno. unfold kept_or_new_directory. simpl. apply Hfiles.
    intros tp [= <-]. by apply Hno.
  - intros t i Ht. simpl.
    destruct (decide (t = temp_path config out well)) as [->|Htp]; [eauto|].
    exists i. apply (kept_or_new_directory_picture w); [|done].
    apply Hfiles. by intros tp [= <-].
  - right. split; [|split].
    + exists well, img. simpl. unfold record_at at 2. rewrite Hheap.
      fold (record_at w l). done.
    + exists p. split; [done|]. split; [by exists f|].
      exists df, cr, well, img. done.
    + unfold malformed. rewrite Hwell.
      unfold data_file_path in Hp.
      destruct (record_at w l !! "graph_path") as [[]|]; try done.
      destruct (record_at w l !! "filename") as [[]|]; try done.
      apply andb_true_iff in Hvalid as [H1 H2].
      apply negb_true_iff in H1, H2. by rewrite H1, H2.
Qed.

Lemma generate_well_image_run out l w :
  exists w', _generate_well_image env config out l w = (Ok tt, w')
    /\ gen_step l w w' /\ (heap w' = heap w \/ plotted env config out l w).
Proof.
  destruct (generate_well_image_effect out l w) as (w' & Hrun & _ & Hpic & Heff).
  exists w'. split; [done|].
  destruct Heff as [(Hh & Ht & Htr)|((well & img & Hw & Hh & Ht & Htr & Hf) & Hpl & Hmal)].
  - split; [|by left]. split; [by left|]. split; [unfold saved_of; by rewrite Htr|].
    intros Hw t Hin. rewrite Ht in Hin. destruct (Hw t Hin) as [i Hi]. by eapply Hpic.
  - split; [|by right]. split; [right; by eexists|].
    split; [unfold saved_of; rewrite Htr, saved_app; simpl; by rewrite app_nil_r|].
    intros Hw0 t Hin. rewrite Ht in Hin.
    apply elem_of_app in Hin as [Hin|Hin%list_elem_of_singleton].
    + destruct (Hw0 t Hin) as [i Hi]. by eapply Hpic.
    + subst t. eauto.
Qed.

End Generation.

(** ** The loop of [_generate_well_images] *)

Lemma gen_step_fields l w w1 :
  gen_step l w w1 ->
  forall l0 k, k <> temp_key -> record_at w1 l0 !! k = record_at w l0 !! k.
Proof.
  intros [[Hh|(tp & Hh & _)] _] l0 k Hk; unfold record_at at 1; rewrite Hh; [done|].
  destruct (decide (l = l0)) as [->|Hne].
  - rewrite lookup_insert_eq. simpl. by rewrite lookup_insert_ne.
  - by rewrite lookup_insert_ne.
Qed.

Lemma gen_step_malformed l w w1 :
  gen_step l w w1 ->
  forall l0, malformed (record_at w l0) = true -> record_at w1 l0 = record_at w l0.
Proof.
  intros [[Hh|(tp & Hh & Hok)] _] l0 Hbad; unfold record_at at 1; rewrite Hh; [done|].
  rewrite lookup_insert_ne; [done|]. intros ->. congruence.
Qed.

Section GenerationLoop.

Variable env : Env.
Variable config : Config.

Lemma generate_well_images_run results out w :
  exists w', _generate_well_images env config results out w = (Ok tt, w')
    /\ (forall l k, k <> temp_key -> record_at w' l !! k = record_at w l !! k)
    /\ (forall l, malformed (record_at w l) = true -> record_at w' l = record_at w l)
    /\ saved_of w' = saved_of w
    /\ keeps_written w w'.
Proof.
  unfold _generate_well_images. revert w.
  induction results as [|l results IH]; intros w.
  - exists w. simpl. repeat split; done.
  - destruct (generate_well_image_run env config out l w) as (w1 & Hrun & Hstep & _).
    destruct (IH w1) as (w' & Hloop & Hf & Hm & Hs & Hk).
    exists w'. cbn [for_each]. rewrite (bind_ok _ _ _ _ _ Hrun). split; [done|].
    repeat split.
    + intros l0 k Hne. rewrite Hf by done. by eapply gen_step_fields.
    + intros l0 Hbad. pose proof (gen_step_malformed _ _ _ Hstep l0 Hbad) as H1.
      rewrite Hm; [done|]. by rewrite H1.
    + destruct Hstep as (_ & Hs1 & _). congruence.
    + destruct Hstep as (_ & _ & Hk1). intros Hw. by apply Hk, Hk1.
Qed.

End GenerationLoop.

(** ** [_cleanup_temp_files] *)

Section Cleanup.

Variable env : Env.

Lemma remove_temp_file_run t w :
  exists w', remove_temp_file env t w = (Ok tt, w')
    /\ heap w' = heap w /\ temp_files w' = temp_files w /\ saved_of w' = saved_of w
    /\ (forall p, files w' !! p = files w !! p \/ files w' !! p = None)
    /\ (forall p, p <> t -> files w' !! p = files w !! p)
    /\ (no_directory w t -> files w' !! t = None \/ remove_ok env t = false).
Proof.
  unfold remove_temp_file, try_except, bind, os_path_exists, os_remove, no_directory.
  assert (Hdel : forall p, delete t (files w) !! p = files w !! p \/ delete t (files w) !! p = None).
  { intros p. destruct (decide (t = p)) as [->|Hne].
    - right. apply lookup_delete_eq.
    - left. by apply lookup_delete_ne. }
  destruct (files w !! t) as [[| |]|] eqn:Hf; simpl; rewrite ?Hf; simpl.
  - exists w. repeat split; auto. by intros H.
  - destruct (remove_ok env t) eqn:Hr; simpl.
    + eexists. split; [reflexivity|]. simpl. unfold saved_of. simpl.
      rewrite saved_app, app_nil_r. repeat split; auto.
      * intros p Hp. by apply lookup_delete_ne.
      * intros _. left. apply lookup_delete_eq.
    + exists w. repeat split; auto.
  - destruct (remove_ok env t) eqn:Hr; simpl.
    + eexists. split; [reflexivity|]. simpl. unfold saved_of. simpl.
      rewrite saved_app, app_nil_r. repeat split; auto.
      * intros p Hp. by apply lookup_delete_ne.
      * intros _. left. apply lookup_delete_eq.
    + exists w. repeat split; auto.
  - exists w. repeat split; auto.
Qed.

Lemma remove_temp_files_run ts w :
  exists w', for_each ts (remove_temp_file env) w = (Ok tt, w')
    /\ heap w' = heap w /\ temp_files w' = temp_files w /\ saved_of w' = saved_of w
    /\ (forall p, files w' !! p = files w !! p \/ files w' !! p = None)
    /\ (forall p, p ∉ ts -> files w' !! p = files w !! p)
    /\ (forall t, t ∈ ts -> no_directory w t ->
          files w' !! t = None \/ remove_ok env t = false).
Proof.
  revert w. induction ts as [|t ts IH]; intros w.
  - exists w. simpl. repeat split; auto. intros t Ht. by apply elem_of_nil in Ht.
  - destruct (remove_temp_file_run t w) as (w1 & Hrun & Hh1 & Ht1 & Hs1 & Hf1 & Hk1 & Hr1).
    destruct (IH w1) as (w' & Hloop & Hh & Htf & Hs & Hf & Hk & Hr).
    exists w'. cbn [for_each]. rewrite (bind_ok _ _ _ _ _ Hrun).
    split; [done|]. split; [congruence|]. split; [congruence|]. split; [congruence|].
    split; [|split].
    + intros p. destruct (Hf p) as [-> | ->]; auto.
    + intros p Hp. apply not_elem_of_cons in Hp as [Hne Hp].
      rewrite (Hk _ Hp). by apply Hk1.
    + intros t0 Hin Hnd. apply elem_of_cons in Hin as [->|Hin].
      * destruct (Hr1 Hnd) as [Hgone|Hno]; [|by right].
        left. destruct (Hf t) as [-> | ->]; done.
      * apply Hr; [done|]. unfold no_directory in *.
        destruct (Hf1 t0) as [-> | ->]; done.
Qed.

Lemma forget_temp_path_run l w :
  exists w', forget_temp_path l w = (Ok tt, w')
    /\ files w' = files w /\ temp_files w' = temp_files w /\ trace w' = trace w
    /\ record_at w' l = delete temp_key (record_at w l)
    /\ (forall l0, l0 <> l -> record_at w' l0 = record_at w l0).
Proof.
  unfold forget_temp_path, bind, has_key, delitem. fold temp_key.
  destruct (record_at w l !! temp_key) eqn:Hk; simpl; rewrite ?Hk.
  - eexists. split; [reflexivity|]. simpl. repeat split.
    + unfold record_at at 1. simpl. by rewrite lookup_insert_eq.
    + intros l0 Hne. unfold record_at at 1. simpl. by rewrite lookup_insert_ne.
  - exists w. split; [done|]. repeat split.
    symmetry. by apply delete_id.
Qed.

Lemma forget_temp_paths_run results w :
  exists w', for_each results forget_temp_path w = (Ok tt, w')
    /\ files w' = files w /\ temp_files w' = temp_files w /\ trace w' = trace w
    /\ (forall l, l ∈ results -> record_at w' l = delete temp_key (record_at w l))
    /\ (forall l, l ∉ results -> record_at w' l = record_at w l).
Proof.
  revert w. induction results as [|l results IH]; intros w.
  - exists w. simpl. repeat split; auto. intros l Hl. by apply elem_of_nil in Hl.
  - destruct (forget_temp_path_run l w) as (w1 & Hrun & Hf1 & Ht1 & Htr1 & Hl1 & Ho1).
    destruct (IH w1) as (w' & Hloop & Hf & Ht & Htr & Hin & Hout).
    exists w'. cbn [for_each]. rewrite (bind_ok _ _ _ _ _ Hrun).
    split; [done|]. split; [congruence|]. split; [congruence|]. split; [congruence|].
    split.
    + intros l0 Hl0. destruct (decide (l0 ∈ results)) as [Hr|Hr].
      * rewrite (Hin _ Hr). destruct (decide (l0 = l)) as [->|Hne].
        -- rewrite Hl1. apply delete_id. apply lookup_delete_eq.
        -- by rewrite Ho1.
      * rewrite (Hout _ Hr). apply elem_of_cons in Hl0 as [->|Hl0]; [done|].
        by destruct Hr.
    + intros l0 Hl0. apply not_elem_of_cons in Hl0 as [Hne Hl0].
      rewrite (Hout _ Hl0). by apply Ho1.
Qed.

Lemma cleanup_temp_files_run results w :
  exists w', _cleanup_temp_files env results w = (Ok tt, w')
    /\ temp_files w' = temp_files w /\ saved_of w' = saved_of w
    /\ (forall p, files w' !! p = files w !! p \/ files w' !! p = None)
    /\ (forall p, p ∉ temp_files w -> files w' !! p = files w !! p)
    /\ (forall t, t ∈ temp_files w -> no_directory w t ->
          files w' !! t = None \/ remove_ok env t = false)
    /\ (forall l k, k <> temp_key -> record_at w' l !! k = record_at w l !! k)
    /\ (forall l, l ∈ results -> record_at w' l = delete temp_key (record_at w l)).
Proof.
  unfold _cleanup_temp_files.
  fold (remove_temp_file env).
  change (fun temp_file => remove_temp_file env temp_file) with (remove_temp_file env).
  destruct (remove_temp_files_run (temp_files w) w)
    as (w1 & Hrun & Hh1 & Ht1 & Hs1 & Hf1 & Hk1 & Hr1).
  destruct (forget_temp_paths_run results w1) as (w' & Hloop & Hf & Ht & Htr & Hin & Hout).
  exists w'. rewrite (bind_ok _ _ _ _ _ Hrun). split; [exact Hloop|].
  assert (Hrec : forall l, record_at w1 l = record_at w l)
    by (intros l; unfold record_at; by rewrite Hh1).
  split; [congruence|]. split; [unfold saved_of in *; congruence|].
  split; [intros p; rewrite Hf; apply Hf1|].
  split; [intros p Hp; rewrite Hf; by apply Hk1|].
  split; [intros t Hin' Hnd; rewrite Hf; by apply Hr1|].
  split.
  - intros l k Hk. destruct (decide (l ∈ results)) as [Hl|Hl].
    + rewrite (Hin _ Hl), Hrec. by apply lookup_delete_ne.
    + by rewrite (Hout _ Hl), Hrec.
  - intros l Hl. by rewrite (Hin _ Hl), Hrec.
Qed.

(** The first loop of the clean-up: the paths it removes were on
    [temp_files], each held a regular file that [os.remove] accepts and is
    gone, none is removed twice, and no other path changes. *)
Lemma remove_temp_files_trace ts w :
  exists w' rs,
    for_each ts (remove_temp_file env) w = (Ok tt, w')
    /\ trace w' = (trace w ++ map EvRemove rs)%list
    /\ Forall (fun r => r ∈ ts /\ files w !! r <> None /\ files w' !! r = None) rs
    /\ NoDup rs
    /\ Forall (fun r => files w !! r <> Some Directory /\ remove_ok env r = true) rs
    /\ (forall p, p ∉ rs -> files w' !! p = files w !! p).
Proof.
  revert w. induction ts as [|t ts IH]; intros w.
  - exists w, []. simpl. rewrite app_nil_r. repeat split; constructor.
  - destruct (IH (snd (remove_temp_file env t w)))
      as (w' & rs & Hloop & Htr & Hall & Hnd & Hreg & Hrest).
    destruct (remove_temp_files_run ts (snd (remove_temp_file env t w)))
      as (w'' & Hloop' & _ & _ & _ & Hshrink & _).
    rewrite Hloop in Hloop'. injection Hloop' as <-.
    assert (Hstep : (remove_temp_file env t w = (Ok tt, w))
                    \/ (files w !! t <> None /\ files w !! t <> Some Directory
                        /\ remove_ok env t = true)
                       /\ remove_temp_file env t w
                          = (Ok tt, emit (EvRemove t) (with_files (delete t (files w)) w))).
    { unfold remove_temp_file, try_except, bind, os_path_exists, os_remove.
      destruct (files w !! t) as [[]|] eqn:Hf; simpl; rewrite ?Hf; simpl; auto;
        destruct (remove_ok env t); simpl; auto. }
    assert (Hmono : forall w1 rs1,
              Forall (fun r => r ∈ ts /\ files w1 !! r <> None /\ files w' !! r = None) rs1 ->
              (forall q, files w1 !! q <> None -> files w !! q <> None) ->
              Forall (fun r => r ∈ t :: ts /\ files w !! r <> None /\ files w' !! r = None) rs1).
    { intros w1 rs1 H Hsub. eapply Forall_impl; [exact H|].
      intros r (Hin & Hthere & Hgone).
      split; [by apply list_elem_of_further|]. split; [by apply Hsub|done]. }
    cbn [for_each]. destruct Hstep as [Hs|[(Hf & Hnodir & Hok) Hs]];
      rewrite Hs in *; cbn [snd] in *.
    + exists w', rs. rewrite (bind_ok _ _ _ _ _ Hs). split; [done|]. split; [done|].
      split; [by apply (Hmono w)|]. done.
    + exists w', (t :: rs). rewrite (bind_ok _ _ _ _ _ Hs). split; [done|].
      simpl in Htr. split; [by rewrite Htr, <- app_assoc|].
      assert (Hgone : files w' !! t = None).
      { destruct (Hshrink t) as [-> | ->]; [|done]. simpl. apply lookup_delete_eq. }
      assert (Hfresh : t ∉ rs).
      { intros Hin. apply (proj1 (Forall_forall _ _) Hall) in Hin as (_ & Hthere & _).
        simpl in Hthere. by rewrite lookup_delete_eq in Hthere. }
      split; [|split; [|split]].
      * constructor; [by split; [apply list_elem_of_here|]|].
        apply (Hmono _ rs Hall). intros q Hq. simpl in Hq.
        destruct (decide (t = q)) as [->|Hne]; [done|].
        by rewrite lookup_delete_ne in Hq.
      * by constructor.
      * constructor; [done|]. apply Forall_forall. intros r Hr.
        pose proof (proj1 (Forall_forall _ _) Hreg r Hr) as [Hd Hrok]. simpl in Hd.
        split; [|done]. destruct (decide (t = r)) as [->|Hne]; [done|].
        by rewrite lookup_delete_ne in Hd.
      * intros q Hq. apply not_elem_of_cons in Hq as [Hne Hq].
        rewrite (Hrest _ Hq). simpl. by apply lookup_delete_ne.
Qed.

Lemma cleanup_temp_files_trace results w :
  exists w' rs,
    _cleanup_temp_files env results w = (Ok tt, w')
    /\ trace w' = (trace w ++ map EvRemove rs)%list
    /\ Forall (fun r => r ∈ temp_files w /\ files w !! r <> None /\ files w' !! r = None) rs
    /\ NoDup rs
    /\ Forall (fun r => files w !! r <> Some Directory /\ remove_ok env r = true) rs
    /\ (forall p, p ∉ rs -> files w' !! p = files w !! p)
    /\ (forall l, l ∈ results -> record_at w' l = delete temp_key (record_at w l))
    /\ (forall l, l ∉ results -> record_at w' l = record_at w l).
Proof.
  unfold _cleanup_temp_files.
  fold (remove_temp_file env).
  change (fun temp_file => remove_temp_file env temp_file) with (remove_temp_file env).
  destruct (remove_temp_files_trace (temp_files w) w)
    as (w1 & rs & Hrun & Htr & Hall & Hnd & Hreg & Hrest).
  destruct (remove_temp_files_run (temp_files w) w) as (w1' & Hrun' & Hheap & _).
  rewrite Hrun in Hrun'. injection Hrun' as <-.
  destruct (forget_temp_paths_run results w1) as (w' & Hloop & Hf & _ & Htr' & Hin & Hout).
  assert (Hrec : forall l, record_at w1 l = record_at w l)
    by (intros l; unfold record_at; by rewrite Hheap).
  exists w', rs. rewrite (bind_ok _ _ _ _ _ Hrun). split; [exact Hloop|].
  split; [congruence|]. split; [|split; [done|split; [done|split; [|split]]]].
  - eapply Forall_impl; [exact Hall|]. intros r (? & ? & ?). by rewrite Hf.
  - intros p Hp. rewrite Hf. by apply Hrest.
  - intros l Hl. by rewrite (Hin _ Hl), Hrec.
  - intros l Hl. by rewrite (Hout _ Hl), Hrec.
Qed.

End Cleanup.

(** ** Building the figure reads the world and writes one file *)

Section Figure.

Variable env : Env.
Variable config : Config.

Lemma apply_well_border_read_only ax l well : preserves eq (_apply_well_border ax l well).
Proof. unfold _apply_well_border. frame. Qed.

Lemma populate_data_well_read_only ax well l :
  preserves eq (_populate_data_well env ax well l).
Proof.
  unfold _populate_data_well. frame. apply apply_well_border_read_only.
Qed.

Lemma create_well_subplot_read_only gs d i row fig jc :
  preserves eq (_create_well_subplot env config gs d i row fig jc).
Proof.
  unfold _create_well_subplot. destruct jc as [j c]. frame.
  apply populate_data_well_read_only.
Qed.

Lemma create_well_subplots_read_only fig gs rows cols d :
  preserves eq (_create_well_subplots env config fig gs rows cols d).
Proof.
  unfold _create_well_subplots. frame. apply create_well_subplot_read_only.
Qed.

Lemma add_plate_labels_read_only fig rows cols :
  preserves eq (_add_plate_labels fig rows cols).
Proof. unfold _add_plate_labels. frame. Qed.

Lemma well_results_of_read_only results : preserves eq (well_results_of results).
Proof. unfold well_results_of. frame. Qed.

Lemma fig_savefig_run fig out w :
  fig_savefig env fig out w = (Raise OSError, w)
  \/ exists w', fig_savefig env fig out w = (Ok tt, w')
       /\ heap w' = heap w /\ temp_files w' = temp_files w
       /\ saved_of w' = (saved_of w ++ [(out, fig)])%list
       /\ files w' = <[savefig_target out := ImageFile (render env fig)]> (files w).
Proof.
  unfold fig_savefig. destruct (savefig_ok env out); [right|by left].
  eexists. split; [reflexivity|]. unfold saved_of. simpl.
  by rewrite saved_app.
Qed.

(** [_create_composite_figure] either raises with the world as it was, or
    gets as far as saving the figure it has built. *)
Lemma create_composite_figure_run results out rows cols w :
  (exists e, _create_composite_figure env config results out rows cols w = (Raise e, w))
  \/ exists d fig0 fig,
       well_results_of results w = (Ok d, w)
       /\ _create_well_subplots env config
            (new_figure (COMPOSITE_FIGURE_SIZE config)) (8, 12)%nat rows cols d w
          = (Ok fig0, w)
       /\ _add_plate_labels fig0 rows cols w = (Ok fig, w)
       /\ _create_composite_figure env config results out rows cols w
          = fig_savefig env fig out w.
Proof.
  unfold _create_composite_figure.
  pose proof (read_only_run _ w (well_results_of_read_only results)) as H1.
  destruct (fst (well_results_of results w)) as [d|e];
    [|left; exists e; by rewrite (bind_raise _ _ _ _ _ H1)].
  rewrite (bind_ok _ _ _ _ _ H1).
  pose proof (read_only_run _ w
    (create_well_subplots_read_only (new_figure (COMPOSITE_FIGURE_SIZE config))
       (8, 12)%nat rows cols d)) as H2.
  destruct (fst (_create_well_subplots _ _ _ _ rows cols d w)) as [fig0|e];
    [|left; exists e; by rewrite (bind_raise _ _ _ _ _ H2)].
  rewrite (bind_ok _ _ _ _ _ H2).
  pose proof (read_only_run _ w (add_plate_labels_read_only fig0 rows cols)) as H3.
  destruct (fst (_add_plate_labels fig0 rows cols w)) as [fig|e];
    [|left; exists e; by rewrite (bind_raise _ _ _ _ _ H3)].
  rewrite (bind_ok _ _ _ _ _ H3).
  right. by exists d, fig0, fig.
Qed.

(** The effect of [_create_composite_figure] on the world, however it ends. *)
Lemma create_composite_figure_effect results out rows cols w :
  exists r w', _create_composite_figure env config results out rows cols w = (r, w')
    /\ heap w' = heap w /\ temp_files w' = temp_files w /\ keeps_written w w'
    /\ match r with
       | Ok _ => exists fig, saved_of w' = (saved_of w ++ [(out, fig)])%list
       | Raise _ => saved_of w' = saved_of w
       end.
Proof.
  destruct (create_composite_figure_run results out rows cols w)
    as [[e He]|(d & fig0 & fig & _ & _ & _ & Hrun)].
  - exists (Raise e), w. repeat split; try done.
  - rewrite Hrun. destruct (fig_savefig_run fig out w) as [Hs|(w' & Hs & Hh & Ht & Hsv & Hfs)].
    + exists (Raise OSError), w. repeat split; try done.
    + exists (Ok tt), w'. repeat split; try done; [|by exists fig].
      intros Hw t Hin. rewrite Ht in Hin. rewrite Hfs.
      destruct (decide (savefig_target out = t)) as [<-|Hne].
      * rewrite lookup_insert_eq. eauto.
      * rewrite lookup_insert_ne by done. by apply Hw.
Qed.

(** ** [create_composite_image], step by step *)

(** For a non-empty list of results the call runs the three stages one after
    the other: every result gets its turn at a temporary picture, the figure
    is built and saved or fails, and the clean-up runs whatever happened. *)
Lemma create_composite_image_run results out w :
  results <> [] ->
  exists w1 r w2 w3,
    _generate_well_images env config results out (with_temp_files [] w) = (Ok tt, w1)
    /\ _create_composite_figure env config results out
         (PLATE_ROWS config) (PLATE_COLS config) w1 = (r, w2)
    /\ _cleanup_temp_files env results w2 = (Ok tt, w3)
    /\ create_composite_image env config results out w
       = (match r with Ok _ => Ok out | Raise _ => Raise VisualizationError end, w3).
Proof.
  intros Hne.
  destruct (generate_well_images_run env config results out (with_temp_files [] w))
    as (w1 & Hgen & _).
  destruct (_create_composite_figure env config results out
              (PLATE_ROWS config) (PLATE_COLS config) w1) as [r w2] eqn:Hfig.
  destruct (cleanup_temp_files_run env results w2) as (w3 & Hclean & _).
  exists w1, r, w2, w3. split; [done|]. split; [done|]. split; [done|].
  unfold create_composite_image. destruct results as [|l results]; [done|].
  rewrite (bind_ok _ _ w tt (with_temp_files [] w)) by reflexivity.
  unfold try_finally, try_except.
  rewrite (bind_ok _ _ _ _ _ Hgen).
  unfold bind at 1. rewrite Hfig.
  destruct r as [[]|e]; simpl; by rewrite Hclean.
Qed.

End Figure.

(** ** Borders and placeholders *)

Lemma apply_well_border_run ax l well w :
  _apply_well_border ax l well w
  = (Ok (for_spines (set_border (fst (border_of (record_at w l)))
                                (snd (border_of (record_at w l)))) ax), w).
Proof.
  unfold _apply_well_border, border_of, border_style, flag, bind, get.
  destruct (truthy (dict_get (record_at w l) "has_buffer_zone" (VBool false))); [done|].
  by destruct (truthy (dict_get (record_at w l) "has_aneuploidy" (VBool false))).
Qed.

Lemma for_spines_all f ax :
  Forall (fun ns => exists s, snd ns = f s) (spines (for_spines f ax))
  /\ map fst (spines (for_spines f ax)) = map fst (spines ax).
Proof.
  simpl. split.
  - apply Forall_forall. intros ns Hin. apply list_elem_of_In in Hin.
    apply in_map_iff in Hin as ([n s] & <- & _). by exists s.
  - rewrite map_map. simpl. done.
Qed.

Section DataWell.

Variable env : Env.

(** The three ways [_populate_data_well] ends, by what it finds at the
    graph path. *)
Lemma populate_data_well_no_image ax well l w :
  truthy (graph_path_of (record_at w l)) = false
  \/ fst (os_path_exists env (graph_path_of (record_at w l)) w) = Ok false ->
  _populate_data_well env ax well l w
  = (Ok (ax_text (centred_text "No Image" 8 None) ax), w).
Proof.
  intros H. unfold _populate_data_well.
  rewrite (bind_ok _ _ w (dict_get (record_at w l) "graph_path" VNone) w) by reflexivity.
  rewrite (bind_ok _ _ w (graph_path_of (record_at w l)) w) by reflexivity.
  destruct (truthy (graph_path_of (record_at w l))) eqn:Ht.
  - destruct H as [H|H]; [done|].
    pose proof (read_only_run _ w (preserves_os_path_exists eq env
                  (graph_path_of (record_at w l)))) as Hro.
    rewrite H in Hro. by rewrite (bind_ok _ _ _ _ _ Hro).
  - by rewrite (bind_ok _ _ w false w).
Qed.

Lemma populate_data_well_image_error ax well l w e :
  truthy (graph_path_of (record_at w l)) = true ->
  fst (os_path_exists env (graph_path_of (record_at w l)) w) = Ok true ->
  fst (plt_imread (graph_path_of (record_at w l)) w) = Raise e ->
  _populate_data_well env ax well l w
  = (Ok (ax_text (centred_text "Image Error" 8 (Some "red")) ax), w).
Proof.
  intros Ht Hex Him. unfold _populate_data_well.
  rewrite (bind_ok _ _ w (dict_get (record_at w l) "graph_path" VNone) w) by reflexivity.
  rewrite (bind_ok _ _ w (graph_path_of (record_at w l)) w) by reflexivity.
  rewrite Ht.
  pose proof (read_only_run _ w (preserves_os_path_exists eq env
                (graph_path_of (record_at w l)))) as Hro.
  rewrite Hex in Hro. rewrite (bind_ok _ _ _ _ _ Hro).
  pose proof (read_only_run _ w (preserves_plt_imread eq
                (graph_path_of (record_at w l)))) as Hri.
  rewrite Him in Hri. unfold try_except.
  by rewrite (bind_raise _ _ _ _ _ Hri).
Qed.

Lemma populate_data_well_image ax well l w img :
  truthy (graph_path_of (record_at w l)) = true ->
  fst (os_path_exists env (graph_path_of (record_at w l)) w) = Ok true ->
  fst (plt_imread (graph_path_of (record_at w l)) w) = Ok img ->
  _populate_data_well env ax well l w
  = (Ok (for_spines
           (set_border (fst (border_of (record_at w l))) (snd (border_of (record_at w l))))
           (set_title
              {| title_label :=
                   if truthy (dict_get (record_at w l) "sample_name" VNone)
                   then dict_get (record_at w l) "sample_name" VNone else VStr well;
                 title_fontsize := 6; title_pad := 2 |}
              (imshow img ax))), w).
Proof.
  intros Ht Hex Him. unfold _populate_data_well.
  rewrite (bind_ok _ _ w (dict_get (record_at w l) "graph_path" VNone) w) by reflexivity.
  rewrite (bind_ok _ _ w (graph_path_of (record_at w l)) w) by reflexivity.
  rewrite Ht.
  pose proof (read_only_run _ w (preserves_os_path_exists eq env
                (graph_path_of (record_at w l)))) as Hro.
  rewrite Hex in Hro. rewrite (bind_ok _ _ _ _ _ Hro).
  pose proof (read_only_run _ w (preserves_plt_imread eq
                (graph_path_of (record_at w l)))) as Hri.
  rewrite Him in Hri. unfold try_except.
  rewrite (bind_ok _ _ _ _ _ Hri).
  rewrite (bind_ok _ _ w (dict_get (record_at w l) "sample_name" VNone) w) by reflexivity.
  by rewrite apply_well_border_run.
Qed.

(** What the subplot of a record shows once its ticks are cleared. *)
Lemma populate_data_well_drawn well l w ax0 :
  _populate_data_well env blank_axes well l w = (Ok ax0, w) ->
  data_well_drawn env w l well (finish_axes ax0).
Proof.
  intros Hrun. unfold data_well_drawn.
  pose proof (read_only_run _ w (preserves_os_path_exists eq env
                (graph_path_of (record_at w l)))) as Hro.
  pose proof (read_only_run _ w (preserves_plt_imread eq
                (graph_path_of (record_at w l)))) as Hri.
  destruct (truthy (graph_path_of (record_at w l))) eqn:Ht.
  2:{ rewrite populate_data_well_no_image in Hrun by by left.
      injection Hrun as <-. right. left. split; [by left|done]. }
  destruct (fst (os_path_exists env (graph_path_of (record_at w l)) w)) as [[]|e] eqn:Hex.
  - destruct (fst (plt_imread (graph_path_of (record_at w l)) w)) as [img|e] eqn:Him.
    + rewrite (populate_data_well_image blank_axes well l w img Ht Hex Him) in Hrun.
      injection Hrun as <-. left. exists img. done.
    + rewrite (populate_data_well_image_error blank_axes well l w e Ht Hex Him) in Hrun.
      injection Hrun as <-. right. right. split; [done|]. split; [done|]. split; [eauto|done].
  - rewrite populate_data_well_no_image in Hrun by by right.
    injection Hrun as <-. right. left. split; [by right|done].
  - unfold _populate_data_well in Hrun.
    rewrite (bind_ok _ _ w (dict_get (record_at w l) "graph_path" VNone) w) in Hrun
      by reflexivity.
    rewrite (bind_ok _ _ w (graph_path_of (record_at w l)) w) in Hrun by reflexivity.
    rewrite Ht in Hrun. by rewrite (bind_raise _ _ _ _ _ Hro) in Hrun.
Qed.

End DataWell.

(** ** Data frames: selecting columns and dropping NaN *)

Lemma positions_from_lookup i name cols p :
  p ∈ positions_from i name cols ->
  (i <= p)%nat /\ cols !! (p - i)%nat = Some name.
Proof.
  revert i. induction cols as [|c cols IH]; intros i Hp; simpl in Hp.
  - by apply elem_of_nil in Hp.
  - destruct (String.eqb c name) eqn:Hc.
    + apply elem_of_cons in Hp as [->|Hp].
      * split; [lia|]. rewrite Nat.sub_diag. simpl. f_equal. by apply String.eqb_eq.
      * destruct (IH _ Hp) as [Hle Hl]. split; [lia|].
        replace (p - i)%nat with (S (p - S i)) by lia. done.
    + destruct (IH _ Hp) as [Hle Hl]. split; [lia|].
      replace (p - i)%nat with (S (p - S i)) by lia. done.
Qed.

Lemma positions_from_absent i name cols :
  name ∉ cols -> positions_from i name cols = [].
Proof.
  revert i. induction cols as [|c cols IH]; intros i Hn; simpl; [done|].
  apply not_elem_of_cons in Hn as [Hne Hn].
  destruct (String.eqb c name) eqn:Hc; [apply String.eqb_eq in Hc; congruence|].
  by apply IH.
Qed.

Lemma positions_from_nodup i name cols :
  NoDup cols -> name ∈ cols ->
  exists k, positions_from i name cols = [(i + k)%nat] /\ cols !! k = Some name.
Proof.
  revert i. induction cols as [|c cols IH]; intros i Hnd Hin.
  - by apply elem_of_nil in Hin.
  - apply NoDup_cons in Hnd as [Hc Hnd]. simpl.
    destruct (String.eqb c name) eqn:Heq.
    + apply String.eqb_eq in Heq. subst c.
      rewrite positions_from_absent by done. exists 0%nat.
      split; [by rewrite Nat.add_0_r|done].
    + apply String.eqb_neq in Heq.
      apply elem_of_cons in Hin as [->|Hin]; [done|].
      destruct (IH (S i) Hnd Hin) as (k & Hk & Hl). exists (S k).
      split; [|done]. rewrite Hk. f_equal. lia.
Qed.

Lemma has_column_elem df col : has_column df col = true <-> col ∈ columns df.
Proof.
  unfold has_column. rewrite existsb_exists. split.
  - intros (c & Hin & Hc). apply String.eqb_eq in Hc. subst. by apply list_elem_of_In.
  - intros Hin. exists col. split; [by apply list_elem_of_In|apply String.eqb_refl].
Qed.

Lemma nth_lookup_string (cols : list string) k name :
  cols !! k = Some name -> nth k cols "" = name.
Proof.
  revert k. induction cols as [|c cols IH]; intros [|k] H; simpl in *; try done.
  - congruence.
  - by apply IH.
Qed.

(** [df[names]] has columns of those names only... *)
Lemma df_select_columns_among names df :
  Forall (fun c => c ∈ names) (columns (df_select names df)).
Proof.
  unfold df_select. simpl. apply Forall_forall. intros c Hc.
  apply list_elem_of_In, in_map_iff in Hc as (p & <- & Hp).
  apply in_flat_map in Hp as (n & Hn & Hp).
  apply list_elem_of_In in Hp. apply positions_from_lookup in Hp as [_ Hl].
  rewrite Nat.sub_0_r in Hl. rewrite (nth_lookup_string _ _ _ Hl).
  by apply list_elem_of_In.
Qed.

(** ... and exactly those, once each, when the names of the frame are
    distinct, as [read_csv] makes them. *)
Lemma df_select_columns_exact names df :
  NoDup (columns df) -> Forall (fun c => c ∈ columns df) names ->
  columns (df_select names df) = names.
Proof.
  intros Hnd Hall. unfold df_select. simpl.
  induction Hall as [|n names Hn Hall IH]; simpl; [done|].
  destruct (positions_from_nodup 0 n _ Hnd Hn) as (k & -> & Hk). simpl.
  rewrite (nth_lookup_string _ _ _ Hk). by rewrite IH.
Qed.

Lemma dropna_no_nan df :
  Forall (Forall (fun c : cell => c <> None)) (rows (dropna df)).
Proof.
  unfold dropna. simpl. apply Forall_forall. intros r Hr.
  apply list_elem_of_In, filter_In in Hr as [_ Hr].
  apply negb_true_iff in Hr. apply Forall_forall. intros c Hc ->.
  apply not_true_iff_false in Hr. apply Hr, existsb_exists.
  exists None. split; [by apply list_elem_of_In|done].
Qed.

Lemma find_header_row_none i lines :
  find_header_row i lines = None <-> Forall (fun line => is_header_line line = false) lines.
Proof.
  revert i. induction lines as [|line lines IH]; intros i; simpl.
  - split; [constructor|done].
  - destruct (is_header_line line) eqn:Hh.
    + split; [done|]. intros H. apply Forall_cons in H as [H _]. congruence.
    + rewrite IH. split; [by constructor|]. intros H. by apply Forall_cons in H as [_ H].
Qed.

Lemma find_header_row_some i lines k :
  find_header_row i lines = Some k ->
  (i <= k)%nat
  /\ (exists line, lines !! (k - i)%nat = Some line /\ is_header_line line = true)
  /\ Forall (fun line => is_header_line line = false) (take (k - i) lines).
Proof.
  revert i. induction lines as [|line lines IH]; intros i; simpl; [done|].
  destruct (is_header_line line) eqn:Hh.
  - intros [= <-]. rewrite Nat.sub_diag. simpl. split; [lia|]. split; [eauto|constructor].
  - intros H. destruct (IH _ H) as (Hle & Hline & Hbefore).
    replace (k - i)%nat with (S (k - S i)) by lia. simpl.
    split; [lia|]. split; [done|]. by constructor.
Qed.

(** ** The well-results mapping *)

Lemma key_eqb_str k s : key_eqb k (VStr s) = true <-> k = VStr s.
Proof.
  unfold key_eqb. rewrite bool_decide_eq_true. simpl.
  destruct k as [| [] | | | |]; simpl; split; congruence.
Qed.

Lemma kd_lookup_store d k v k' :
  kd_lookup (kd_store d k v) k'
  = if key_eqb k k' then Some v else kd_lookup d k'.
Proof.
  induction d as [|[k0 v0] d IH]; simpl; [done|].
  destruct (key_eqb k0 k) eqn:H0; simpl.
  - unfold key_eqb in *. repeat case_bool_decide; congruence.
  - rewrite IH. unfold key_eqb in *. repeat case_bool_decide; congruence.
Qed.

Lemma well_results_from_run results w d :
  for_fold results
    (fun d r =>
       well <- get r "well" VNone ;;
       if is_none well then ret d
       else key <- getitem r "well" ;; lift (kd_setitem d key r))
    d w
  = (well_results_from w results d, w).
Proof.
  revert d. induction results as [|r results IH]; intros d; simpl; [done|].
  unfold bind at 1. unfold bind at 1. unfold get at 1. fold (well_of w r).
  destruct (is_none (well_of w r)) eqn:Hn.
  - simpl. apply IH.
  - unfold bind at 1, getitem.
    assert (Hk : record_at w r !! "well" = Some (well_of w r)).
    { unfold well_of, dict_get in *. by destruct (record_at w r !! "well"). }
    rewrite Hk. unfold lift.
    destruct (kd_setitem d (well_of w r) r) as [d'|e]; [apply IH|done].
Qed.

Lemma well_results_of_run results w :
  well_results_of results w = (well_results_from w results [], w).
Proof. apply well_results_from_run. Qed.

Lemma well_results_from_lookup w wid results d d' :
  well_results_from w results d = Ok d' ->
  kd_lookup d' (VStr wid) = last_with_well w wid results (kd_lookup d (VStr wid)).
Proof.
  revert d. induction results as [|r results IH]; intros d; simpl.
  - by intros [= ->].
  - destruct (is_none (well_of w r)) eqn:Hn.
    + intros H. rewrite (IH _ H). destruct (decide _) as [He|]; [|done].
      rewrite He in Hn. done.
    + unfold kd_setitem. destruct (hashable (well_of w r)); [|done].
      intros H. rewrite (IH _ H). f_equal. rewrite kd_lookup_store.
      destruct (decide (well_of w r = VStr wid)) as [He|Hne].
      * by rewrite (proj2 (key_eqb_str _ _) He).
      * destruct (key_eqb (well_of w r) (VStr wid)) eqn:Hk; [|done].
        by apply key_eqb_str in Hk.
Qed.

Lemma last_with_well_app w wid pre post acc :
  last_with_well w wid (pre ++ post) acc
  = last_with_well w wid post (last_with_well w wid pre acc).
Proof. revert acc. induction pre as [|r pre IH]; intros acc; simpl; [done|apply IH]. Qed.

Lemma last_with_well_none w wid results acc :
  Forall (fun l => well_of w l <> VStr wid) results ->
  last_with_well w wid results acc = acc.
Proof.
  intros Hall. revert acc.
  induction Hall as [|r results Hr _ IH]; intros acc; simpl; [done|].
  rewrite IH. by destruct (decide _).
Qed.

Lemma last_with_well_some w wid results l :
  last_with_well w wid results None = Some l ->
  l ∈ results /\ well_of w l = VStr wid.
Proof.
  assert (H : forall acc, last_with_well w wid results acc = Some l ->
            acc = Some l \/ (l ∈ results /\ well_of w l = VStr wid)).
  { induction results as [|r results IH]; intros acc; simpl; [auto|].
    intros Hl. destruct (IH _ Hl) as [Ha|[Hin Hw]].
    - destruct (decide (well_of w r = VStr wid)) as [He|]; [|auto].
      injection Ha as ->. right. split; [apply list_elem_of_here|done].
    - right. split; [by apply list_elem_of_further|done]. }
  intros Hl. by destruct (H _ Hl).
Qed.

Lemma last_with_well_missing w wid results :
  last_with_well w wid results None = None ->
  Forall (fun l => well_of w l <> VStr wid) results.
Proof.
  assert (H : forall acc, last_with_well w wid results acc = None ->
            acc = None /\ Forall (fun l => well_of w l <> VStr wid) results).
  { induction results as [|r results IH]; intros acc; simpl; [auto|].
    intros Hl. destruct (IH _ Hl) as [Ha Hall].
    destruct (decide (well_of w r = VStr wid)) as [He|Hne]; [done|].
    split; [done|]. by constructor. }
  intros Hl. by destruct (H _ Hl).
Qed.

(** ** Loops that add subplots to a figure *)

Lemma enumerate_lookup {A} (xs : list A) i k x :
  enumerate xs !! i = Some (k, x) <-> k = i /\ xs !! i = Some x.
Proof.
  unfold enumerate.
  assert (H : forall s, combine (seq s (length xs)) xs !! i = Some (k, x)
              <-> k = (s + i)%nat /\ xs !! i = Some x).
  { revert i. induction xs as [|y xs IH]; intros i s; simpl.
    - split; [done|]. by intros [_ ?].
    - destruct i as [|i]; simpl.
      + rewrite Nat.add_0_r. split; [by intros [= <- <-]|by intros [-> [= ->]]].
      + rewrite IH. replace (S s + i)%nat with (s + S i)%nat by lia. done. }
  specialize (H 0%nat). simpl in H. exact H.
Qed.

Lemma enumerate_length {A} (xs : list A) : length (enumerate xs) = length xs.
Proof. unfold enumerate. rewrite length_combine, length_seq. lia. Qed.

(** A loop whose every turn reads the world and adds [n] axes to the figure
    adds them turn after turn. *)
Lemma for_fold_blocks {A} (xs : list A) (body : Figure -> A -> M Figure)
    (n : nat) (P : A -> nat -> Axes -> Prop) w :
  (forall fig x, x ∈ xs ->
     snd (body fig x w) = w
     /\ forall fig', fst (body fig x w) = Ok fig' ->
          exists axs, axes fig' = (axes fig ++ axs)%list /\ length axs = n
            /\ forall j, (j < n)%nat -> exists ax, axs !! j = Some ax /\ P x j ax) ->
  forall fig,
    snd (for_fold xs body fig w) = w
    /\ forall fig', fst (for_fold xs body fig w) = Ok fig' ->
         exists axs, axes fig' = (axes fig ++ axs)%list
           /\ length axs = (length xs * n)%nat
           /\ forall i x j, xs !! i = Some x -> (j < n)%nat ->
                exists ax, axs !! (i * n + j)%nat = Some ax /\ P x j ax.
Proof.
  induction xs as [|x xs IH]; intros Hbody fig.
  - simpl. split; [done|]. intros fig' [= <-]. exists []. rewrite app_nil_r.
    split; [done|]. split; [done|]. intros i y j Hi. done.
  - destruct (Hbody fig x (list_elem_of_here _ _)) as [Hw Hx].
    assert (Hrest : forall fig x0, x0 ∈ xs ->
      snd (body fig x0 w) = w
      /\ forall fig', fst (body fig x0 w) = Ok fig' ->
           exists axs, axes fig' = (axes fig ++ axs)%list /\ length axs = n
             /\ forall j, (j < n)%nat -> exists ax, axs !! j = Some ax /\ P x0 j ax).
    { intros f x0 Hin. apply Hbody. by apply list_elem_of_further. }
    simpl. unfold bind. destruct (body fig x w) as [[fig1|e] w1] eqn:Hb; simpl in *; subst w1.
    + destruct (IH Hrest fig1) as [Hw1 Hfig1]. split; [done|].
      intros fig' Hf. destruct (Hx _ eq_refl) as (axs1 & Ha1 & Hl1 & Hp1).
      destruct (Hfig1 _ Hf) as (axs2 & Ha2 & Hl2 & Hp2).
      exists (axs1 ++ axs2)%list. split; [by rewrite Ha2, Ha1, app_assoc|].
      split; [rewrite length_app; lia|].
      intros [|i] y j Hi Hj; simpl in Hi.
      * injection Hi as <-. destruct (Hp1 j Hj) as (ax & Hax & HP).
        exists ax. split; [|done]. simpl. apply lookup_app_l_Some. done.
      * destruct (Hp2 i y j Hi Hj) as (ax & Hax & HP). exists ax. split; [|done].
        rewrite lookup_app_r by (rewrite Hl1; lia).
        rewrite Hl1. replace (S i * n + j - n)%nat with (i * n + j)%nat by lia. done.
    + split; [done|]. intros fig' Hf. done.
Qed.

(** A loop whose turns keep an attribute of the local object keeps it. *)
Lemma for_fold_keeps {A B X} (f : B -> X) (xs : list A) (body : B -> A -> M B) :
  (forall b x w b' w', body b x w = (Ok b', w') -> f b' = f b) ->
  forall b w b' w', for_fold xs body b w = (Ok b', w') -> f b' = f b.
Proof.
  intros Hbody. induction xs as [|x xs IH]; intros b w b' w'; simpl.
  - by intros [= <- _].
  - intros H. apply bind_inv_ok in H as (b1 & w1 & H1 & H2).
    rewrite (IH _ _ _ _ H2). by eapply Hbody.
Qed.

Lemma add_plate_labels_axes fig rows cols w fig' w' :
  _add_plate_labels fig rows cols w = (Ok fig', w') -> axes fig' = axes fig.
Proof.
  unfold _add_plate_labels. intros H.
  apply bind_inv_ok in H as (fig1 & w1 & H1 & H2).
  apply (for_fold_keeps axes) in H1, H2.
  - congruence.
  - intros b [j col] w0 b' w0' Hb.
    apply bind_inv_ok in Hb as (? & ? & _ & Hb). by injection Hb as <- _.
  - intros b [i row] w0 b' w0' Hb.
    apply bind_inv_ok in Hb as (? & ? & _ & Hb). by injection Hb as <- _.
Qed.

(** ** The subplots of the plate *)

Lemma plate_columns_lookup j :
  (j < 12)%nat -> enumerate (range 1 (12 + 1)) !! j = Some (j, Z.of_nat j + 1).
Proof.
  intros Hj. do 12 (destruct j as [|j]; [reflexivity|]). lia.
Qed.

Lemma plate_columns_elem env x :
  x ∈ enumerate (range 1 (12 + 1)) ->
  (fst x < 12)%nat /\ snd x = Z.of_nat (fst x) + 1
  /\ py_int env (py_str (VInt (snd x))) = Ok (snd x).
Proof.
  intros H. apply list_elem_of_lookup in H as [k Hk].
  assert (Hlt : (k < 12)%nat) by (apply lookup_lt_Some in Hk; exact Hk).
  rewrite (plate_columns_lookup k Hlt) in Hk. injection Hk as <-. simpl.
  split; [done|]. split; [done|].
  do 12 (destruct k as [|k]; [vm_compute; reflexivity|]). lia.
Qed.

Section Subplots.

Variable env : Env.
Variable config : Config.

Lemma create_well_subplot_run d i row fig j c w :
  (i < 8)%nat -> (j < 12)%nat -> py_int env (py_str (VInt c)) = Ok c ->
  snd (_create_well_subplot env config (8, 12)%nat d i row fig (j, c) w) = w
  /\ forall fig',
       fst (_create_well_subplot env config (8, 12)%nat d i row fig (j, c) w) = Ok fig' ->
       exists ax, fig' = add_axes ax fig
                  /\ subplot_shows env config w d (WELL_FORMAT config row c) ax.
Proof.
  intros Hi Hj Hc.
  split; [symmetry; apply (create_well_subplot_read_only env config)|].
  unfold _create_well_subplot, subplot_shows. fold blank_axes.
  rewrite (bind_ok _ _ w c w) by (unfold lift; by rewrite Hc).
  rewrite (bind_ok _ _ w tt w).
  2:{ unfold lift, gridspec_getitem. simpl.
      apply Nat.ltb_lt in Hi, Hj. by rewrite Hi, Hj. }
  destruct (kd_lookup d (VStr (WELL_FORMAT config row c))) as [l|].
  - pose proof (read_only_run _ w
      (populate_data_well_read_only env blank_axes (WELL_FORMAT config row c) l)) as Hp.
    destruct (fst (_populate_data_well env blank_axes (WELL_FORMAT config row c) l w))
      as [ax0|e].
    + rewrite (bind_ok _ _ _ _ _ Hp). intros fig' [= <-]. eauto.
    + by rewrite (bind_raise _ _ _ _ _ Hp).
  - rewrite (bind_ok _ _ w (_populate_empty_well config blank_axes
                             (WELL_FORMAT config row c)) w) by reflexivity.
    intros fig' [= <-]. eauto.
Qed.

(** One row of the plate: twelve subplots, for the columns 1 to 12. *)
Lemma plate_row_run d i row fig w :
  (i < 8)%nat ->
  snd (for_fold (enumerate (range 1 (12 + 1)))
         (_create_well_subplot env config (8, 12)%nat d i row) fig w) = w
  /\ forall fig',
       fst (for_fold (enumerate (range 1 (12 + 1)))
              (_create_well_subplot env config (8, 12)%nat d i row) fig w) = Ok fig' ->
       exists axs, axes fig' = (axes fig ++ axs)%list /\ length axs = 12%nat
         /\ forall j, (j < 12)%nat ->
              exists ax, axs !! j = Some ax
                /\ subplot_shows env config w d (WELL_FORMAT config row (Z.of_nat j + 1)) ax.
Proof.
  intros Hi.
  destruct (for_fold_blocks (enumerate (range 1 (12 + 1)))
              (_create_well_subplot env config (8, 12)%nat d i row) 1
              (fun x _ ax => subplot_shows env config w d (WELL_FORMAT config row (snd x)) ax) w)
    with (fig := fig) as [Hw Hfig].
  { intros f [j c] Hx. apply (plate_columns_elem env) in Hx as (Hj & _ & Hc). simpl in *.
    destruct (create_well_subplot_run d i row f j c w Hi Hj Hc) as [Hw Hf].
    split; [done|]. intros fig' Hfig'. destruct (Hf _ Hfig') as (ax & -> & Hax).
    exists [ax]. split; [done|]. split; [done|].
    intros [|k] Hk; [|lia]. eauto. }
  split; [done|]. intros fig' Hf. destruct (Hfig _ Hf) as (axs & Ha & Hl & Hp).
  exists axs. split; [done|]. split; [by rewrite Hl|].
  intros j Hj. destruct (Hp j _ 0%nat (plate_columns_lookup j Hj)) as (ax & Hax & HP); [lia|].
  exists ax. split; [|done]. by replace (j * 1 + 0)%nat with j in Hax by lia.
Qed.

(** The whole plate: eight rows of twelve. *)
Lemma create_well_subplots_run d fig w :
  snd (_create_well_subplots env config fig (8, 12)%nat
         spec_plate_rows spec_plate_cols d w) = w
  /\ forall fig',
       fst (_create_well_subplots env config fig (8, 12)%nat
              spec_plate_rows spec_plate_cols d w) = Ok fig' ->
       exists axs, axes fig' = (axes fig ++ axs)%list /\ length axs = 96%nat
         /\ forall i row j, spec_plate_rows !! i = Some row -> (j < 12)%nat ->
              exists ax, axs !! (i * 12 + j)%nat = Some ax
                /\ subplot_shows env config w d (WELL_FORMAT config row (Z.of_nat j + 1)) ax.
Proof.
  unfold _create_well_subplots.
  match goal with |- context [for_fold _ ?b fig w] => set (body := b) end.
  destruct (for_fold_blocks (enumerate spec_plate_rows) body 12
              (fun x j ax => subplot_shows env config w d (WELL_FORMAT config (snd x) (Z.of_nat j + 1)) ax) w)
    with (fig := fig) as [Hw Hfig].
  { intros f [i row] Hx. apply list_elem_of_lookup in Hx as [k Hk].
    apply enumerate_lookup in Hk as [-> Hrow].
    assert (Hi : (k < 8)%nat) by (apply lookup_lt_Some in Hrow; exact Hrow).
    unfold body. cbn [snd].
    rewrite (bind_ok _ _ w "12" w) by reflexivity.
    rewrite (bind_ok _ _ w 12 w) by reflexivity.
    apply (plate_row_run d k row f w Hi). }
  split; [done|]. intros fig' Hf. destruct (Hfig _ Hf) as (axs & Ha & Hl & Hp).
  exists axs. split; [done|]. split; [by rewrite Hl|].
  intros i row j Hrow Hj.
  apply (Hp i (i, row) j); [|done]. by apply enumerate_lookup.
Qed.

End Subplots.

(** * The model at work *)

Example posix_dirname_examples :
  posix_dirname "/out/run/Graphs/A01.png" = "/out/run/Graphs"
  /\ posix_dirname "plate.png" = ""
  /\ posix_dirname "/a//b" = "/a"
  /\ posix_dirname "//a" = "//".
Proof. repeat split; vm_compute; reflexivity. Qed.

Example posix_join_examples :
  posix_join "/out/Graphs" [".."; "Raw_Data"; "A01.csv"] = "/out/Graphs/../Raw_Data/A01.csv"
  /\ posix_join "" ["Graphs"] = "Graphs"
  /\ posix_join "/out/" ["Graphs"] = "/out/Graphs"
  /\ posix_join "/out" ["Graphs"; "/abs_temp.png"] = "/abs_temp.png".
Proof. repeat split; vm_compute; reflexivity. Qed.

Example py_int_examples :
  py_int demo_env "12" = Ok 12 /\ py_int demo_env "007" = Ok 7
  /\ py_int demo_env "" = Raise ValueError /\ py_int demo_env "H" = Raise ValueError
  /\ py_str (VInt 12) = "12".
Proof. repeat split; vm_compute; reflexivity. Qed.

Example header_line_examples :
  is_header_line "Ch1Amplitude,Ch2Amplitude" = true
  /\ is_header_line "Ch1 Amplitude,Ch2 Amplitude,Cluster" = true
  /\ is_header_line "Ch1Amplitude" = false
  /\ find_header_row 0 demo_csv = Some 1%nat.
Proof. repeat split; vm_compute; reflexivity. Qed.

(** [True] and [1] are one key, and the key that came first stays. *)
Example keys_true_and_one :
  kd_setitem [(VBool true, 0%nat)] (VInt 1) 1%nat = Ok [(VBool true, 1%nat)]
  /\ kd_setitem [] VEmptyDict 0%nat = Raise TypeError.
Proof. split; reflexivity. Qed.

(** The demo plate: the call returns the output path; it has written the
    temporary picture of A01, saved the figure and removed the picture, and
    the record of A01 is as it was. *)
Example demo_run :
  fst (create_composite_image demo_env demo_config [0%nat] demo_out demo_world) = Ok demo_out
  /\ map (fun e => match e with
                   | EvPlot p => ("plot", p)
                   | EvSavefig p _ => ("savefig", p)
                   | EvRemove p => ("remove", p)
                   end)
       (trace (snd (create_composite_image demo_env demo_config [0%nat] demo_out demo_world)))
     = [("plot", demo_temp); ("savefig", demo_out); ("remove", demo_temp)]
  /\ files (snd (create_composite_image demo_env demo_config [0%nat] demo_out demo_world))
       !! demo_temp = None
  /\ record_at (snd (create_composite_image demo_env demo_config [0%nat] demo_out demo_world))
       0%nat = demo_record.
Proof. repeat split; vm_compute; reflexivity. Qed.

(** A record whose graph path is no path is passed over by temp-image
    generation, which catches the [TypeError], but [os.path.exists] raises
    it again when the subplot is populated, and the call ends in
    [VisualizationError].  So it does for a graph path that is an integer
    too large for a file descriptor. *)
Example wrong_typed_graph_path_aborts :
  fst (_generate_well_images demo_env demo_config [0%nat] demo_out
         (world_of (<["graph_path" := VObj 3]> demo_record) ∅)) = Ok tt
  /\ fst (create_composite_image demo_env demo_config [0%nat] demo_out
            (world_of (<["graph_path" := VObj 3]> demo_record) ∅))
     = Raise VisualizationError
  /\ fst (_populate_data_well demo_env blank_axes "A01" 0%nat
            (world_of (<["graph_path" := VInt 2147483648]> demo_record) ∅))
     = Raise OverflowError
  /\ fst (create_composite_image demo_env demo_config [0%nat] demo_out
            (world_of (<["graph_path" := VInt 2147483648]> demo_record) ∅))
     = Raise VisualizationError.
Proof. repeat split; vm_compute; reflexivity. Qed.

(** [os.path.exists] on what is no path. *)
Example os_path_exists_examples :
  fst (os_path_exists demo_env (VInt 2147483647) demo_world) = Ok false
  /\ fst (os_path_exists demo_env (VInt 2147483648) demo_world) = Raise OverflowError
  /\ fst (os_path_exists demo_env (VInt (-1)) demo_world) = Ok false
  /\ fst (os_path_exists demo_env VNone demo_world) = Raise TypeError.
Proof. repeat split; vm_compute; reflexivity. Qed.

(** [os.makedirs] makes the directories that are missing above the one
    asked for, is content with a directory that is there, and fails under a
    regular file. *)
Example os_makedirs_examples :
  fst (os_makedirs demo_env "/out/run/7/Graphs" demo_world) = Ok tt
  /\ files (snd (os_makedirs demo_env "/out/run/7/Graphs" demo_world)) !! "/out/run"
     = Some Directory
  /\ files (snd (os_makedirs demo_env "/out/run/7/Graphs" demo_world)) !! "/out/run/7"
     = Some Directory
  /\ files (snd (os_makedirs demo_env "/out/run/7/Graphs" demo_world)) !! "/out/run/7/Graphs"
     = Some Directory
  /\ os_makedirs demo_env "/out/Graphs" demo_world = (Ok tt, demo_world)
  /\ os_makedirs demo_env "/out/Graphs/A01.png/Graphs" world_graph_only
     = (Raise OSError, world_graph_only).
Proof. repeat split; vm_compute; reflexivity. Qed.

(** Where [fig.savefig] writes. *)
Example savefig_target_examples :
  savefig_target "/out/plate.png" = "/out/plate.png"
  /\ savefig_target "/out/plate.tar.gz" = "/out/plate.tar.gz"
  /\ savefig_target "/out/plate" = "/out/plate.png"
  /\ savefig_target "/out.d/plate" = "/out.d/plate.png"
  /\ savefig_target "/out/.hidden" = "/out/.hidden.png"
  /\ savefig_target "/out/plate." = "/out/plate.png".
Proof. repeat split; vm_compute; reflexivity. Qed.

(** Of the two records for the well A01 the composite shows the second. *)
Example duplicate_well_shows_last :
  match saved_of (snd (create_composite_image demo_env demo_config
                         [0%nat; 1%nat; 2%nat] demo_out world_three)) with
  | [(_, fig)] => (title_label <$> (axes fig !! 0%nat ≫= title)) = Some (VStr "second")
  | _ => False
  end.
Proof. vm_compute. reflexivity. Qed.

(** * The properties *)

Section Properties.

Variable env : Env.
Variable config : Config.


(** C2.  [_apply_well_border] gives all the spines of the axes one of three
    styles, chosen by the two flags of the record with the buffer zone
    first: black of width 1 if [has_buffer_zone] holds, else light purple of
    width 3 if [has_aneuploidy] holds, else light grey of width 1.  Every
    record whose picture is displayed gets its border this way. *)
Theorem well_border_styles ax l well w :
  (exists ax',
     _apply_well_border ax l well w = (Ok ax', w)
     /\ Forall (fun ns => snd ns =
                  {| edgecolor := Some (fst (border_style
                                    (flag (record_at w l) "has_buffer_zone")
                                    (flag (record_at w l) "has_aneuploidy")));
                     linewidth := Some (snd (border_style
                                    (flag (record_at w l) "has_buffer_zone")
                                    (flag (record_at w l) "has_aneuploidy")));
                     visible := true |})
          (spines ax')
     /\ map fst (spines ax') = map fst (spines ax))
  /\ (forall an, border_style true an = ("#000000", 1))
  /\ border_style false true = ("#E6B8E6", 3)
  /\ border_style false false = ("#B0B0B0", 1)
  /\ (forall img ax',
        truthy (graph_path_of (record_at w l)) = true ->
        fst (os_path_exists env (graph_path_of (record_at w l)) w) = Ok true ->
        fst (plt_imread (graph_path_of (record_at w l)) w) = Ok img ->
        fst (_populate_data_well env ax well l w) = Ok ax' ->
        shown ax' = Some img
        /\ Forall (fun ns => snd ns =
                     {| edgecolor := Some (fst (border_of (record_at w l)));
                        linewidth := Some (snd (border_of (record_at w l)));
                        visible := true |})
             (spines ax')).
Proof.
  assert (Hall : forall c wd a,
    Forall (fun ns : string * Spine => snd ns =
              {| edgecolor := Some c; linewidth := Some wd; visible := true |})
      (spines (for_spines (set_border c wd) a))).
  { intros c wd a. destruct (for_spines_all (set_border c wd) a) as [H _].
    eapply Forall_impl; [exact H|]. by intros ns [s ->]. }
  split; [|split; [done|split; [done|split; [done|]]]].
  - eexists. split; [apply apply_well_border_run|]. split.
    + apply Hall.
    + apply for_spines_all.
  - intros img ax' Ht Hex Him Hrun.
    rewrite (populate_data_well_image env ax well l w img Ht Hex Him) in Hrun.
    injection Hrun as <-. split; [done|]. apply Hall.
Qed.

(** C3 (amended).  When [create_composite_image] finishes, with the path or
    with an exception, clean-up has gone through every path recorded on
    [temp_files]: each is gone from the file system, unless [os.remove]
    refused it, which the clean-up logs and passes over. *)
Theorem temp_files_cleaned results out w t :
  results <> [] ->
  t ∈ temp_files (snd (create_composite_image env config results out w)) ->
  files (snd (create_composite_image env config results out w)) !! t = None
  \/ remove_ok env t = false.
Proof.
  intros Hne.
  destruct (create_composite_image_run env config results out w Hne)
    as (w1 & r & w2 & w3 & Hgen & Hfig & Hclean & ->). cbn [snd].
  destruct (generate_well_images_run env config results out (with_temp_files [] w))
    as (w1' & Hgen' & _ & _ & _ & Hk1).
  rewrite Hgen in Hgen'. injection Hgen' as <-.
  destruct (create_composite_figure_effect env config results out
              (PLATE_ROWS config) (PLATE_COLS config) w1)
    as (r' & w2' & Hfig' & _ & _ & Hk2 & _).
  rewrite Hfig in Hfig'. injection Hfig' as <- <-.
  destruct (cleanup_temp_files_run env results w2)
    as (w3' & Hclean' & Htf & _ & _ & _ & Hgone & _).
  rewrite Hclean in Hclean'. injection Hclean' as <-.
  rewrite Htf. intros Hin. apply Hgone; [done|].
  assert (Hw2 : temp_files_written w2).
  { apply Hk2, Hk1. intros t0 Ht0. by apply elem_of_nil in Ht0. }
  destruct (Hw2 t Hin) as [img Himg]. unfold no_directory. by rewrite Himg.
Qed.

(** C4 (amended).  When [create_composite_image] finishes, with the path or
    with an exception, every record of the list is its input value without
    the key ['temp_graph_path']: no other key is ever written, and that one
    is deleted from every record by the clean-up. *)
Theorem result_records_frame results out w l :
  l ∈ results ->
  record_at (snd (create_composite_image env config results out w)) l
  = delete temp_key (record_at w l).
Proof.
  intros Hl.
  assert (Hne : results <> []) by (intros ->; by apply elem_of_nil in Hl).
  destruct (create_composite_image_run env config results out w Hne)
    as (w1 & r & w2 & w3 & Hgen & Hfig & Hclean & ->). cbn [snd].
  destruct (generate_well_images_run env config results out (with_temp_files [] w))
    as (w1' & Hgen' & Hf1 & _).
  rewrite Hgen in Hgen'. injection Hgen' as <-.
  destruct (create_composite_figure_effect env config results out
              (PLATE_ROWS config) (PLATE_COLS config) w1)
    as (r' & w2' & Hfig' & Hh2 & _).
  rewrite Hfig in Hfig'. injection Hfig' as <- <-.
  destruct (cleanup_temp_files_run env results w2)
    as (w3' & Hclean' & _ & _ & _ & _ & _ & _ & Hdel).
  rewrite Hclean in Hclean'. injection Hclean' as <-.
  rewrite (Hdel _ Hl). apply map_eq. intros k.
  destruct (decide (k = temp_key)) as [->|Hk].
  - by rewrite !lookup_delete_eq.
  - rewrite !lookup_delete_ne by done.
    unfold record_at at 1. rewrite Hh2. fold (record_at w1 l).
    by rewrite Hf1.
Qed.

(** C5.  With the 8 by 12 layout of the specification, the figure that
    [_create_composite_figure] saves has exactly 96 subplots, one for each
    position, row after row.  The subplot of a position whose well id is
    that of a record is drawn from the last such record of the list: it
    shows the picture at the graph path of the record, with its title and
    border, or one of the two messages when there is no picture.  The
    subplot of every other position is the placeholder: the well id in
    gray, grey spines, the limits of the configuration. *)
Theorem composite_has_all_wells results out w w' :
  PLATE_ROWS config = spec_plate_rows ->
  PLATE_COLS config = spec_plate_cols ->
  _create_composite_figure env config results out
    (PLATE_ROWS config) (PLATE_COLS config) w = (Ok tt, w') ->
  exists fig,
    saved_of w' = (saved_of w ++ [(out, fig)])%list
    /\ length (axes fig) = 96%nat
    /\ forall i row j, spec_plate_rows !! i = Some row -> (j < 12)%nat ->
         exists ax, axes fig !! (i * 12 + j)%nat = Some ax
           /\ ((exists l,
                  last_with_well w (WELL_FORMAT config row (Z.of_nat j + 1)) results None
                  = Some l
                  /\ l ∈ results
                  /\ well_of w l = VStr (WELL_FORMAT config row (Z.of_nat j + 1))
                  /\ data_well_drawn env w l (WELL_FORMAT config row (Z.of_nat j + 1)) ax)
               \/ (Forall (fun l => well_of w l
                                    <> VStr (WELL_FORMAT config row (Z.of_nat j + 1))) results
                   /\ ax = placeholder_axes config
                             (WELL_FORMAT config row (Z.of_nat j + 1)))).
Proof.
  intros Hrows Hcols Hrun. rewrite Hrows, Hcols in Hrun.
  destruct (create_composite_figure_run env config results out
              spec_plate_rows spec_plate_cols w)
    as [[e He]|(d & fig0 & fig & Hd & Hsub & Hlab & Hsave)]; [congruence|].
  rewrite Hsave in Hrun.
  destruct (fig_savefig_run env fig out w) as [Hs|(w2 & Hs & _ & _ & Hsv & _)]; [congruence|].
  rewrite Hrun in Hs. injection Hs as <-.
  exists fig. split; [done|].
  rewrite (add_plate_labels_axes _ _ _ _ _ _ Hlab).
  destruct (create_well_subplots_run env config d
              (new_figure (COMPOSITE_FIGURE_SIZE config)) w) as [_ Hfig].
  destruct (Hfig fig0) as (axs & Ha & Hlen & Hcells); [by rewrite Hsub|].
  simpl in Ha. rewrite Ha. split; [done|].
  intros i row j Hrow Hj. destruct (Hcells i row j Hrow Hj) as (ax & Hax & Hshows).
  exists ax. split; [done|].
  rewrite well_results_of_run in Hd. injection Hd as Hd.
  unfold subplot_shows in Hshows.
  set (well := WELL_FORMAT config row (Z.of_nat j + 1)) in *.
  rewrite (well_results_from_lookup w well results [] d Hd) in Hshows. simpl in Hshows.
  destruct (last_with_well w well results None) as [l|] eqn:Hlast.
  - destruct Hshows as (ax0 & Hp & ->).
    destruct (last_with_well_some _ _ _ _ Hlast) as [Hin Hw]. left.
    exists l. split; [done|]. split; [done|]. split; [done|].
    by apply populate_data_well_drawn.
  - right. split; [by apply last_with_well_missing|]. by rewrite Hshows.
Qed.

(** C6.  A data well whose graph path (the temporary picture if the record
    has one, else the original) is absent, empty or not on disk shows the
    text ["No Image"]; one whose file is there but cannot be read as a
    picture shows ["Image Error"], in red.  [_populate_empty_well] makes the
    placeholder of a well without a record: the well id in gray in the
    middle, every spine grey ['#cccccc'] of width 1, the grid switched on
    and a tick at every grid interval.  But [_create_well_subplots] then
    clears the ticks of every subplot, and matplotlib draws the grid lines
    at the ticks: the placeholder in the figure has the empty tick list on
    both axes, and so no grid. *)
Theorem placeholder_fallback ax well l w :
  (truthy (graph_path_of (record_at w l)) = false
   \/ fst (os_path_exists env (graph_path_of (record_at w l)) w) = Ok false ->
   _populate_data_well env ax well l w
   = (Ok (ax_text (centred_text "No Image" 8 None) ax), w))
  /\ (truthy (graph_path_of (record_at w l)) = true ->
      fst (os_path_exists env (graph_path_of (record_at w l)) w) = Ok true ->
      (exists e, fst (plt_imread (graph_path_of (record_at w l)) w) = Raise e) ->
      _populate_data_well env ax well l w
      = (Ok (ax_text (centred_text "Image Error" 8 (Some "red")) ax), w))
  /\ texts (_populate_empty_well config ax well)
     = (texts ax ++ [centred_text well 8 (Some "gray")])%list
  /\ Forall (fun ns => snd ns = grey_spine) (spines (_populate_empty_well config ax well))
  /\ grid (_populate_empty_well config ax well)
     = Some {| grid_alpha := 2 # 5; grid_linewidth := 4 # 5 |}
  /\ xlocator (_populate_empty_well config ax well)
     = MultipleLocator (fst (get_grid_intervals config))
  /\ ylocator (_populate_empty_well config ax well)
     = MultipleLocator (snd (get_grid_intervals config))
  /\ (forall d i row fig j c,
        (i < 8)%nat -> (j < 12)%nat -> py_int env (py_str (VInt c)) = Ok c ->
        kd_lookup d (VStr (WELL_FORMAT config row c)) = None ->
        _create_well_subplot env config (8, 12)%nat d i row fig (j, c) w
        = (Ok (add_axes (placeholder_axes config (WELL_FORMAT config row c)) fig), w))
  /\ xlocator (placeholder_axes config well) = FixedLocator []
  /\ ylocator (placeholder_axes config well) = FixedLocator [].
Proof.
  split; [apply populate_data_well_no_image|].
  split; [intros Ht Hex [e He]; by eapply populate_data_well_image_error|].
  split; [reflexivity|]. split.
  { unfold _populate_empty_well.
    match goal with |- Forall _ (spines (for_spines ?f ?a)) =>
      destruct (for_spines_all f a) as [H _] end.
    eapply Forall_impl; [exact H|]. by intros ns [s ->]. }
  repeat (split; [reflexivity|]). split; [|done].
  intros d i row fig j c Hi Hj Hc Hnone.
  unfold _create_well_subplot.
  rewrite (bind_ok _ _ w c w) by (unfold lift; by rewrite Hc).
  rewrite (bind_ok _ _ w tt w).
  2:{ unfold lift, gridspec_getitem. simpl.
      apply Nat.ltb_lt in Hi, Hj. by rewrite Hi, Hj. }
  rewrite Hnone. reflexivity.
Qed.

(** C7 (amended).  [_load_and_clean_data] never raises.  It returns [None]
    when the file cannot be opened, when no line holds both a Ch1 and a Ch2
    amplitude header token, when [read_csv] raises on the file, and when the
    parsed table lacks ['Ch1Amplitude'] or ['Ch2Amplitude'].  Otherwise it
    returns the table restricted to those two columns (exactly the two,
    where the column names of the table are distinct), with exactly the
    rows that hold no NaN. *)
Theorem load_and_clean_data_result df_file w :
  (exists r, _load_and_clean_data env df_file w = (Ok r, w))
  /\ (forall e, fst (open_lines env df_file w) = Raise e ->
        _load_and_clean_data env df_file w = (Ok None, w))
  /\ (forall lines, fst (open_lines env df_file w) = Ok lines ->
        (Forall (fun line => is_header_line line = false) lines ->
           _load_and_clean_data env df_file w = (Ok None, w))
        /\ forall i, find_header_row 0 lines = Some i ->
             (forall e, read_csv env lines i = Raise e ->
                _load_and_clean_data env df_file w = (Ok None, w))
             /\ forall df, read_csv env lines i = Ok df ->
                  (has_column df "Ch1Amplitude" && has_column df "Ch2Amplitude" = false ->
                     _load_and_clean_data env df_file w = (Ok None, w))
                  /\ (has_column df "Ch1Amplitude" && has_column df "Ch2Amplitude" = true ->
                      exists d,
                        _load_and_clean_data env df_file w = (Ok (Some d), w)
                        /\ Forall (fun c => c ∈ required_cols) (columns d)
                        /\ (NoDup (columns df) -> columns d = required_cols)
                        /\ rows d = List.filter (fun r => negb (existsb is_nan r))
                                      (rows (df_select required_cols df))
                        /\ Forall (Forall (fun c : cell => c <> None)) (rows d))).
Proof.
  rewrite load_and_clean_data_run. split; [eauto|]. split.
  - by intros e ->.
  - intros lines ->. unfold load_result. split.
    + intros Hno. apply (find_header_row_none 0) in Hno. by rewrite Hno.
    + intros i ->. split; [by intros e ->|]. intros df ->.
      unfold required_cols at 1 2. simpl forallb. rewrite andb_true_r.
      split; [by intros ->|]. intros Hcols. rewrite Hcols.
      eexists. split; [reflexivity|]. split; [|split; [|split]].
      * apply (df_select_columns_among required_cols df).
      * intros Hnd. simpl. apply (df_select_columns_exact required_cols df Hnd).
        apply andb_true_iff in Hcols as [H1 H2].
        apply has_column_elem in H1, H2.
        repeat constructor; done.
      * reflexivity.
      * apply dropna_no_nan.
Qed.


(** C9.  When several records of the list carry the same well id, the last
    of them is the one the well-results mapping holds for that id, and so
    the one from which the subplot of that well is populated. *)
Theorem last_record_wins pre l post wid w d :
  well_of w l = VStr wid ->
  Forall (fun l' => well_of w l' <> VStr wid) post ->
  fst (well_results_of (pre ++ l :: post) w) = Ok d ->
  kd_lookup d (VStr wid) = Some l
  /\ forall i row fig j c fig',
       (i < 8)%nat -> (j < 12)%nat -> py_int env (py_str (VInt c)) = Ok c ->
       WELL_FORMAT config row c = wid ->
       fst (_create_well_subplot env config (8, 12)%nat d i row fig (j, c) w) = Ok fig' ->
       exists ax0, _populate_data_well env blank_axes wid l w = (Ok ax0, w)
                   /\ fig' = add_axes (finish_axes ax0) fig.
Proof.
  intros Hl Hpost Hd. rewrite well_results_of_run in Hd. simpl in Hd.
  assert (Hlook : kd_lookup d (VStr wid) = Some l).
  { rewrite (well_results_from_lookup w wid _ [] d Hd).
    rewrite last_with_well_app. simpl.
    rewrite last_with_well_none by done.
    by destruct (decide (well_of w l = VStr wid)). }
  split; [done|].
  intros i row fig j c fig' Hi Hj Hc Hw Hrun.
  destruct (create_well_subplot_run env config d i row fig j c w Hi Hj Hc) as [_ Hf].
  destruct (Hf _ Hrun) as (ax & -> & Hshows).
  unfold subplot_shows in Hshows. rewrite Hw, Hlook in Hshows.
  destruct Hshows as (ax0 & Hp & ->). eauto.
Qed.

(** C10.  A malformed record, one whose ['well'] is missing or falsy, whose
    ['graph_path'] or ['filename'] is missing or no string, or whose
    ['df_filtered'] or ['target_mapping'] is [None], makes
    [_get_data_file_path] return [None] where the path cannot be built, and
    is passed over by [_generate_well_images]: the loop ends without an
    exception and the record is as it was, without a new
    ['temp_graph_path']. *)
Theorem malformed_record_skipped results out w l :
  malformed (record_at w l) = true ->
  (is_string (record_at w l !! "graph_path") && is_string (record_at w l !! "filename") = false ->
   _get_data_file_path config l w = (Ok None, w))
  /\ exists w', _generate_well_images env config results out w = (Ok tt, w')
       /\ record_at w' l = record_at w l.
Proof.
  intros Hbad. split.
  - intros Hs. rewrite get_data_file_path_run. unfold data_file_path.
    destruct (record_at w l !! "graph_path") as [[]|]; try done.
    destruct (record_at w l !! "filename") as [[]|]; done.
  - destruct (generate_well_images_run env config results out w)
      as (w' & Hrun & _ & Hm & _).
    exists w'. split; [done|]. by apply Hm.
Qed.

End Properties.

(** * The properties at work on the demo plate *)



Lemma well_border_styles_witness :
  border_of (record_at world_graph_only 0%nat) = ("#E6B8E6", 3)
  /\ match fst (_populate_data_well demo_env blank_axes "A01" 0%nat world_graph_only) with
     | Ok ax' =>
         shown ax' = Some 5%nat
         /\ Forall (fun ns => snd ns =
                      {| edgecolor := Some (fst (border_of (record_at world_graph_only 0%nat)));
                         linewidth := Some (snd (border_of (record_at world_graph_only 0%nat)));
                         visible := true |})
              (spines ax')
     | Raise _ => False
     end.
Proof.
  split; [vm_compute; reflexivity|].
  destruct (well_border_styles demo_env blank_axes 0%nat "A01" world_graph_only)
    as (_ & _ & _ & _ & Hshown).
  destruct (fst (_populate_data_well demo_env blank_axes "A01" 0%nat world_graph_only))
    as [ax'|e] eqn:Hrun.
  - apply (Hshown 5%nat ax'); [vm_compute; reflexivity ..|reflexivity].
  - vm_compute in Hrun. discriminate.
Defined.

Lemma temp_files_cleaned_witness :
  files (snd (create_composite_image demo_env demo_config [0%nat] demo_out demo_world))
    !! demo_temp = None
  \/ remove_ok demo_env demo_temp = false.
Proof.
  apply (temp_files_cleaned demo_env demo_config [0%nat] demo_out demo_world demo_temp).
  - discriminate.
  - vm_compute. apply list_elem_of_here.
Defined.

(** C3 as stated fails where [os.remove] refuses: the temporary picture of
    the well is recorded on [temp_files] and is still on disk when
    [create_composite_image] has returned. *)
Lemma temp_files_cleaned_counterexample :
  fst (create_composite_image env_no_remove demo_config [0%nat] demo_out demo_world)
  = Ok demo_out
  /\ temp_files (snd (create_composite_image env_no_remove demo_config [0%nat]
                        demo_out demo_world)) = [demo_temp]
  /\ files (snd (create_composite_image env_no_remove demo_config [0%nat]
                   demo_out demo_world)) !! demo_temp = Some (ImageFile 7%nat).
Proof. repeat split; vm_compute; reflexivity. Qed.

Lemma result_records_frame_witness :
  record_at (snd (create_composite_image demo_env demo_config [0%nat] demo_out demo_world)) 0%nat
  = delete temp_key (record_at demo_world 0%nat).
Proof.
  apply (result_records_frame demo_env demo_config [0%nat] demo_out demo_world 0%nat).
  apply list_elem_of_here.
Defined.

(** C4 as stated fails on a record that comes with a ['temp_graph_path']:
    the clean-up deletes the key, and the record is not what it was. *)
Lemma result_records_frame_counterexample :
  record_at world_stale 0%nat !! temp_key = Some (VStr "/old/A01_temp.png")
  /\ record_at (snd (create_composite_image demo_env demo_config [0%nat] demo_out world_stale))
       0%nat !! temp_key = None
  /\ record_at (snd (create_composite_image demo_env demo_config [0%nat] demo_out world_stale))
       0%nat <> record_at world_stale 0%nat.
Proof.
  assert (H1 : record_at world_stale 0%nat !! temp_key = Some (VStr "/old/A01_temp.png"))
    by (vm_compute; reflexivity).
  assert (H2 : record_at (snd (create_composite_image demo_env demo_config [0%nat]
                                 demo_out world_stale)) 0%nat !! temp_key = None)
    by (vm_compute; reflexivity).
  split; [exact H1|]. split; [exact H2|].
  intros Heq. rewrite Heq in H2. congruence.
Qed.

Lemma composite_has_all_wells_witness :
  exists fig,
    saved_of (snd (_create_composite_figure demo_env demo_config [0%nat] demo_out
                     (PLATE_ROWS demo_config) (PLATE_COLS demo_config) world_graph_only))
    = (saved_of world_graph_only ++ [(demo_out, fig)])%list
    /\ length (axes fig) = 96%nat
    /\ axes fig !! 0%nat = Some (picture_axes (record_at world_graph_only 0%nat) "A01" 5%nat)
    /\ axes fig !! 13%nat = Some (placeholder_axes demo_config "B02").
Proof.
  destruct (composite_has_all_wells demo_env demo_config [0%nat] demo_out world_graph_only
              (snd (_create_composite_figure demo_env demo_config [0%nat] demo_out
                      (PLATE_ROWS demo_config) (PLATE_COLS demo_config) world_graph_only)))
    as (fig & Hsaved & Hlen & Hcells).
  - reflexivity.
  - reflexivity.
  - vm_compute. reflexivity.
  - exists fig. split; [exact Hsaved|]. split; [exact Hlen|]. split.
    + destruct (Hcells 0%nat "A" 0%nat) as (ax & Hax & [(l & Hlast & _ & _ & Hd)|[Hall _]]);
        [reflexivity | lia | |].
      * vm_compute in Hlast. injection Hlast as <-.
        destruct Hd as [(img & _ & _ & Him & ->)|[([Ht|Hex] & _)|(_ & _ & [e He] & _)]].
        -- vm_compute in Him. injection Him as <-. exact Hax.
        -- vm_compute in Ht. discriminate.
        -- vm_compute in Hex. discriminate.
        -- vm_compute in He. discriminate.
      * apply Forall_cons in Hall as [Hno _]. exfalso. apply Hno. vm_compute. reflexivity.
    + destruct (Hcells 1%nat "B" 1%nat) as (ax & Hax & [(l & Hlast & _)|[_ ->]]);
        [reflexivity | lia | |].
      * vm_compute in Hlast. discriminate.
      * exact Hax.
Defined.

Lemma placeholder_fallback_witness :
  _populate_data_well demo_env blank_axes "A01" 0%nat demo_world
  = (Ok (ax_text (centred_text "No Image" 8 None) blank_axes), demo_world)
  /\ _populate_data_well demo_env blank_axes "A01" 0%nat world_bad_graph
     = (Ok (ax_text (centred_text "Image Error" 8 (Some "red")) blank_axes), world_bad_graph)
  /\ _create_well_subplot demo_env demo_config (8, 12)%nat [(VStr "A01", 0%nat)] 1 "B"
       (new_figure (24, 16)) (1%nat, 2) demo_world
     = (Ok (add_axes (placeholder_axes demo_config (WELL_FORMAT demo_config "B" 2))
              (new_figure (24, 16))), demo_world).
Proof.
  split; [|split].
  - destruct (placeholder_fallback demo_env demo_config blank_axes "A01" 0%nat demo_world)
      as (Hno & _).
    apply Hno. right. vm_compute. reflexivity.
  - destruct (placeholder_fallback demo_env demo_config blank_axes "A01" 0%nat world_bad_graph)
      as (_ & Herr & _).
    apply Herr.
    + vm_compute. reflexivity.
    + vm_compute. reflexivity.
    + exists OSError. vm_compute. reflexivity.
  - destruct (placeholder_fallback demo_env demo_config blank_axes "B02" 0%nat demo_world)
      as (_ & _ & _ & _ & _ & _ & _ & Hsub & _).
    apply Hsub; [lia | lia | vm_compute; reflexivity | vm_compute; reflexivity].
Defined.

(** The placeholder of B02 on the demo plate: [_populate_empty_well] asks
    for a tick, and so a grid line, every 500 and every 1000; in the figure
    that is saved the subplot has the grid switched on and no tick at all. *)
Example placeholder_without_grid :
  xlocator (_populate_empty_well demo_config blank_axes "B02") = MultipleLocator 500
  /\ ylocator (_populate_empty_well demo_config blank_axes "B02") = MultipleLocator 1000
  /\ match saved_of (snd (create_composite_image demo_env demo_config [0%nat] demo_out
                            demo_world)) with
     | [(_, fig)] =>
         match axes fig !! 13%nat with
         | Some ax =>
             texts ax = [centred_text "B02" 8 (Some "gray")]
             /\ grid ax = Some {| grid_alpha := 2 # 5; grid_linewidth := 4 # 5 |}
             /\ xlocator ax = FixedLocator [] /\ ylocator ax = FixedLocator []
         | None => False
         end
     | _ => False
     end.
Proof. repeat split; vm_compute; reflexivity. Qed.

Lemma load_and_clean_data_result_witness :
  exists d,
    _load_and_clean_data demo_env demo_raw demo_world = (Ok (Some d), demo_world)
    /\ columns d = required_cols
    /\ rows d = [[Some "1012.5"; Some "2210.0"]].
Proof.
  destruct (load_and_clean_data_result demo_env demo_raw demo_world) as (_ & _ & Hlines).
  destruct (Hlines demo_csv) as [_ Hheader]; [vm_compute; reflexivity|].
  destruct (Hheader 1%nat) as [_ Hparsed]; [vm_compute; reflexivity|].
  destruct (Hparsed demo_frame) as [_ Hclean]; [reflexivity|].
  destruct Hclean as (d & Hrun & _ & Hcols & Hrows & _); [vm_compute; reflexivity|].
  exists d. split; [exact Hrun|]. split.
  - apply Hcols. simpl. apply NoDup_cons. split; [|apply NoDup_singleton].
    intros Hin. apply list_elem_of_singleton in Hin. discriminate.
  - rewrite Hrows. vm_compute. reflexivity.
Defined.

(** C7 as stated fails where [read_csv] raises: the file has a header line
    with both tokens, no table is parsed that could lack a column, and the
    result is [None] all the same. *)
Lemma load_and_clean_data_counterexample :
  fst (open_lines env_bad_csv demo_raw demo_world) = Ok demo_csv
  /\ find_header_row 0 demo_csv = Some 1%nat
  /\ read_csv env_bad_csv demo_csv 1 = Raise ParserError
  /\ _load_and_clean_data env_bad_csv demo_raw demo_world = (Ok None, demo_world).
Proof. repeat split; vm_compute; reflexivity. Qed.



Lemma last_record_wins_witness :
  let d := [(VStr "A01", 1%nat); (VStr "B02", 2%nat)] in
  kd_lookup d (VStr "A01") = Some 1%nat
  /\ match fst (_create_well_subplot demo_env demo_config (8, 12)%nat d 0 "A"
                  (new_figure (24, 16)) (0%nat, 1) world_three) with
     | Ok fig' =>
         exists ax0,
           _populate_data_well demo_env blank_axes "A01" 1%nat world_three
           = (Ok ax0, world_three)
           /\ fig' = add_axes (finish_axes ax0) (new_figure (24, 16))
     | Raise _ => False
     end.
Proof.
  intros d.
  destruct (last_record_wins demo_env demo_config [0%nat] 1%nat [2%nat] "A01" world_three d)
    as [Hlook Hplot].
  - vm_compute. reflexivity.
  - constructor; [|constructor]. vm_compute. discriminate.
  - vm_compute. reflexivity.
  - split; [exact Hlook|].
    destruct (fst (_create_well_subplot demo_env demo_config (8, 12)%nat d 0 "A"
                     (new_figure (24, 16)) (0%nat, 1) world_three)) as [fig'|e] eqn:Hrun.
    + apply (Hplot 0%nat "A" (new_figure (24, 16)) 0%nat 1 fig');
        [lia | lia | vm_compute; reflexivity | vm_compute; reflexivity | exact Hrun].
    + vm_compute in Hrun. discriminate.
Defined.

Lemma malformed_record_skipped_witness :
  _get_data_file_path demo_config 2%nat world_three = (Ok None, world_three)
  /\ exists w',
       _generate_well_images demo_env demo_config [0%nat; 1%nat; 2%nat] demo_out world_three
       = (Ok tt, w')
       /\ record_at w' 2%nat = record_at world_three 2%nat.
Proof.
  destruct (malformed_record_skipped demo_env demo_config [0%nat; 1%nat; 2%nat] demo_out
              world_three 2%nat) as [Hpath Hloop].
  - vm_compute. reflexivity.
  - split; [|exact Hloop]. apply Hpath. vm_compute. reflexivity.
Defined.

(** * Further properties of the module *)

(** ** [_create_temp_well_plot] *)

Section TempPlot.

Variable env : Env.
Variable config : Config.

(** X1.  [_create_temp_well_plot] never raises.  It returns a path exactly
    when [os.makedirs] of the directory of the temporary pictures returns,
    the record has a ['well'] and [create_well_plot] returns; the path is
    then that of the temporary picture of the well, the picture is on disk,
    and the path is put on [temp_files], once, at its end.  When it returns
    [None], [temp_files] is as it was.  No record is touched.  Of the files,
    the picture apart, each is as it was, or is a directory made where
    nothing was: [os.makedirs] makes the directory and those missing above
    it, also when the plot fails afterwards. *)
Theorem create_temp_well_plot_result l out df cr w :
  exists r w',
    _create_temp_well_plot env config l out df cr w = (Ok r, w')
    /\ heap w' = heap w
    /\ (forall p, (forall tp, r = Some tp -> p <> tp) -> kept_or_new_directory w w' p)
    /\ (is_Some r <->
        fst (os_makedirs env (graphs_dir config out) w) = Ok tt
        /\ exists well img,
             record_at w l !! "well" = Some well
             /\ create_well_plot env df cr well (temp_path config out well) = Ok img)
    /\ match r with
       | Some tp =>
           (exists well img,
              record_at w l !! "well" = Some well /\ tp = temp_path config out well
              /\ create_well_plot env df cr well tp = Ok img
              /\ files w' !! tp = Some (ImageFile img))
           /\ temp_files w' = (temp_files w ++ [tp])%list
           /\ trace w' = (trace w ++ [EvPlot tp])%list
       | None => temp_files w' = temp_files w /\ trace w' = trace w
       end.
Proof. exact (create_temp_well_plot_effect env config l out df cr w). Qed.

End TempPlot.

(** ** One turn of [_generate_well_images], and the loop *)

Section WellImages.

Variable env : Env.
Variable config : Config.

(** The loop, turn after turn. *)
Lemma generate_well_images_loop results out w :
  exists w' ts,
    _generate_well_images env config results out w = (Ok tt, w')
    /\ temp_files w' = (temp_files w ++ ts)%list
    /\ trace w' = (trace w ++ map EvPlot ts)%list
    /\ Forall (fun t => exists img, files w' !! t = Some (ImageFile img)) ts
    /\ Forall (fun t => exists l well, l ∈ results /\ record_at w l !! "well" = Some well
                                       /\ t = temp_path config out well) ts
    /\ (forall l, record_at w' l !! temp_key = record_at w l !! temp_key
                  \/ exists t, t ∈ ts /\ record_at w' l !! temp_key = Some (VStr t))
    /\ (forall l k, k <> temp_key -> record_at w' l !! k = record_at w l !! k)
    /\ (forall p,
          (forall l well, l ∈ results -> record_at w l !! "well" = Some well ->
             p <> temp_path config out well) ->
          kept_or_new_directory w w' p)
    /\ (forall t i, files w !! t = Some (ImageFile i) ->
          exists i', files w' !! t = Some (ImageFile i')).
Proof.
  unfold _generate_well_images. revert w.
  induction results as [|l results IH]; intros w.
  - exists w, []. simpl. rewrite !app_nil_r. repeat split; eauto. intros p _. by left.
  - destruct (generate_well_image_effect env config out l w)
      as (w1 & Hrun & Hfiles & Hpic & Heff).
    destruct (IH w1)
      as (w' & ts & Hloop & Htf & Htr & Himg & Hfrom & Hkey & Hfld & Hfr & Hpics).
    cbn [for_each]. rewrite (bind_ok _ _ _ _ _ Hrun).
    assert (Hfld1 : forall l0 k, k <> temp_key -> record_at w1 l0 !! k = record_at w l0 !! k).
    { intros l0 k Hk. destruct Heff as [(Hh & _)|((well & img & _ & Hh & _) & _)];
        unfold record_at at 1; rewrite Hh; [done|].
      destruct (decide (l = l0)) as [->|Hne].
      - rewrite lookup_insert_eq. simpl. by rewrite lookup_insert_ne.
      - by rewrite lookup_insert_ne. }
    assert (Hwell1 : forall l0, record_at w1 l0 !! "well" = record_at w l0 !! "well")
      by (intros l0; by apply Hfld1).
    assert (Hfrom' : Forall (fun t => exists l0 well, l0 ∈ l :: results
                         /\ record_at w l0 !! "well" = Some well
                         /\ t = temp_path config out well) ts).
    { eapply Forall_impl; [exact Hfrom|]. intros t (l0 & well & Hin & Hw & ->).
      exists l0, well. rewrite <- Hwell1. split; [by apply list_elem_of_further|done]. }
    assert (Hfr' : forall p,
              (forall l0 well, l0 ∈ l :: results -> record_at w l0 !! "well" = Some well ->
                 p <> temp_path config out well) ->
              kept_or_new_directory w w' p).
    { intros p Hno. apply (kept_or_new_directory_trans w w1 w').
      - apply Hfiles. intros well Hw. apply (Hno l well); [apply list_elem_of_here|done].
      - apply Hfr. intros l0 well Hin Hw. apply (Hno l0 well); [by apply list_elem_of_further|].
        by rewrite <- Hwell1. }
    assert (Hpics' : forall t i, files w !! t = Some (ImageFile i) ->
              exists i', files w' !! t = Some (ImageFile i')).
    { intros t i Ht. destruct (Hpic t i Ht) as [i1 Hi1]. by eapply Hpics. }
    destruct Heff as [(Hh & Ht1 & Htr1)|((well & img & Hw & Hh & Ht1 & Htr1 & Hf1) & _)].
    + exists w', ts. split; [done|]. rewrite Htf, Htr, Ht1, Htr1.
      split; [done|]. split; [done|]. split; [done|]. split; [done|].
      split; [|split; [|done]].
      * intros l0. destruct (Hkey l0) as [He|Hex]; [|by right].
        left. rewrite He. unfold record_at. by rewrite Hh.
      * intros l0 k Hk. rewrite Hfld by done. by apply Hfld1.
    + set (tp := temp_path config out well) in *.
      exists w', (tp :: ts). split; [done|]. rewrite Htf, Htr, Ht1, Htr1.
      split; [by rewrite <- app_assoc|]. split; [by rewrite <- app_assoc|].
      split; [|split; [|split; [|split; [|done]]]].
      * constructor; [by eapply Hpics|done].
      * constructor; [|done]. exists l, well. split; [apply list_elem_of_here|done].
      * intros l0. destruct (Hkey l0) as [He|(t & Hin & Ht)].
        -- destruct (decide (l = l0)) as [->|Hne].
           ++ right. exists tp. split; [apply list_elem_of_here|].
              rewrite He. unfold record_at. rewrite Hh, lookup_insert_eq. simpl.
              apply lookup_insert_eq.
           ++ left. rewrite He. unfold record_at. rewrite Hh.
              by rewrite lookup_insert_ne.
        -- right. exists t. split; [by apply list_elem_of_further|done].
      * intros l0 k Hk. rewrite Hfld by done. by apply Hfld1.
Qed.

(** X2.  [_generate_well_images] never raises.  What it puts on
    [temp_files] are the paths of the pictures it has plotted, in the order
    plotted; each is the temporary picture of a well of the list and holds
    a picture when the loop ends; and a record whose ['temp_graph_path'] is
    not what it was holds one of them.  No other key of a record changes.
    Of the files, the temporary pictures apart, each is as it was, or is a
    directory made where nothing was; and a picture on disk stays one. *)
Theorem generate_well_images_effect results out w :
  exists w' ts,
    _generate_well_images env config results out w = (Ok tt, w')
    /\ temp_files w' = (temp_files w ++ ts)%list
    /\ trace w' = (trace w ++ map EvPlot ts)%list
    /\ Forall (fun t => exists img, files w' !! t = Some (ImageFile img)) ts
    /\ Forall (fun t => exists l well, l ∈ results /\ record_at w l !! "well" = Some well
                                       /\ t = temp_path config out well) ts
    /\ (forall l, record_at w' l !! temp_key = record_at w l !! temp_key
                  \/ exists t, t ∈ ts /\ record_at w' l !! temp_key = Some (VStr t))
    /\ (forall l k, k <> temp_key -> record_at w' l !! k = record_at w l !! k)
    /\ (forall p,
          (forall l well, l ∈ results -> record_at w l !! "well" = Some well ->
             p <> temp_path config out well) ->
          kept_or_new_directory w w' p)
    /\ (forall t i, files w !! t = Some (ImageFile i) ->
          exists i', files w' !! t = Some (ImageFile i')).
Proof. exact (generate_well_images_loop results out w). Qed.

End WellImages.

Section WholeCall.

Variable env : Env.
Variable config : Config.

(** X3.  A record with a truthy well id, whose raw-data file is there and
    yields a clean table, that carries its clustering, is given a temporary
    picture whenever [os.makedirs] of the directory returns and the call of
    [create_well_plot] for this record, with that table and the clustering
    read off the record, returns: the picture it made is written under the
    name of the well, its path is put on [temp_files] and into the
    record. *)
Theorem well_image_generated out l w p df cr well img :
  record_at w l !! "well" = Some well -> truthy well = true ->
  data_file_path config (record_at w l) = Some p ->
  is_Some (files w !! p) ->
  _load_and_clean_data env p w = (Ok (Some df), w) ->
  is_none (dict_get (record_at w l) "df_filtered" VNone) = false ->
  is_none (dict_get (record_at w l) "target_mapping" VNone) = false ->
  fst (os_makedirs env (graphs_dir config out) w) = Ok tt ->
  _extract_clustering_results l w = (Ok cr, w) ->
  create_well_plot env df cr well (temp_path config out well) = Ok img ->
  exists w',
    _generate_well_image env config out l w = (Ok tt, w')
    /\ record_at w' l !! temp_key = Some (VStr (temp_path config out well))
    /\ files w' !! temp_path config out well = Some (ImageFile img)
    /\ temp_files w' = (temp_files w ++ [temp_path config out well])%list.
Proof.
  intros Hwell Htruthy Hp [f Hf] Hload Hdf Htm Hmk Hcr Hplot.
  unfold _generate_well_image.
  rewrite (bind_ok _ _ w well w) by (unfold get, dict_get; by rewrite Hwell).
  rewrite Htruthy. cbn [negb].
  rewrite (bind_ok _ _ _ _ _ (get_data_file_path_run config l w)). rewrite Hp.
  rewrite (truthy_nonempty _ (data_file_path_nonempty _ _ _ Hp)). cbn [negb].
  rewrite (bind_ok _ _ w true w) by (unfold os_path_exists; by rewrite Hf).
  cbn [negb]. rewrite (bind_ok _ _ _ _ _ Hload).
  destruct (extract_clustering_results_run l w) as (cr' & Hcr' & Ha & Hb).
  assert (cr' = cr) as -> by congruence.
  rewrite (bind_ok _ _ _ _ _ Hcr).
  rewrite (bind_ok _ _ w well w) by (unfold getitem; by rewrite Hwell).
  rewrite (bind_ok _ _ _ _ _ (validate_clustering_results_run cr well _ _ w Ha Hb)).
  rewrite Hdf, Htm. cbn [negb andb].
  destruct (create_temp_well_plot_effect env config l out df cr w)
    as (r & w1 & Hrun & Hheap & _ & Hsome & Hr).
  rewrite (bind_ok _ _ _ _ _ Hrun).
  assert (His : is_Some r).
  { apply Hsome. split; [done|]. by exists well, img. }
  destruct His as [tp ->]. destruct Hr as ((well' & img' & Hw' & -> & Hplot' & Himg) & Htf & Htr).
  assert (well' = well) as -> by congruence.
  assert (img' = img) as -> by congruence.
  rewrite (truthy_nonempty _ (temp_path_nonempty config out well)).
  eexists. split; [reflexivity|]. simpl. split; [|done].
  unfold record_at. simpl. rewrite lookup_insert_eq. simpl. apply lookup_insert_eq.
Qed.

Lemma fig_savefig_effect fig out w :
  fig_savefig env fig out w = (Raise OSError, w)
  \/ exists w', fig_savefig env fig out w = (Ok tt, w')
       /\ heap w' = heap w /\ temp_files w' = temp_files w
       /\ trace w' = (trace w ++ [EvSavefig out fig])%list
       /\ files w' = <[savefig_target out := ImageFile (render env fig)]> (files w).
Proof.
  unfold fig_savefig. destruct (savefig_ok env out); [right|by left].
  eexists. split; [reflexivity|]. done.
Qed.

(** The trace of [_create_composite_figure]: one [savefig] when it returns,
    nothing when it raises. *)
Lemma create_composite_figure_trace results out rows cols w :
  exists r w', _create_composite_figure env config results out rows cols w = (r, w')
    /\ heap w' = heap w /\ temp_files w' = temp_files w
    /\ (forall p, p <> savefig_target out -> files w' !! p = files w !! p)
    /\ match r with
       | Ok _ => exists fig, trace w' = (trace w ++ [EvSavefig out fig])%list
       | Raise _ => trace w' = trace w
       end.
Proof.
  destruct (create_composite_figure_run env config results out rows cols w)
    as [[e He]|(d & fig0 & fig & _ & _ & _ & Hrun)].
  - exists (Raise e), w. by repeat split.
  - rewrite Hrun.
    destruct (fig_savefig_effect fig out w) as [Hs|(w' & Hs & Hh & Ht & Htr & Hfs)].
    + exists (Raise OSError), w. by repeat split.
    + exists (Ok tt), w'. repeat split; try done; [|by exists fig].
      intros p Hp. rewrite Hfs. by apply lookup_insert_ne.
Qed.

(** X4.  Of the files, [create_composite_image] touches the one that
    [fig.savefig] writes and the temporary pictures of the wells of the
    list; every other path is as it was, or is a directory made where
    nothing was (the directory of the temporary pictures and those missing
    above it).  So the raw data and the graphs made earlier are never
    written, replaced or removed, whether the call returns or raises. *)
Theorem untouched_files results out w p :
  p <> savefig_target out ->
  (forall l well, l ∈ results -> record_at w l !! "well" = Some well ->
     p <> temp_path config out well) ->
  kept_or_new_directory w (snd (create_composite_image env config results out w)) p.
Proof.
  intros Hout Htemp.
  destruct results as [|l0 results0] eqn:Hres; [by left|]. rewrite <- Hres in *.
  assert (Hne : results <> []) by (rewrite Hres; discriminate).
  destruct (create_composite_image_run env config results out w Hne)
    as (w1 & r & w2 & w3 & Hgen & Hfig & Hclean & ->). cbn [snd].
  destruct (generate_well_images_loop env config results out (with_temp_files [] w))
    as (w1' & ts & Hgen' & Htf & _ & _ & Hfrom & _ & _ & Hfr & _).
  rewrite Hgen in Hgen'. injection Hgen' as <-.
  destruct (create_composite_figure_trace results out
              (PLATE_ROWS config) (PLATE_COLS config) w1)
    as (r' & w2' & Hfig' & _ & Ht2 & Hf2 & _).
  rewrite Hfig in Hfig'. injection Hfig' as <- <-.
  destruct (cleanup_temp_files_run env results w2)
    as (w3' & Hclean' & _ & _ & _ & Hkeep & _).
  rewrite Hclean in Hclean'. injection Hclean' as <-.
  assert (Hsame : files w3 !! p = files w1 !! p).
  { rewrite Hkeep; [by apply Hf2|].
    rewrite Ht2, Htf. simpl. intros Hin.
    apply (proj1 (Forall_forall _ _) Hfrom) in Hin as (l & well & Hl & Hw & ->).
    by apply (Htemp l well). }
  specialize (Hfr p Htemp). unfold kept_or_new_directory in *. simpl in Hfr.
  by rewrite Hsame.
Qed.

(** X5.  The order of what [create_composite_image] does to the file
    system on a list that is not empty: first the temporary pictures are
    plotted, those on [temp_files]; then the figure is saved, once, if the
    call returns, and not at all if it raises; the removals come last, only
    of paths on [temp_files], each at most once. *)
Theorem trace_order results out w :
  results <> [] ->
  exists ts saves rs,
    trace (snd (create_composite_image env config results out w))
    = (trace w ++ map EvPlot ts ++ saves ++ map EvRemove rs)%list
    /\ temp_files (snd (create_composite_image env config results out w)) = ts
    /\ Forall (fun r => r ∈ ts) rs /\ NoDup rs
    /\ match fst (create_composite_image env config results out w) with
       | Ok _ => exists fig, saves = [EvSavefig out fig]
       | Raise _ => saves = []
       end.
Proof.
  intros Hne.
  destruct (create_composite_image_run env config results out w Hne)
    as (w1 & r & w2 & w3 & Hgen & Hfig & Hclean & ->). cbn [fst snd].
  destruct (generate_well_images_loop env config results out (with_temp_files [] w))
    as (w1' & ts & Hgen' & Htf & Htr1 & _).
  rewrite Hgen in Hgen'. injection Hgen' as <-.
  destruct (create_composite_figure_trace results out
              (PLATE_ROWS config) (PLATE_COLS config) w1)
    as (r' & w2' & Hfig' & _ & Ht2 & _ & Htr2).
  rewrite Hfig in Hfig'. injection Hfig' as <- <-.
  destruct (cleanup_temp_files_trace env results w2)
    as (w3' & rs & Hclean' & Htr3 & Hall & Hnd & _).
  rewrite Hclean in Hclean'. injection Hclean' as <-.
  destruct (cleanup_temp_files_run env results w2) as (w3' & Hclean' & Ht3 & _).
  rewrite Hclean in Hclean'. injection Hclean' as <-.
  simpl in Htf, Htr1.
  assert (Hrs : Forall (fun r => r ∈ ts) rs).
  { eapply Forall_impl; [exact Hall|]. intros q (Hin & _). by rewrite Ht2, Htf in Hin. }
  destruct r as [[]|e].
  - destruct Htr2 as [fig Htr2]. exists ts, [EvSavefig out fig], rs.
    split; [by rewrite Htr3, Htr2, Htr1, <- !app_assoc|].
    split; [by rewrite Ht3, Ht2|]. split; [done|]. split; [done|]. by exists fig.
  - exists ts, [], rs.
    split; [by rewrite Htr3, Htr2, Htr1, <- !app_assoc|].
    split; [by rewrite Ht3, Ht2|]. done.
Qed.

End WholeCall.

(** ** The labels and the grid: what fits on the figure *)

Lemma for_fold_ext {A B} (xs : list A) (body body' : B -> A -> M B) :
  (forall b x w, body b x w = body' b x w) ->
  forall b w, for_fold xs body b w = for_fold xs body' b w.
Proof.
  intros Hext. induction xs as [|x xs IH]; intros b w; simpl; [done|].
  unfold bind. rewrite Hext. destruct (body' b x w) as [[b1|e] w1]; [apply IH|done].
Qed.

(** A loop that stops at an element whose turn never returns does not
    return. *)
Lemma for_fold_not_ok {A B} (xs : list A) (body : B -> A -> M B) x :
  x ∈ xs ->
  (forall b w b', fst (body b x w) <> Ok b') ->
  forall b w b', fst (for_fold xs body b w) <> Ok b'.
Proof.
  intros Hin Hbad. induction xs as [|y xs IH]; intros b w b'.
  - by apply elem_of_nil in Hin.
  - simpl. unfold bind. destruct (body b y w) as [[b1|e] w1] eqn:Hb; [|done].
    apply elem_of_cons in Hin as [->|Hin].
    + exfalso. apply (Hbad b w b1). by rewrite Hb.
    + by apply IH.
Qed.

(** A loop of labels: each turn looks up one of the axes and adds a text. *)
Lemma label_loop {A} (idx : A -> nat) (mk : A -> FigText) (xs : list A) fig w :
  for_fold xs
    (fun fig x => lift (fig_axes_getitem fig (idx x)) ;; ret (fig_text (mk x) fig)) fig w
  = (if forallb (fun x => idx x <? length (axes fig))%nat xs
     then Ok {| figsize := figsize fig; axes := axes fig;
                fig_texts := (fig_texts fig ++ map mk xs)%list |}
     else Raise IndexError, w).
Proof.
  revert fig. induction xs as [|x xs IH]; intros fig; simpl.
  - rewrite app_nil_r. by destruct fig.
  - unfold bind at 1. unfold bind at 1. unfold lift, fig_axes_getitem.
    destruct (idx x <? length (axes fig))%nat eqn:Hlt.
    + apply Nat.ltb_lt, lookup_lt_is_Some_2 in Hlt as [ax ->]. simpl.
      rewrite IH. simpl. by rewrite <- app_assoc.
    + apply Nat.ltb_ge in Hlt. by rewrite (lookup_ge_None_2 _ _ Hlt).
Qed.

Lemma enumerate_all {A} (P : nat -> bool) (xs : list A) :
  forallb (fun x => P (fst x)) (enumerate xs) = true
  <-> forall i, (i < length xs)%nat -> P i = true.
Proof.
  rewrite forallb_forall. split.
  - intros H i Hi. apply lookup_lt_is_Some_2 in Hi as [x Hx].
    apply (H (i, x)). apply list_elem_of_In, list_elem_of_lookup. exists i.
    by apply enumerate_lookup.
  - intros H [k x] Hin. apply list_elem_of_In, list_elem_of_lookup in Hin as [i Hi].
    apply enumerate_lookup in Hi as [-> Hx]. apply H. by apply lookup_lt_Some in Hx.
Qed.

Lemma rows_fit_spec fig rows :
  rows_fit fig rows = true
  <-> rows = [] \/ ((length rows - 1) * 12 < length (axes fig))%nat.
Proof.
  unfold rows_fit.
  rewrite (enumerate_all (fun i => i * 12 <? length (axes fig))%nat). split.
  - intros H. destruct rows as [|row rows']; [by left|right].
    apply Nat.ltb_lt, H. simpl. lia.
  - intros [->|H] i Hi; [simpl in Hi; lia|]. apply Nat.ltb_lt. nia.
Qed.

Lemma cols_fit_spec fig cols :
  cols_fit fig cols = true <-> (length cols <= length (axes fig))%nat.
Proof.
  unfold cols_fit.
  rewrite (enumerate_all (fun j => j <? length (axes fig))%nat). split.
  - intros H. destruct (decide (length cols = 0)%nat) as [->|Hne]; [lia|].
    specialize (H (length cols - 1)%nat). rewrite Nat.ltb_lt in H. lia.
  - intros H j Hj. apply Nat.ltb_lt. lia.
Qed.

Lemma add_plate_labels_run fig rows cols w :
  _add_plate_labels fig rows cols w
  = (if rows_fit fig rows && cols_fit fig cols
     then Ok {| figsize := figsize fig; axes := axes fig;
                fig_texts := (fig_texts fig ++ map row_label (enumerate rows)
                                ++ map col_label (enumerate cols))%list |}
     else Raise IndexError, w).
Proof.
  unfold _add_plate_labels.
  assert (Hrows : for_fold (enumerate rows)
            (fun fig ir => let '(i, row) := ir in
               lift (fig_axes_getitem fig (i * 12)) ;;
               ret (fig_text {| ft_x := At (1 # 50); ft_y := CentreOf (i * 12);
                                ft_s := row; ft_fontsize := 12; ft_weight := "bold" |} fig))
            fig w
          = (if rows_fit fig rows
             then Ok {| figsize := figsize fig; axes := axes fig;
                        fig_texts := (fig_texts fig ++ map row_label (enumerate rows))%list |}
             else Raise IndexError, w)).
  { unfold rows_fit. rewrite <- (label_loop (fun x => (fst x * 12)%nat) row_label).
    apply for_fold_ext. by intros b [i row] w0. }
  assert (Hcols : forall fig1, for_fold (enumerate cols)
            (fun fig jc => let '(j, col) := jc in
               lift (fig_axes_getitem fig j) ;;
               ret (fig_text {| ft_x := CentreOf j; ft_y := At (49 # 50);
                                ft_s := col; ft_fontsize := 12; ft_weight := "bold" |} fig))
            fig1 w
          = (if cols_fit fig1 cols
             then Ok {| figsize := figsize fig1; axes := axes fig1;
                        fig_texts := (fig_texts fig1 ++ map col_label (enumerate cols))%list |}
             else Raise IndexError, w)).
  { intros fig1. unfold cols_fit. rewrite <- (label_loop fst col_label).
    apply for_fold_ext. by intros b [j col] w0. }
  destruct (rows_fit fig rows) eqn:Er.
  - rewrite (bind_ok _ _ _ _ _ Hrows), Hcols. unfold cols_fit. cbn [axes figsize fig_texts andb].
    fold (cols_fit fig cols). destruct (cols_fit fig cols); [|done].
    by rewrite <- app_assoc.
  - by rewrite (bind_raise _ _ _ _ _ Hrows).
Qed.

(** X6.  [_add_plate_labels] reads [fig.axes[i * 12]] for every row and
    [fig.axes[j]] for every column, whatever the number of columns of the
    plate.  It returns exactly when those axes are there: when the figure
    has more than [12 * (rows - 1)] axes, and at least as many as there are
    column labels.  It then adds one text for each row, in order, and after
    them one for each column, and nothing else; otherwise it raises
    [IndexError]. *)
Theorem add_plate_labels_result fig rows cols w :
  exists r, _add_plate_labels fig rows cols w = (r, w)
    /\ ((rows = [] \/ ((length rows - 1) * 12 < length (axes fig))%nat)
        /\ (length cols <= length (axes fig))%nat ->
        r = Ok {| figsize := figsize fig; axes := axes fig;
                  fig_texts := (fig_texts fig ++ map row_label (enumerate rows)
                                  ++ map col_label (enumerate cols))%list |})
    /\ (~ ((rows = [] \/ ((length rows - 1) * 12 < length (axes fig))%nat)
           /\ (length cols <= length (axes fig))%nat) ->
        r = Raise IndexError).
Proof.
  rewrite add_plate_labels_run. eexists. split; [reflexivity|].
  rewrite <- rows_fit_spec, <- cols_fit_spec.
  destruct (rows_fit fig rows), (cols_fit fig cols); simpl; split; try done;
    try (intros [? ?]; done); intros H; exfalso; by apply H.
Qed.

Lemma map_seq_lookup {A} (f : nat -> A) s n k :
  (k < n)%nat -> map f (seq s n) !! k = Some (f (s + k)%nat).
Proof.
  revert s k. induction n as [|n IH]; intros s k Hk; [lia|].
  destruct k as [|k]; simpl.
  - by rewrite Nat.add_0_r.
  - rewrite IH by lia. f_equal. f_equal. lia.
Qed.

Lemma range_lookup a b k :
  (k < Z.to_nat (b - a))%nat -> range a b !! k = Some (a + Z.of_nat k).
Proof. intros Hk. unfold range. by rewrite map_seq_lookup. Qed.

Lemma range_length a b : length (range a b) = Z.to_nat (b - a).
Proof. unfold range. by rewrite length_map, length_seq. Qed.

Section Grid.

Variable env : Env.
Variable config : Config.

(** A turn of the inner loop that returns has added one subplot. *)
Lemma create_well_subplot_adds gs d i row fig jc w fig' :
  fst (_create_well_subplot env config gs d i row fig jc w) = Ok fig' ->
  exists ax, fig' = add_axes ax fig.
Proof.
  destruct jc as [j c]. intros H.
  destruct (_create_well_subplot env config gs d i row fig (j, c) w) as [r w'] eqn:Hrun.
  simpl in H. subst r. unfold _create_well_subplot in Hrun.
  apply bind_inv_ok in Hrun as (c' & w1 & _ & Hrun).
  apply bind_inv_ok in Hrun as ([] & w2 & _ & Hrun).
  apply bind_inv_ok in Hrun as (ax & w3 & _ & Hrun).
  injection Hrun as <- _. eauto.
Qed.

(** Off the 8 x 12 grid there is no subplot. *)
Lemma create_well_subplot_off_grid d i row fig j c w fig' :
  (8 <= i)%nat \/ (12 <= j)%nat ->
  fst (_create_well_subplot env config (8, 12)%nat d i row fig (j, c) w) <> Ok fig'.
Proof.
  intros Hoff H.
  destruct (_create_well_subplot env config (8, 12)%nat d i row fig (j, c) w)
    as [r w'] eqn:Hrun.
  simpl in H. subst r. unfold _create_well_subplot in Hrun.
  apply bind_inv_ok in Hrun as (c' & w1 & _ & Hrun).
  apply bind_inv_ok in Hrun as ([] & w2 & Hgs & _).
  unfold lift, gridspec_getitem in Hgs. simpl in Hgs.
  destruct (i <? 8)%nat eqn:Hi, (j <? 12)%nat eqn:Hj; simpl in Hgs; try discriminate.
  apply Nat.ltb_lt in Hi, Hj. lia.
Qed.

(** The rows of subplots, for a last column label that reads as [n]. *)
Lemma create_well_subplots_count fig rows cols d s n w fig' :
  last cols = Some s -> py_int env s = Ok n ->
  fst (_create_well_subplots env config fig (8, 12)%nat rows cols d w) = Ok fig' ->
  exists axs, axes fig' = (axes fig ++ axs)%list
    /\ length axs = (length rows * Z.to_nat n)%nat.
Proof.
  intros Hs Hn. unfold _create_well_subplots.
  match goal with |- context [for_fold _ ?b fig w] => set (body := b) end.
  destruct (for_fold_blocks (enumerate rows) body (Z.to_nat n) (fun _ _ _ => True) w)
    with (fig := fig) as [_ Hfig].
  { intros f [i row] _. unfold body.
    rewrite (bind_ok _ _ w s w) by (unfold lift, last_item; by rewrite Hs).
    rewrite (bind_ok _ _ w n w) by (unfold lift; by rewrite Hn).
    destruct (for_fold_blocks (enumerate (range 1 (n + 1)))
                (_create_well_subplot env config (8, 12)%nat d i row) 1
                (fun _ _ _ => True) w) with (fig := f) as [Hw Hf].
    { intros f0 x _. split; [symmetry; apply (create_well_subplot_read_only env config)|].
      intros f1 H1. apply create_well_subplot_adds in H1 as [ax ->].
      exists [ax]. split; [done|]. split; [done|].
      intros [|k] Hk; [eauto|lia]. }
    split; [done|]. intros f1 H1. destruct (Hf _ H1) as (axs & Ha & Hl & _).
    exists axs. split; [done|]. split.
    - rewrite Hl, enumerate_length, range_length. lia.
    - intros j Hj. destruct (lookup_lt_is_Some_2 axs j) as [ax Hax]; [|eauto].
      rewrite Hl, enumerate_length, range_length. lia. }
  intros H. destruct (Hfig _ H) as (axs & Ha & Hl & _).
  exists axs. split; [done|]. by rewrite Hl, enumerate_length.
Qed.

Lemma create_well_subplots_off_grid fig rows cols d s n w fig' :
  last cols = Some s -> py_int env s = Ok n ->
  (rows <> [] /\ 12 < n) \/ ((8 < length rows)%nat /\ 1 <= n) ->
  fst (_create_well_subplots env config fig (8, 12)%nat rows cols d w) <> Ok fig'.
Proof.
  intros Hs Hn Hoff. unfold _create_well_subplots.
  assert (Hturn : forall i row (f : Figure) w0 f',
            (12 < n \/ (8 <= i)%nat /\ 1 <= n) ->
            fst ((last_col <- lift (last_item cols) ;;
                  n <- lift (py_int env last_col) ;;
                  for_fold (enumerate (range 1 (n + 1)))
                    (_create_well_subplot env config (8, 12)%nat d i row) f) w0) <> Ok f').
  { intros i row f w0 f' Hbad.
    rewrite (bind_ok _ _ w0 s w0) by (unfold lift, last_item; by rewrite Hs).
    rewrite (bind_ok _ _ w0 n w0) by (unfold lift; by rewrite Hn).
    destruct Hbad as [Hwide|[Hlow Hone]].
    - apply (for_fold_not_ok _ _ (12%nat, 1 + Z.of_nat 12)).
      + apply list_elem_of_lookup. exists 12%nat. apply enumerate_lookup. split; [done|].
        apply range_lookup. lia.
      + intros b w1 b'. apply create_well_subplot_off_grid. lia.
    - apply (for_fold_not_ok _ _ (0%nat, 1 + Z.of_nat 0)).
      + apply list_elem_of_lookup. exists 0%nat. apply enumerate_lookup. split; [done|].
        apply range_lookup. lia.
      + intros b w1 b'. apply create_well_subplot_off_grid. lia. }
  destruct Hoff as [[Hne Hwide]|[Hlong Hone]].
  - destruct rows as [|row rows']; [done|].
    apply (for_fold_not_ok _ _ (0%nat, row)).
    + apply list_elem_of_lookup. exists 0%nat. by apply enumerate_lookup.
    + intros b w0 b'. apply Hturn. by left.
  - destruct (lookup_lt_is_Some_2 rows 8 ltac:(lia)) as [row Hrow].
    apply (for_fold_not_ok _ _ (8%nat, row)).
    + apply list_elem_of_lookup. exists 8%nat. by apply enumerate_lookup.
    + intros b w0 b'. apply Hturn. right. lia.
Qed.

(** X7.  The grid of [_create_composite_figure] is [GridSpec(8, 12)],
    whatever the plate of the configuration.  [_create_well_subplots] only
    reads the world.  With no rows it returns the figure as it is; with
    rows and no column label it raises [IndexError].  With a last column
    label that reads as [n]: it never returns when there are rows and [n]
    is above 12, nor when there are more than 8 rows and a column; and when
    it returns it has added [rows * n] subplots after those of the figure. *)
Theorem create_well_subplots_bounds fig rows cols d w :
  snd (_create_well_subplots env config fig (8, 12)%nat rows cols d w) = w
  /\ (rows = [] ->
      fst (_create_well_subplots env config fig (8, 12)%nat rows cols d w) = Ok fig)
  /\ (rows <> [] -> cols = [] ->
      fst (_create_well_subplots env config fig (8, 12)%nat rows cols d w) = Raise IndexError)
  /\ (forall s n, last cols = Some s -> py_int env s = Ok n ->
        (rows <> [] -> 12 < n -> forall fig',
           fst (_create_well_subplots env config fig (8, 12)%nat rows cols d w) <> Ok fig')
        /\ ((8 < length rows)%nat -> 1 <= n -> forall fig',
              fst (_create_well_subplots env config fig (8, 12)%nat rows cols d w) <> Ok fig')
        /\ (forall fig',
              fst (_create_well_subplots env config fig (8, 12)%nat rows cols d w) = Ok fig' ->
              exists axs, axes fig' = (axes fig ++ axs)%list
                /\ length axs = (length rows * Z.to_nat n)%nat)).
Proof.
  split; [symmetry; apply (create_well_subplots_read_only env config)|].
  split; [by intros ->|]. split.
  - intros Hne ->. by destruct rows as [|row rows'].
  - intros s n Hs Hn. split; [|split].
    + intros Hne Hwide fig'. apply (create_well_subplots_off_grid _ _ _ _ s n); auto.
    + intros Hlong Hone fig'. apply (create_well_subplots_off_grid _ _ _ _ s n); auto.
    + intros fig'. by apply (create_well_subplots_count _ _ cols _ s n).
Qed.

(** X8.  A plate that does not fit the fixed grid makes
    [create_composite_image] fail, whatever the results: with a last column
    label above 12, with more than 8 rows, with so few columns that
    [fig.axes[i * 12]] of the last row is not there, or with more column
    labels than subplots, the call raises [VisualizationError]. *)
Theorem plate_must_fit results out w s n :
  results <> [] ->
  PLATE_ROWS config <> [] ->
  last (PLATE_COLS config) = Some s -> py_int env s = Ok n ->
  12 < n
  \/ ((8 < length (PLATE_ROWS config))%nat /\ 1 <= n)
  \/ (length (PLATE_ROWS config) * Z.to_nat n <= (length (PLATE_ROWS config) - 1) * 12)%nat
  \/ (length (PLATE_ROWS config) * Z.to_nat n < length (PLATE_COLS config))%nat ->
  fst (create_composite_image env config results out w) = Raise VisualizationError.
Proof.
  intros Hne Hrows Hs Hn Hbad.
  destruct (create_composite_image_run env config results out w Hne)
    as (w1 & r & w2 & w3 & _ & Hfig & _ & ->). cbn [fst].
  destruct r as [[]|e]; [exfalso|done].
  destruct (create_composite_figure_run env config results out
              (PLATE_ROWS config) (PLATE_COLS config) w1)
    as [[e He]|(d & fig0 & fig & _ & Hsub & Hlab & _)]; [congruence|].
  assert (Hsub' : fst (_create_well_subplots env config
            (new_figure (COMPOSITE_FIGURE_SIZE config)) (8, 12)%nat
            (PLATE_ROWS config) (PLATE_COLS config) d w1) = Ok fig0) by by rewrite Hsub.
  destruct Hbad as [Hwide|[Hlong|Hfew]].
  - by apply (create_well_subplots_off_grid _ _ _ _ s n _ _ Hs Hn (or_introl (conj Hrows Hwide)))
      in Hsub'.
  - by apply (create_well_subplots_off_grid _ _ _ _ s n _ _ Hs Hn (or_intror Hlong)) in Hsub'.
  - destruct (create_well_subplots_count _ _ _ _ s n _ _ Hs Hn Hsub') as (axs & Ha & Hl).
    simpl in Ha. rewrite add_plate_labels_run in Hlab.
    destruct (rows_fit fig0 (PLATE_ROWS config)) eqn:Er; [|done].
    destruct (cols_fit fig0 (PLATE_COLS config)) eqn:Ec; [|done].
    apply rows_fit_spec in Er. apply cols_fit_spec in Ec.
    rewrite Ha, Hl in Er, Ec. destruct Er as [Er|Er]; [done|]. lia.
Qed.

End Grid.

(** ** The path of the raw data, the header line, the clustering *)

Lemma append_assoc (a b c : string) : (a +:+ b) +:+ c = a +:+ (b +:+ c).
Proof.
  induction a as [|x a IH]; [done|].
  change (String x ((a +:+ b) +:+ c) = String x (a +:+ b +:+ c)). by f_equal.
Qed.

Lemma join_step_suffix path b :
  (starts_with_slash b = true -> join_step path b = b)
  /\ exists pre, join_step path b = pre +:+ b.
Proof.
  unfold join_step. destruct (starts_with_slash b).
  - split; [done|]. by exists "".
  - split; [done|]. destruct (String.eqb path "" || ends_with_slash path).
    + by exists path.
    + exists (path +:+ "/"). by rewrite append_assoc.
Qed.

Lemma find_header_row_app i pre h post :
  Forall (fun line => is_header_line line = false) pre ->
  is_header_line h = true ->
  find_header_row i (pre ++ h :: post) = Some (i + length pre)%nat.
Proof.
  intros Hpre Hh. revert i. induction Hpre as [|line pre Hline _ IH]; intros i; simpl.
  - rewrite Hh. f_equal. lia.
  - rewrite Hline, IH. f_equal. lia.
Qed.

Section RawData.

Variable env : Env.
Variable config : Config.

(** X9.  [_get_data_file_path] never raises and leaves the world as it is.
    It returns [None] exactly when ['graph_path'] or ['filename'] is missing
    or is no string.  A path it returns is never empty, so that the test
    [not df_file] of the caller only ever catches [None]; it ends with the
    file name, and it is the file name itself when that is absolute: the
    directory of the graph and the raw-data directory then play no part. *)
Theorem get_data_file_path_result l w :
  exists r,
    _get_data_file_path config l w = (Ok r, w)
    /\ (r = None <-> is_string (record_at w l !! "graph_path")
                     && is_string (record_at w l !! "filename") = false)
    /\ forall p, r = Some p ->
         p <> ""
         /\ exists f, record_at w l !! "filename" = Some (VStr f)
              /\ (starts_with_slash f = true -> p = f)
              /\ exists pre, p = pre +:+ f.
Proof.
  rewrite get_data_file_path_run. eexists. split; [reflexivity|]. split.
  - unfold data_file_path.
    destruct (record_at w l !! "graph_path") as [[]|];
      destruct (record_at w l !! "filename") as [[]|]; simpl; split; done.
  - intros p Hp. split; [by eapply data_file_path_nonempty|].
    unfold data_file_path in Hp.
    destruct (record_at w l !! "graph_path") as [[| | |g| |]|]; try done.
    destruct (record_at w l !! "filename") as [[| | |f| |]|]; try done.
    injection Hp as <-. exists f. split; [done|].
    unfold posix_join. simpl. apply join_step_suffix.
Qed.

(** X10.  [_load_and_clean_data] takes the first line that holds both
    header tokens as the header: the lines before it, and only those, are
    skipped when the table is read, and what comes after the header line is
    not looked at for tokens. *)
Theorem header_after_preamble df_file pre h post w :
  fst (open_lines env df_file w) = Ok (pre ++ h :: post)%list ->
  Forall (fun line => is_header_line line = false) pre ->
  is_header_line h = true ->
  _load_and_clean_data env df_file w
  = (Ok match read_csv env (pre ++ h :: post)%list (length pre) with
        | Ok df =>
            if has_column df "Ch1Amplitude" && has_column df "Ch2Amplitude"
            then Some (dropna (df_select required_cols df)) else None
        | Raise _ => None
        end, w).
Proof.
  intros Hopen Hpre Hh. rewrite load_and_clean_data_run, Hopen. unfold load_result.
  rewrite (find_header_row_app 0 pre h post Hpre Hh). simpl.
  destruct (read_csv env (pre ++ h :: post)%list (length pre)) as [df|e]; [|done].
  by rewrite andb_true_r.
Qed.

(** X11.  [_validate_clustering_results] on what
    [_extract_clustering_results] has read from a record never raises: the
    two keys it reads are always there.  It returns [True] exactly when the
    record holds both ['df_filtered'] and ['target_mapping'], neither being
    [None]; the well id plays no part.  On a dictionary of another make a
    missing ['df_filtered'] is a [KeyError], a ['df_filtered'] that is
    [None] gives [False] without ['target_mapping'] being read, and a
    missing ['target_mapping'] is a [KeyError] otherwise. *)
Theorem clustering_results_validated l w well_id :
  (exists cr,
     _extract_clustering_results l w = (Ok cr, w)
     /\ _validate_clustering_results cr well_id w
        = (Ok (negb (is_none (dict_get (record_at w l) "df_filtered" VNone))
               && negb (is_none (dict_get (record_at w l) "target_mapping" VNone))), w))
  /\ (forall cr : dict, cr !! "df_filtered" = None ->
        _validate_clustering_results cr well_id w = (Raise KeyError, w))
  /\ (forall cr : dict, cr !! "df_filtered" = Some VNone ->
        _validate_clustering_results cr well_id w = (Ok false, w))
  /\ (forall (cr : dict) a, cr !! "df_filtered" = Some a -> is_none a = false ->
        cr !! "target_mapping" = None ->
        _validate_clustering_results cr well_id w = (Raise KeyError, w)).
Proof.
  split; [|split; [|split]].
  - destruct (extract_clustering_results_run l w) as (cr & Hcr & Ha & Hb).
    exists cr. split; [done|]. by apply validate_clustering_results_run.
  - intros cr H. unfold _validate_clustering_results, subscript, bind, lift. by rewrite H.
  - intros cr H. unfold _validate_clustering_results, subscript, bind, lift. by rewrite H.
  - intros cr a Ha Hn Hb. unfold _validate_clustering_results, subscript, bind, lift.
    rewrite Ha, Hn. by rewrite Hb.
Qed.

End RawData.

(** ** From the temporary picture to the subplot *)

Section PictureShown.

Variable env : Env.
Variable config : Config.

(** A record that leaves the loop with another ['temp_graph_path'] than it
    came with holds the path of the temporary picture of its own well, and
    the picture is there. *)
Lemma generate_well_images_temp_key results out w w' l :
  _generate_well_images env config results out w = (Ok tt, w') ->
  record_at w' l !! temp_key = record_at w l !! temp_key
  \/ exists well img,
       record_at w l !! "well" = Some well
       /\ record_at w' l !! temp_key = Some (VStr (temp_path config out well))
       /\ files w' !! temp_path config out well = Some (ImageFile img).
Proof.
  revert w. induction results as [|l0 rest IH]; intros w Hrun.
  - injection Hrun as <-. by left.
  - unfold _generate_well_images in Hrun. cbn [for_each] in Hrun.
    destruct (generate_well_image_effect env config out l0 w) as (wa & Hstep & _ & _ & Heff).
    rewrite (bind_ok _ _ _ _ _ Hstep) in Hrun.
    destruct (generate_well_images_loop env config rest out wa)
      as (w'' & ts & Hloop & _ & _ & _ & _ & _ & _ & _ & Hpic).
    unfold _generate_well_images in Hloop. rewrite Hrun in Hloop. injection Hloop as <-.
    assert (Hsame : forall k, k <> temp_key -> record_at wa l !! k = record_at w l !! k).
    { intros k Hk. destruct Heff as [(Hh & _)|((well & img & _ & Hh & _) & _)];
        unfold record_at at 1; rewrite Hh; [done|].
      destruct (decide (l0 = l)) as [->|Hne].
      - rewrite lookup_insert_eq. simpl. by rewrite lookup_insert_ne.
      - by rewrite lookup_insert_ne. }
    destruct (IH wa Hrun) as [Hkeep|(well & img & Hwell & Hkey & Hfile)].
    + rewrite Hkeep.
      destruct Heff as [(Hh & _)|((well & img & Hwell & Hh & _ & _ & Hfile) & _)].
      * left. unfold record_at. by rewrite Hh.
      * destruct (decide (l0 = l)) as [->|Hne].
        -- right. destruct (Hpic _ _ Hfile) as [img' Himg'].
           exists well, img'. split; [done|]. split; [|done].
           unfold record_at at 1. rewrite Hh, lookup_insert_eq. simpl.
           apply lookup_insert_eq.
        -- left. unfold record_at. by rewrite Hh, lookup_insert_ne.
    + right. exists well, img. split; [|done].
      rewrite <- Hwell. symmetry. by apply Hsame.
Qed.

(** X12.  On the plate of the specification, a record that temp-image
    generation has given a picture, and that is the last of its well id in
    the list, is drawn from that picture: the subplot at the position of
    the well shows what is on disk at the temporary path of the well, with
    no placeholder text; the original ['graph_path'] is not used. *)
Theorem plotted_picture_shown results out w w1 w2 l wid i row j :
  PLATE_ROWS config = spec_plate_rows ->
  PLATE_COLS config = spec_plate_cols ->
  _generate_well_images env config results out w = (Ok tt, w1) ->
  record_at w l !! temp_key = None ->
  is_Some (record_at w1 l !! temp_key) ->
  last_with_well w1 wid results None = Some l ->
  spec_plate_rows !! i = Some row -> (j < 12)%nat ->
  WELL_FORMAT config row (Z.of_nat j + 1) = wid ->
  _create_composite_figure env config results out
    (PLATE_ROWS config) (PLATE_COLS config) w1 = (Ok tt, w2) ->
  exists fig ax img,
    saved_of w2 = (saved_of w1 ++ [(out, fig)])%list
    /\ axes fig !! (i * 12 + j)%nat = Some ax
    /\ record_at w1 l !! temp_key = Some (VStr (temp_path config out (VStr wid)))
    /\ files w1 !! temp_path config out (VStr wid) = Some (ImageFile img)
    /\ shown ax = Some img /\ texts ax = [].
Proof.
  intros Hrows Hcols Hgen Hfresh Hgiven Hlast Hrow Hj Hwid Hrun.
  rewrite Hrows, Hcols in Hrun.
  destruct (last_with_well_some _ _ _ _ Hlast) as [Hin Hwell1].
  destruct (generate_well_images_loop env config results out w)
    as (w1' & ts & Hgen' & _ & _ & _ & _ & _ & Hfields & _).
  rewrite Hgen in Hgen'. injection Hgen' as <-.
  destruct (generate_well_images_temp_key results out w w1 l Hgen)
    as [Hkeep|(well & img & Hwell & Hkey & Hfile)].
  { rewrite Hkeep, Hfresh in Hgiven. by destruct Hgiven. }
  assert (well = VStr wid) as ->.
  { unfold well_of, dict_get in Hwell1.
    rewrite (Hfields l "well") in Hwell1 by done. by rewrite Hwell in Hwell1. }
  destruct (create_composite_figure_run env config results out
              spec_plate_rows spec_plate_cols w1)
    as [[e He]|(d & fig0 & fig & Hd & Hsub & Hlab & Hsave)]; [congruence|].
  rewrite Hsave in Hrun.
  destruct (fig_savefig_run env fig out w1) as [Hs|(w2' & Hs & _ & _ & Hsv & _)]; [congruence|].
  rewrite Hrun in Hs. injection Hs as <-.
  destruct (create_well_subplots_run env config d
              (new_figure (COMPOSITE_FIGURE_SIZE config)) w1) as [_ Hfig].
  destruct (Hfig fig0) as (axs & Ha & _ & Hcells); [by rewrite Hsub|].
  destruct (Hcells i row j Hrow Hj) as (ax & Hax & Hshows).
  rewrite Hwid in Hshows. unfold subplot_shows in Hshows.
  rewrite well_results_of_run in Hd. injection Hd as Hd.
  rewrite (well_results_from_lookup w1 wid results [] d Hd) in Hshows. simpl in Hshows.
  rewrite Hlast in Hshows. destruct Hshows as (ax0 & Hp & ->).
  assert (Hgp : graph_path_of (record_at w1 l) = VStr (temp_path config out (VStr wid))).
  { unfold graph_path_of, dict_get. fold temp_key. by rewrite Hkey. }
  rewrite (populate_data_well_image env blank_axes wid l w1 img) in Hp.
  - injection Hp as <-. eexists fig, _, img. split; [done|]. split.
    + rewrite (add_plate_labels_axes _ _ _ _ _ _ Hlab), Ha. simpl. exact Hax.
    + done.
  - rewrite Hgp. apply truthy_nonempty, temp_path_nonempty.
  - rewrite Hgp. simpl. by rewrite Hfile.
  - rewrite Hgp. simpl. by rewrite Hfile.
Qed.

End PictureShown.

(** ** What a data well is given *)

Section Decorations.

Variable env : Env.

(** X13.  [_populate_data_well] only reads the world, and ends in one of
    three ways.  It shows a picture, and then, and only then, sets the
    title (the sample name, or the well id when the record has none or an
    empty one) and the border of the record, adding no text.  Or it adds
    one text, ["No Image"] or ["Image Error"], and leaves picture, title and
    spines as they were: a well without a readable picture gets no border,
    whatever its flags.  Or it raises, which only [os.path.exists] brings
    about, outside the [try]: [TypeError] for a graph path that is an
    object other than a string, a number or a truth value, [OverflowError]
    for one that is an integer beyond a C [int]. *)
Theorem populate_data_well_result ax well l w :
  snd (_populate_data_well env ax well l w) = w
  /\ match fst (_populate_data_well env ax well l w) with
     | Ok ax' =>
         (exists img,
            plt_imread (graph_path_of (record_at w l)) w = (Ok img, w)
            /\ shown ax' = Some img /\ texts ax' = texts ax
            /\ title ax'
               = Some {| title_label :=
                           if truthy (dict_get (record_at w l) "sample_name" VNone)
                           then dict_get (record_at w l) "sample_name" VNone
                           else VStr well;
                         title_fontsize := 6; title_pad := 2 |}
            /\ spines ax'
               = map (fun ns => (fst ns, set_border (fst (border_of (record_at w l)))
                                           (snd (border_of (record_at w l))) (snd ns)))
                   (spines ax))
         \/ (exists t, texts ax' = (texts ax ++ [t])%list
               /\ (tx_s t = "No Image" \/ tx_s t = "Image Error")
               /\ shown ax' = shown ax /\ title ax' = title ax /\ spines ax' = spines ax)
     | Raise e =>
         (e = TypeError /\ exists id, graph_path_of (record_at w l) = VObj id)
         \/ (e = OverflowError
             /\ exists z, graph_path_of (record_at w l) = VInt z
                  /\ (z < - 2 ^ 31 \/ 2 ^ 31 <= z))
     end.
Proof.
  split; [symmetry; apply (populate_data_well_read_only env)|].
  destruct (truthy (graph_path_of (record_at w l))) eqn:Ht.
  2:{ rewrite populate_data_well_no_image by by left. simpl. right. eauto 10. }
  destruct (fst (os_path_exists env (graph_path_of (record_at w l)) w)) as [[]|e] eqn:Hex.
  - destruct (fst (plt_imread (graph_path_of (record_at w l)) w)) as [img|e] eqn:Him.
    + rewrite (populate_data_well_image env ax well l w img Ht Hex Him). simpl. left.
      exists img. split; [|done].
      rewrite (read_only_run _ w (preserves_plt_imread eq _)). by rewrite Him.
    + rewrite (populate_data_well_image_error env ax well l w e Ht Hex Him). simpl.
      right. eauto 10.
  - rewrite populate_data_well_no_image by by right. simpl. right. eauto 10.
  - unfold _populate_data_well.
    rewrite (bind_ok _ _ w (dict_get (record_at w l) "graph_path" VNone) w) by reflexivity.
    rewrite (bind_ok _ _ w (graph_path_of (record_at w l)) w) by reflexivity.
    rewrite Ht.
    pose proof (read_only_run _ w (preserves_os_path_exists eq env
                  (graph_path_of (record_at w l)))) as Hro.
    rewrite Hex in Hro. rewrite (bind_raise _ _ _ _ _ Hro). simpl.
    unfold os_path_exists in Hex.
    destruct (graph_path_of (record_at w l)) as [|b|z| | |id]; try done; simpl in Hex.
    + by destruct b.
    + unfold stat_fd in Hex.
      destruct ((z <? - 2 ^ 31) || (2 ^ 31 <=? z)) eqn:Hz.
      * injection Hex as <-. right. split; [done|]. exists z. split; [done|].
        apply orb_true_iff in Hz as [Hz|Hz]; [left|right]; lia.
      * by destruct (z <? 0).
    + injection Hex as <-. left. eauto.
Qed.

End Decorations.

(** ** The clean-up, as a function *)

Section CleanupEffect.

Variable env : Env.

(** X14.  [_cleanup_temp_files] never raises, whatever [os.remove] does.
    It removes exactly the paths of [temp_files] that hold a regular file
    which [os.remove] accepts, each once; a directory on the list and every
    path not on it stay as they are.  The list itself is not emptied.  Every
    record of [results] loses its ['temp_graph_path'] and keeps the rest;
    no other record is touched. *)
Theorem cleanup_temp_files_effect results w :
  exists w' rs,
    _cleanup_temp_files env results w = (Ok tt, w')
    /\ NoDup rs
    /\ (forall p, p ∈ rs <->
          p ∈ temp_files w
          /\ (exists f, files w !! p = Some f /\ f <> Directory)
          /\ remove_ok env p = true)
    /\ (forall p, files w' !! p = if decide (p ∈ rs) then None else files w !! p)
    /\ trace w' = (trace w ++ map EvRemove rs)%list
    /\ temp_files w' = temp_files w
    /\ (forall l, l ∈ results -> record_at w' l = delete temp_key (record_at w l))
    /\ (forall l, l ∉ results -> record_at w' l = record_at w l).
Proof.
  destruct (cleanup_temp_files_trace env results w)
    as (w' & rs & Hrun & Htr & Hall & Hnd & Hreg & Hrest & Hin & Hout).
  destruct (cleanup_temp_files_run env results w)
    as (w'' & Hrun' & Htf & _ & _ & _ & Hgone & _).
  rewrite Hrun in Hrun'. injection Hrun' as <-.
  exists w', rs. split; [done|]. split; [done|]. split; [|split].
  - intros p. split.
    + intros Hp.
      pose proof (proj1 (Forall_forall _ _) Hall p Hp) as (Ht & Hthere & _).
      pose proof (proj1 (Forall_forall _ _) Hreg p Hp) as (Hnodir & Hok).
      split; [done|]. split; [|done].
      destruct (files w !! p) as [f|]; [|done]. exists f. split; [done|].
      intros ->. done.
    + intros (Ht & (f & Hf & Hnodir) & Hok).
      destruct (decide (p ∈ rs)) as [|Hno]; [done|exfalso].
      destruct (Hgone p Ht) as [Hnone|Hrefused].
      * unfold no_directory. rewrite Hf. by intros [= ->].
      * rewrite (Hrest _ Hno), Hf in Hnone. done.
      * congruence.
  - intros p. destruct (decide (p ∈ rs)) as [Hp|Hp]; [|by apply Hrest].
    by pose proof (proj1 (Forall_forall _ _) Hall p Hp) as (_ & _ & Hnone).
  - done.
Qed.

End CleanupEffect.

(** * The further properties at work on the demo plate *)

Lemma well_image_generated_witness :
  exists w',
    _generate_well_image demo_env demo_config demo_out 0%nat demo_world = (Ok tt, w')
    /\ record_at w' 0%nat !! temp_key
       = Some (VStr (temp_path demo_config demo_out (VStr "A01")))
    /\ files w' !! temp_path demo_config demo_out (VStr "A01") = Some (ImageFile 7%nat)
    /\ temp_files w'
       = (temp_files demo_world ++ [temp_path demo_config demo_out (VStr "A01")])%list.
Proof.
  eapply (well_image_generated demo_env demo_config demo_out 0%nat demo_world demo_raw
            (dropna (df_select required_cols demo_frame)) _ (VStr "A01") 7%nat).
  - vm_compute. reflexivity.
  - reflexivity.
  - vm_compute. reflexivity.
  - eexists. vm_compute. reflexivity.
  - vm_compute. reflexivity.
  - vm_compute. reflexivity.
  - vm_compute. reflexivity.
  - vm_compute. reflexivity.
  - reflexivity.
  - reflexivity.
Defined.

Lemma untouched_files_witness :
  kept_or_new_directory demo_world
    (snd (create_composite_image demo_env demo_config [0%nat] demo_out demo_world))
    demo_raw.
Proof.
  apply (untouched_files demo_env demo_config [0%nat] demo_out demo_world demo_raw).
  - vm_compute. discriminate.
  - intros l well Hl Hw. apply list_elem_of_singleton in Hl as ->.
    vm_compute in Hw. injection Hw as <-. vm_compute. discriminate.
Defined.

Lemma trace_order_witness :
  exists ts saves rs,
    trace (snd (create_composite_image demo_env demo_config [0%nat] demo_out demo_world))
    = (trace demo_world ++ map EvPlot ts ++ saves ++ map EvRemove rs)%list
    /\ temp_files (snd (create_composite_image demo_env demo_config [0%nat] demo_out
                          demo_world)) = ts
    /\ Forall (fun r => r ∈ ts) rs /\ NoDup rs
    /\ match fst (create_composite_image demo_env demo_config [0%nat] demo_out demo_world) with
       | Ok _ => exists fig, saves = [EvSavefig demo_out fig]
       | Raise _ => saves = []
       end.
Proof.
  apply (trace_order demo_env demo_config [0%nat] demo_out demo_world). discriminate.
Defined.

(** A plate of thirteen columns does not fit the grid. *)
Lemma plate_must_fit_witness :
  fst (create_composite_image demo_env
         (plate_config spec_plate_rows (spec_plate_cols ++ ["13"])) [0%nat] demo_out
         demo_world)
  = Raise VisualizationError.
Proof.
  apply (plate_must_fit demo_env (plate_config spec_plate_rows (spec_plate_cols ++ ["13"]))
           [0%nat] demo_out demo_world "13" 13).
  - discriminate.
  - discriminate.
  - reflexivity.
  - reflexivity.
  - left. lia.
Defined.

(** Nor does a plate of eight rows of six: the label of the fifth row looks
    for [fig.axes[48]], and there are 48 subplots. *)
Example six_columns_fail :
  fst (create_composite_image demo_env
         (plate_config spec_plate_rows ["1"; "2"; "3"; "4"; "5"; "6"]) [0%nat] demo_out
         demo_world)
  = Raise VisualizationError
  /\ fst (create_composite_image demo_env
            (plate_config ["A"] ["1"; "2"; "3"; "4"; "5"; "6"]) [0%nat] demo_out
            demo_world)
     = Ok demo_out.
Proof. split; vm_compute; reflexivity. Qed.

Lemma header_after_preamble_witness :
  _load_and_clean_data demo_env demo_raw demo_world
  = (Ok match read_csv demo_env
                (["Well A01"] ++ "Ch1Amplitude,Ch2Amplitude" :: ["1012.5,2210.0"; ",2190.4"])%list
                (length ["Well A01"]) with
        | Ok df =>
            if has_column df "Ch1Amplitude" && has_column df "Ch2Amplitude"
            then Some (dropna (df_select required_cols df)) else None
        | Raise _ => None
        end, demo_world).
Proof.
  apply (header_after_preamble demo_env demo_raw ["Well A01"] "Ch1Amplitude,Ch2Amplitude"
           ["1012.5,2210.0"; ",2190.4"] demo_world).
  - vm_compute. reflexivity.
  - repeat constructor.
  - vm_compute. reflexivity.
Defined.

Lemma plotted_picture_shown_witness :
  exists fig ax img,
    saved_of (snd (_create_composite_figure demo_env demo_config [0%nat] demo_out
                     (PLATE_ROWS demo_config) (PLATE_COLS demo_config)
                     (snd (_generate_well_images demo_env demo_config [0%nat] demo_out
                             demo_world))))
    = (saved_of (snd (_generate_well_images demo_env demo_config [0%nat] demo_out
                        demo_world)) ++ [(demo_out, fig)])%list
    /\ axes fig !! (0 * 12 + 0)%nat = Some ax
    /\ record_at (snd (_generate_well_images demo_env demo_config [0%nat] demo_out
                         demo_world)) 0%nat !! temp_key
       = Some (VStr (temp_path demo_config demo_out (VStr "A01")))
    /\ files (snd (_generate_well_images demo_env demo_config [0%nat] demo_out demo_world))
         !! temp_path demo_config demo_out (VStr "A01") = Some (ImageFile img)
    /\ shown ax = Some img /\ texts ax = [].
Proof.
  apply (plotted_picture_shown demo_env demo_config [0%nat] demo_out demo_world
           (snd (_generate_well_images demo_env demo_config [0%nat] demo_out demo_world))
           (snd (_create_composite_figure demo_env demo_config [0%nat] demo_out
                   (PLATE_ROWS demo_config) (PLATE_COLS demo_config)
                   (snd (_generate_well_images demo_env demo_config [0%nat] demo_out
                           demo_world))))
           0%nat "A01" 0%nat "A" 0%nat).
  - reflexivity.
  - reflexivity.
  - vm_compute. reflexivity.
  - vm_compute. reflexivity.
  - eexists. vm_compute. reflexivity.
  - vm_compute. reflexivity.
  - reflexivity.
  - lia.
  - vm_compute. reflexivity.
  - vm_compute. reflexivity.
Defined.
